(** * nimp: the [package] command (src/nimp/commands/package.py)

    A shallow embedding of the release packaging pipeline and of the
    library routines it relies on (a fragment of Python's [re], [str.format],
    [str.split], [str.lower], and the [os]/[shutil] file operations), followed
    by the properties of the pipeline stated in the specification. *)

From Stdlib Require Import String Ascii ZArith Lia.
From stdpp Require Import base option list gmap strings sorting.
From Equations Require Import Equations.

Local Open Scope Z_scope.
Local Open Scope nat_scope.

(** ** Python values and exceptions *)

Inductive os_error :=
| FileNotFoundError
| FileExistsError
| IsADirectoryError
| NotADirectoryError
| SameFileError.

Inductive exn :=
| RuntimeError (msg : string)
| KeyError (msg : string)
| ValueError (msg : string)
| IndexError (msg : string)
| AttributeError (msg : string)
| OSError (kind : os_error) (path : string)
| LibraryError                 (* raised inside a routine supplied from outside *)
| Unmodelled (what : string).  (* the input leaves the modelled fragment of a library *)

Inductive result (A : Type) :=
| Ok (a : A)
| Raise (e : exn).
Arguments Ok {A} a.
Arguments Raise {A} e.

Definition result_bind {A B} (r : result A) (k : A → result B) : result B :=
  match r with
  | Ok a => k a
  | Raise e => Raise e
  end.

Notation "'let*' x ':=' r 'in' k" := (result_bind r (λ x, k))
  (at level 10, x name, r at level 100, k at level 200).

(** ** Text *)

Definition newline : ascii := "010"%char.

Fixpoint str_drop_prefix (p s : string) : option string :=
  match p with
  | "" => Some s
  | String c p' =>
      match s with
      | String d s' => if decide (c = d) then str_drop_prefix p' s' else None
      | "" => None
      end
  end.

Fixpoint str_drop (n : nat) (s : string) : string :=
  match n, s with
  | S n', String _ s' => str_drop n' s'
  | _, _ => s
  end.

Fixpoint str_concat (l : list string) : string :=
  match l with
  | [] => ""
  | s :: l' => s +:+ str_concat l'
  end.

Definition str_mem (c : ascii) (s : string) : Prop :=
  ∃ a b, s = a +:+ String c b.

(** [s.split(sep)] for a one-character separator. *)
Fixpoint py_split (sep : ascii) (s : string) : list string :=
  match s with
  | "" => [""]
  | String c s' =>
      if decide (c = sep) then "" :: py_split sep s'
      else match py_split sep s' with
           | w :: ws => String c w :: ws
           | [] => [String c ""]
           end
  end.

(** [s.lower()] on ASCII text. *)
Definition ascii_lower (c : ascii) : ascii :=
  let n := nat_of_ascii c in
  if (65 <=? n)%nat && (n <=? 90)%nat then ascii_of_nat (n + 32) else c.

Fixpoint py_lower (s : string) : string :=
  match s with
  | "" => ""
  | String c s' => String (ascii_lower c) (py_lower s')
  end.

(** [line], the text of [s] up to its first newline, and the lines of [s],
    as [s.split('\n')] gives them. *)
Fixpoint first_line (s : string) : string :=
  match s with
  | "" => ""
  | String c s' => if decide (c = newline) then "" else String c (first_line s')
  end.

Definition py_lines (s : string) : list string := py_split newline s.

(** ** A fragment of Python's [re]

    Patterns are parsed from their text.  The fragment covers ordinary
    characters, [.], [^], [$] and one lazy capture group, written [(.*?)] or
    [(?P<name>.*?)].  A pattern using any other special character is outside
    the fragment, and so is a pattern with two groups. *)

Inductive re_atom :=
| RChar (c : ascii)
| RDot
| RBol
| REol
| RLazyGroup (name : option string).

Record re_flags := { MULTILINE : bool; DOTALL : bool }.

Definition re_special (c : ascii) : bool :=
  bool_decide (c ∈ ["\"; "^"; "$"; "."; "|"; "?"; "*"; "+"; "("; ")"; "["; "]"; "{"; "}"]%char).

Definition re_name_char (c : ascii) : bool :=
  let n := nat_of_ascii c in
  ((48 <=? n) && (n <=? 57)) || ((65 <=? n) && (n <=? 90))
  || ((97 <=? n) && (n <=? 122)) || (n =? 95).

(** Parser states: at top level, just after an opening parenthesis, inside a
    group name, and inside the fixed remainder of a group. *)
Inductive re_pstate :=
| PTop
| PParen
| PName (acc : string)
| PExpect (todo : string) (name : option string).

Fixpoint re_parse_go (st : re_pstate) (grouped : bool) (pat : string)
  : option (list re_atom) :=
  match pat with
  | "" => match st with PTop => Some [] | _ => None end
  | String c pat' =>
      match st with
      | PTop =>
          if decide (c = "^"%char) then cons RBol <$> re_parse_go PTop grouped pat'
          else if decide (c = "$"%char) then cons REol <$> re_parse_go PTop grouped pat'
          else if decide (c = "."%char) then cons RDot <$> re_parse_go PTop grouped pat'
          else if decide (c = "("%char) then
            if grouped then None else re_parse_go PParen true pat'
          else if re_special c then None
          else cons (RChar c) <$> re_parse_go PTop grouped pat'
      | PParen =>
          if decide (c = "."%char) then re_parse_go (PExpect "*?)" None) grouped pat'
          else if decide (c = "?"%char) then re_parse_go (PExpect "P<" None) grouped pat'
          else None
      | PName acc =>
          if decide (c = ">"%char) then
            match acc with
            | "" => None
            | _ => re_parse_go (PExpect ".*?)" (Some acc)) grouped pat'
            end
          else if re_name_char c then re_parse_go (PName (acc +:+ String c "")) grouped pat'
          else None
      | PExpect todo name =>
          match todo with
          | String d todo' =>
              if decide (c = d) then
                match todo' with
                | "" =>
                    if decide (d = "<"%char) then re_parse_go (PName "") grouped pat'
                    else cons (RLazyGroup name) <$> re_parse_go PTop grouped pat'
                | _ => re_parse_go (PExpect todo' name) grouped pat'
                end
              else None
          | "" => None
          end
      end
  end.

Definition re_compile (pat : string) : option (list re_atom) :=
  re_parse_go PTop false pat.

Definition re_dot_ok (fl : re_flags) (c : ascii) : bool :=
  DOTALL fl || negb (bool_decide (c = newline)).

Definition re_at_bol (fl : re_flags) (prev : option ascii) : bool :=
  match prev with
  | None => true
  | Some c => MULTILINE fl && bool_decide (c = newline)
  end.

Definition re_at_eol (fl : re_flags) (s : string) : bool :=
  match s with
  | "" => true
  | String c s' => bool_decide (c = newline) && (MULTILINE fl || bool_decide (s' = ""))
  end.

(** A successful match: the text of the group, the last character before the
    end of the match (what [^] looks at next) and the text after the match. *)
Definition re_hit : Type := string * option ascii * string.

(** [.*?] followed by the rest of the pattern [k]: the shortest extension
    first. *)
Fixpoint re_lazy (fl : re_flags) (k : option ascii → string → option re_hit)
    (prev : option ascii) (s : string) : option re_hit :=
  match k prev s with
  | Some (_, last, rest) => Some ("", last, rest)
  | None =>
      match s with
      | String d s' =>
          if re_dot_ok fl d then
            match re_lazy fl k (Some d) s' with
            | Some (g, last, rest) => Some (String d g, last, rest)
            | None => None
            end
          else None
      | "" => None
      end
  end.

(** Matching at the current position; [prev] is the character before it. *)
Fixpoint re_match (fl : re_flags) (p : list re_atom) (prev : option ascii) (s : string)
  : option re_hit :=
  match p with
  | [] => Some ("", prev, s)
  | RChar c :: p' =>
      match s with
      | String d s' => if decide (c = d) then re_match fl p' (Some d) s' else None
      | "" => None
      end
  | RDot :: p' =>
      match s with
      | String d s' => if re_dot_ok fl d then re_match fl p' (Some d) s' else None
      | "" => None
      end
  | RBol :: p' => if re_at_bol fl prev then re_match fl p' prev s else None
  | REol :: p' => if re_at_eol fl s then re_match fl p' prev s else None
  | RLazyGroup _ :: p' => re_lazy fl (re_match fl p') prev s
  end.

(** The leftmost match at or after the current position, with the text that
    precedes it. *)
Fixpoint re_scan (fl : re_flags) (p : list re_atom) (prev : option ascii) (s : string)
  : option (string * re_hit) :=
  match re_match fl p prev s with
  | Some m => Some ("", m)
  | None =>
      match s with
      | String c s' =>
          match re_scan fl p (Some c) s' with
          | Some (pre, m) => Some (String c pre, m)
          | None => None
          end
      | "" => None
      end
  end.

Fixpoint re_group_name (p : list re_atom) : option string :=
  match p with
  | [] => None
  | RLazyGroup name :: _ => name
  | _ :: p' => re_group_name p'
  end.

(** [re.search(pattern, string, flags)], then [match.group(name)]: [None]
    stands for Python's [None] (no match). *)
Definition re_search_group (pat : string) (name : string) (s : string) (fl : re_flags)
  : result (option string) :=
  match re_compile pat with
  | None => Raise (Unmodelled "re.compile")
  | Some p =>
      match re_scan fl p None s with
      | None => Ok None
      | Some (_, (g, _, _)) =>
          if decide (re_group_name p = Some name) then Ok (Some g)
          else Raise (IndexError "no such group")
      end
  end.

Definition inspect {A} (a : A) : {b : A | a = b} := exist _ a eq_refl.

(** [re.sub(pattern, '', string, 0, flags)]: the text outside the
    non-overlapping matches, leftmost first.  A match of no characters leaves
    the fragment. *)
Equations re_sub_atoms (fl : re_flags) (p : list re_atom) (prev : option ascii) (s : string)
  : option string by wf (String.length s) lt :=
  re_sub_atoms fl p prev s with inspect (re_scan fl p prev s) := {
    | exist _ None _ => Some s
    | exist _ (Some (pre, (_, last, rest))) _
        with decide (String.length rest < String.length s) := {
        | left _ => String.app pre <$> re_sub_atoms fl p last rest
        | right _ => None } }.

Definition re_sub_empty (pat : string) (s : string) (fl : re_flags) : result string :=
  match re_compile pat with
  | None => Raise (Unmodelled "re.compile")
  | Some p =>
      match re_sub_atoms fl p None s with
      | Some out => Ok out
      | None => Raise (Unmodelled "re.sub")
      end
  end.

Definition fl_multiline : re_flags := {| MULTILINE := true; DOTALL := false |}.
Definition fl_dotall : re_flags := {| MULTILINE := false; DOTALL := true |}.

(** ** [str.format]

    The format string is read once from left to right, as CPython's markup
    iterator does: literal text with [{{] and [}}] standing for one brace,
    and replacement fields [{name!conversion:spec}].  Every item is rendered
    as soon as it is read, so the first error in reading order is the one
    raised. *)

Inductive fmt_item :=
| FLit (c : ascii)
| FField (name : string) (conv : option ascii) (spec : string)
| FError (msg : string).

Inductive fmt_state :=
| MText
| MOpen                                             (* after a [{] *)
| MClose                                            (* after a [}] *)
| MName (acc : string) (bracket : bool)             (* in a field name *)
| MConv (name : string)                             (* after [!] *)
| MConvEnd (name : string) (conv : ascii)           (* after the conversion *)
| MSpec (name : string) (conv : option ascii) (acc : string) (depth : nat).

Definition snoc_char (s : string) (c : ascii) : string := s +:+ String c "".

Definition fmt_at_end (st : fmt_state) : list fmt_item :=
  match st with
  | MText => []
  | MOpen => [FError "Single '{' encountered in format string"]
  | MClose => [FError "Single '}' encountered in format string"]
  | MName _ _ => [FError "expected '}' before end of string"]
  | MConv _ => [FError "end of string while looking for conversion specifier"]
  | MConvEnd _ _ => [FError "unmatched '{' in format spec"]
  | MSpec _ _ _ _ => [FError "unmatched '{' in format spec"]
  end.

(** One character inside a field name, outside brackets. *)
Definition fmt_name_char (acc : string) (c : ascii) : fmt_item + fmt_state :=
  if decide (c = "{"%char) then inl (FError "unexpected '{' in field name")
  else if decide (c = "["%char) then inr (MName (snoc_char acc c) true)
  else if decide (c = "}"%char) then inl (FField acc None "")
  else if decide (c = ":"%char) then inr (MSpec acc None "" 1)
  else if decide (c = "!"%char) then inr (MConv acc)
  else inr (MName (snoc_char acc c) false).

Fixpoint fmt_markup (st : fmt_state) (s : string) : list fmt_item :=
  match s with
  | "" => fmt_at_end st
  | String c s' =>
      match st with
      | MText =>
          if decide (c = "{"%char) then fmt_markup MOpen s'
          else if decide (c = "}"%char) then fmt_markup MClose s'
          else FLit c :: fmt_markup MText s'
      | MOpen =>
          if decide (c = "{"%char) then FLit c :: fmt_markup MText s'
          else match fmt_name_char "" c with
               | inl (FError msg) => [FError msg]
               | inl item => item :: fmt_markup MText s'
               | inr st' => fmt_markup st' s'
               end
      | MClose =>
          if decide (c = "}"%char) then FLit c :: fmt_markup MText s'
          else [FError "Single '}' encountered in format string"]
      | MName acc true =>
          fmt_markup (MName (snoc_char acc c) (negb (bool_decide (c = "]"%char)))) s'
      | MName acc false =>
          match fmt_name_char acc c with
          | inl (FError msg) => [FError msg]
          | inl item => item :: fmt_markup MText s'
          | inr st' => fmt_markup st' s'
          end
      | MConv name => fmt_markup (MConvEnd name c) s'
      | MConvEnd name conv =>
          if decide (c = "}"%char) then FField name (Some conv) "" :: fmt_markup MText s'
          else if decide (c = ":"%char) then fmt_markup (MSpec name (Some conv) "" 1) s'
          else [FError "expected ':' after conversion specifier"]
      | MSpec name conv acc depth =>
          if decide (c = "{"%char) then fmt_markup (MSpec name conv (snoc_char acc c) (S depth)) s'
          else if decide (c = "}"%char) then
            match depth with
            | 1 => FField name conv acc :: fmt_markup MText s'
            | _ => fmt_markup (MSpec name conv (snoc_char acc c) (pred depth)) s'
            end
          else fmt_markup (MSpec name conv (snoc_char acc c) depth) s'
      end
  end.

(** The argument a field names: the part of the field name before the first
    [.] or [[], and what follows it. *)
Fixpoint fmt_name_split (name : string) : string * string :=
  match name with
  | "" => ("", "")
  | String c name' =>
      if decide (c = "."%char) then ("", name)
      else if decide (c = "["%char) then ("", name)
      else let '(first, rest) := fmt_name_split name' in (String c first, rest)
  end.

Definition fmt_arg_name (name : string) : string := (fmt_name_split name).1.

Definition ascii_digit (c : ascii) : option Z :=
  let n := nat_of_ascii c in
  if (48 <=? n) && (n <=? 57) then Some (Z.of_nat n - 48)%Z else None.

Fixpoint fmt_get_integer (acc : Z) (s : string) : option Z :=
  match s with
  | "" => Some acc
  | String c s' =>
      match ascii_digit c with
      | Some d => fmt_get_integer (acc * 10 + d)%Z s'
      | None => None
      end
  end.

Definition PY_SSIZE_T_MAX : Z := (2 ^ 63 - 1)%Z.

Section Format.
(** Attribute and index lookups on the value, the [!r] and [!a]
    conversions and non-empty format specifiers are rendered by the Python
    runtime; their result is taken from outside:
    [py_render accessors conversion spec value]. *)
Variable py_render : string → option ascii → string → string → result string.

(** Keyword arguments only: [text.format(k1 = v1, ...)]. *)
Definition fmt_field (kwargs : list (string * string))
    (name : string) (conv : option ascii) (spec : string) : result string :=
  let '(first, rest) := fmt_name_split name in
  match fmt_get_integer 0 first with
  | Some n =>
      if decide (PY_SSIZE_T_MAX < n)%Z
      then Raise (ValueError "Too many decimal digits in format string")
      else Raise (IndexError "Replacement index out of range for positional args tuple")
  | None =>
      match list_find (λ kv, kv.1 = first) kwargs with
      | None => Raise (KeyError first)
      | Some (_, (_, value)) =>
          match rest, conv, spec with
          | "", None, "" => Ok value
          | "", Some c, "" =>
              if decide (c = "s"%char) then Ok value
              else if decide (c = "r"%char) then py_render rest conv spec value
              else if decide (c = "a"%char) then py_render rest conv spec value
              else Raise (ValueError "Unknown conversion specifier")
          | "", Some c, _ =>
              if bool_decide (c ∈ ["s"; "r"; "a"]%char) then py_render rest conv spec value
              else Raise (ValueError "Unknown conversion specifier")
          | _, _, _ => py_render rest conv spec value
          end
      end
  end.

Fixpoint fmt_render (kwargs : list (string * string)) (items : list fmt_item)
  : result string :=
  match items with
  | [] => Ok ""
  | FLit c :: items' =>
      let* out := fmt_render kwargs items' in Ok (String c out)
  | FField name conv spec :: items' =>
      let* text := fmt_field kwargs name conv spec in
      let* out := fmt_render kwargs items' in Ok (text +:+ out)
  | FError msg :: _ => Raise (ValueError msg)
  end.

Definition str_format (text : string) (kwargs : list (string * string)) : result string :=
  fmt_render kwargs (fmt_markup MText text).
End Format.

(** ** The file system

    A finite map from path text to files and directories.  Both slashes
    separate path components.  A path with no directory part lies in the
    working directory, which always exists, as the root does. *)

Inductive node :=
| File (content : string)
| Dir.

Definition is_sep (c : ascii) : bool :=
  bool_decide (c = "/"%char) || bool_decide (c = "\"%char).

(** The path up to its last separator, if it has one. *)
Fixpoint path_dirname (p : string) : option string :=
  match p with
  | "" => None
  | String c p' =>
      match path_dirname p' with
      | Some d => Some (String c d)
      | None => if is_sep c then Some "" else None
      end
  end.

Fixpoint str_has_sep (s : string) : bool :=
  match s with
  | "" => false
  | String c s' => is_sep c || str_has_sep s'
  end.

(** [p] lies below the directory [d]. *)
Definition path_inside (d p : string) : bool :=
  match str_drop_prefix d p with
  | Some (String c _) => is_sep c
  | _ => false
  end.

(** The name of [p] in the directory [d], when [p] is an entry of [d]. *)
Definition path_entry (d p : string) : option string :=
  match str_drop_prefix d p with
  | Some (String c name) =>
      if is_sep c && negb (str_has_sep name) && negb (bool_decide (name = ""))
      then Some name else None
  | _ => None
  end.

Definition fs_exists (fs : gmap string node) (p : string) : bool :=
  bool_decide (is_Some (fs !! p)).

Definition fs_parent_check (fs : gmap string node) (p : string) : result unit :=
  match path_dirname p with
  | None | Some "" => Ok tt
  | Some d =>
      match fs !! d with
      | Some Dir => Ok tt
      | Some (File _) => Raise (OSError NotADirectoryError p)
      | None => Raise (OSError FileNotFoundError p)
      end
  end.

(** [open(p).read()] *)
Definition fs_read (fs : gmap string node) (p : string) : result string :=
  match fs !! p with
  | Some (File content) => Ok content
  | Some Dir => Raise (OSError IsADirectoryError p)
  | None => Raise (OSError FileNotFoundError p)
  end.

(** [open(p, 'w').write(content)] *)
Definition fs_write (fs : gmap string node) (p content : string)
  : result (gmap string node) :=
  match fs !! p with
  | Some Dir => Raise (OSError IsADirectoryError p)
  | _ => let* _ := fs_parent_check fs p in Ok (<[p := File content]> fs)
  end.

(** [shutil.copyfile(src, dst)]: the test for one and the same file comes
    first, and is false when the source is not there; then the source is
    opened for reading, then the destination for writing. *)
Definition fs_copyfile (fs : gmap string node) (src dst : string)
  : result (gmap string node) :=
  if fs_exists fs src && bool_decide (src = dst) then Raise (OSError SameFileError src)
  else let* content := fs_read fs src in fs_write fs dst content.

(** [os.remove(p)] *)
Definition fs_remove (fs : gmap string node) (p : string) : result (gmap string node) :=
  match fs !! p with
  | Some (File _) => Ok (delete p fs)
  | Some Dir => Raise (OSError IsADirectoryError p)
  | None => Raise (OSError FileNotFoundError p)
  end.

(** [os.mkdir(p)] *)
Definition fs_mkdir (fs : gmap string node) (p : string) : result (gmap string node) :=
  match fs !! p with
  | Some _ => Raise (OSError FileExistsError p)
  | None => let* _ := fs_parent_check fs p in Ok (<[p := Dir]> fs)
  end.

(** The chain [p], [dirname p], [dirname (dirname p)], ... *)
Fixpoint path_chain_go (n : nat) (p : string) : list string :=
  match n with
  | 0 => []
  | S n' =>
      p :: match path_dirname p with
           | None | Some "" => []
           | Some d => path_chain_go n' d
           end
  end.

Definition path_chain (p : string) : list string :=
  path_chain_go (S (String.length p)) p.

(** [os.makedirs(p)]: the missing directories above [p] are made first, an
    existing one stops the climb; then [os.mkdir(p)]. *)
Fixpoint fs_makedirs_chain (fs : gmap string node) (chain : list string)
  : result (gmap string node) :=
  match chain with
  | [] => Ok fs
  | p :: up =>
      let* fs1 :=
        match up with
        | head :: _ =>
            if fs_exists fs head then Ok fs
            else match fs_makedirs_chain fs up with
                 | Raise (OSError FileExistsError _) => Ok fs
                 | r => r
                 end
        | [] => Ok fs
        end in
      fs_mkdir fs1 p
  end.

Definition fs_makedirs (fs : gmap string node) (p : string) : result (gmap string node) :=
  fs_makedirs_chain fs (path_chain p).

(** [shutil.rmtree(p, ignore_errors = True)]: a directory goes with all it
    holds; on anything else the error is ignored and nothing changes. *)
Definition fs_rmtree (fs : gmap string node) (p : string) : gmap string node :=
  match fs !! p with
  | Some Dir => filter (λ kv, kv.1 ≠ p ∧ path_inside p kv.1 = false) fs
  | _ => fs
  end.

(** [os.listdir(p)] *)
Definition fs_listdir (fs : gmap string node) (p : string) : result (list string) :=
  match fs !! p with
  | Some Dir => Ok (omap (λ kv, path_entry p kv.1) (map_to_list fs))
  | Some (File _) => Raise (OSError NotADirectoryError p)
  | None => Raise (OSError FileNotFoundError p)
  end.

(** [shutil.move(src, dst)] of a file onto a path that is not a directory;
    the other uses of [shutil.move] are not modelled. *)
Definition fs_move (fs : gmap string node) (src dst : string) : result (gmap string node) :=
  match fs !! src, fs !! dst with
  | Some (File content), (None | Some (File _)) =>
      let* _ := fs_parent_check fs dst in Ok (<[dst := File content]> (delete src fs))
  | Some _, _ => Raise (Unmodelled "shutil.move")
  | None, _ => Raise (OSError FileNotFoundError src)
  end.

(** ** The world and its monad *)

(** What the command does outside its own process, in the order in which it
    does it. *)
Inductive event :=
| ECall (command : list string) (heartbeat : option nat) (status : Z)
| EHook (name : string) (ok : bool)
| ERobocopy (src dst : string) (ok : bool).

(** The files, and the record of what was done outside the process.
    Messages to the logger ([logging.info]) are not part of the record. *)
Record world := World { fs : gmap string node; log : list event }.

Definition M (A : Type) : Type := world → result A * world.

Definition ret {A} (a : A) : M A := λ w, (Ok a, w).
Definition raise {A} (e : exn) : M A := λ w, (Raise e, w).
Definition bind {A B} (m : M A) (k : A → M B) : M B :=
  λ w, match m w with
       | (Ok a, w') => k a w'
       | (Raise e, w') => (Raise e, w')
       end.

Global Instance M_ret : MRet M := @ret.
Global Instance M_bind : MBind M := λ A B k m, bind m k.

(** An operation that reads the file system. *)
Definition fs_get {A} (f : gmap string node → result A) : M A :=
  λ w, (f (fs w), w).

(** An operation that changes the file system, or raises and leaves it. *)
Definition fs_do (f : gmap string node → result (gmap string node)) : M unit :=
  λ w, match f (fs w) with
       | Ok fs' => (Ok tt, World fs' (log w))
       | Raise e => (Raise e, w)
       end.

Definition when (b : bool) (m : M unit) : M unit := if b then m else ret tt.

(** [for x in xs: body] *)
Fixpoint for_each {A} (xs : list A) (body : A → M unit) : M unit :=
  match xs with
  | [] => ret tt
  | x :: xs' => body x ;; for_each xs' body
  end.

(** Truth value of an optional text: [None] and the empty text are false. *)
Definition truthy (o : option string) : bool :=
  match o with
  | Some s => negb (bool_decide (s = ""))
  | None => false
  end.

(** ** package.py *)

(** The attributes of [env] the command reads. *)
Record Env := {
  root_dir : string;
  game : string;
  ue4_platform : string;
  ue4_config : string;
  steps : list string;
  target : option string;
  layout : option string;
  patch : option string;
  final : bool;
  iterate : bool;
  compress : bool;
}.

Definition debug_open : string := "<!-- #if Debug -->".
Definition debug_close : string := "<!-- #endif Debug -->".

(** What the command calls outside this file. *)
Record Externals := {
  ext_py_render : string → option ascii → string → string → result string;
  (* nimp.system.sanitize_path *)
  ext_sanitize_path : string → string;
  (* env.format *)
  ext_env_format : Env → string → string;
  (* os.environ *)
  ext_environ : string → option string;
  (* nimp.sys.process.call *)
  ext_process_call : list string → option nat → gmap string node → Z * gmap string node;
  (* nimp.environment.execute_hook *)
  ext_execute_hook : string → Env → gmap string node → bool * gmap string node;
  (* all_map(robocopy, map_files(env).src(s).to(d).glob('**')()) *)
  ext_map_files_copy : Env → string → string → gmap string node → bool * gmap string node;
}.

Section Package.
Context (X : Externals).
Local Abbreviation py_render := (ext_py_render X).
Local Abbreviation sanitize_path := (ext_sanitize_path X).
Local Abbreviation env_format := (ext_env_format X).
Local Abbreviation environ := (ext_environ X).
Local Abbreviation process_call := (ext_process_call X).
Local Abbreviation execute_hook := (ext_execute_hook X).
Local Abbreviation map_files_copy := (ext_map_files_copy X).

Definition call (command : list string) (heartbeat : option nat) : M Z :=
  λ w, let '(status, fs') := process_call command heartbeat (fs w) in
       (Ok status, World fs' (log w ++ [ECall command heartbeat status])).

Definition hook (name : string) (env : Env) : M bool :=
  λ w, let '(ok, fs') := execute_hook name env (fs w) in
       (Ok ok, World fs' (log w ++ [EHook name ok])).

Definition robocopy_all (env : Env) (src dst : string) : M bool :=
  λ w, let '(ok, fs') := map_files_copy env src dst (fs w) in
       (Ok ok, World fs' (log w ++ [ERobocopy src dst ok])).

(** [os.environ[name]] *)
Definition getenv (name : string) : M string :=
  match environ name with
  | Some v => ret v
  | None => raise (KeyError name)
  end.

Definition lift {A} (r : result A) : M A := λ w, (r, w).

Definition get_ini_value (file_path key : string) : M string :=
  let file_path := sanitize_path file_path in
  ini_content ← fs_get (λ fs, fs_read fs file_path);
  match_ ← lift (re_search_group ("^" +:+ key +:+ "=(?P<value>.*?)$") "value"
                   ini_content fl_multiline);
  match match_ with
  | None => raise (KeyError ("Key " +:+ key +:+ " was not found in " +:+ file_path))
  | Some value => ret value
  end.

Definition _initialize (env : Env) : M unit :=
  when (truthy (target env))
    (configuration_success ←
       robocopy_all env "{game}/Config.{target}" "{root_dir}/{game}/Config";
     when (negb configuration_success) (raise (RuntimeError "Initialize failed"))) ;;
  hook_success ← hook "preship" env;
  when (negb hook_success) (raise (RuntimeError "Initialize failed")).

Definition _cook (engine_directory project platform : string) (iterate : bool) : M unit :=
  let cook_command :=
    [ sanitize_path (engine_directory +:+ "/Binaries/Win64/UE4Editor-Cmd.exe");
      project; "-Run=Cook"; "-TargetPlatform=" +:+ platform;
      "-BuildMachine"; "-Unattended"; "-StdOut"; "-UTF8Output" ] in
  let cook_command :=
    if iterate then cook_command ++ [ "-Iterate"; "-IterateHash" ] else cook_command in
  cook_success ← call cook_command (Some 60);
  when (negb (bool_decide (cook_success = 0%Z))) (raise (RuntimeError "Cook failed")).

Definition _stage_file (source destination : string) (apply_transform : bool)
    (platform configuration : option string) : M unit :=
  let source := sanitize_path source in
  let destination := sanitize_path destination in
  if apply_transform then
    file_content ← fs_get (λ fs, fs_read fs source);
    value ← match configuration with
            | Some c =>
                if negb (bool_decide (platform = Some "PS4")) then ret c
                else ret (py_lower c)
            | None =>
                if negb (bool_decide (platform = Some "PS4")) then ret "None"
                else raise (AttributeError "'NoneType' object has no attribute 'lower'")
            end;
    file_content ← lift (str_format py_render file_content [("configuration", value)]);
    file_content ←
      (if bool_decide (configuration = Some "Shipping") then
         lift (re_sub_empty (debug_open +:+ "(.*?)" +:+ debug_close) file_content fl_dotall)
       else ret file_content);
    fs_do (λ fs, fs_write fs destination file_content)
  else
    fs_do (λ fs, fs_copyfile fs source destination).

Definition _stage_xbox_manifest (project_directory stage_directory configuration : string)
  : M unit :=
  fs_do (λ fs, fs_remove fs (sanitize_path (stage_directory +:+ "/AppxManifest.xml"))) ;;
  fs_do (λ fs, fs_remove fs (sanitize_path (stage_directory +:+ "/appdata.bin"))) ;;
  let manifest_source := project_directory +:+ "/Config/XboxOne/AppxManifest.xml" in
  for_each (py_split "+" configuration) (λ current_configuration,
    let current_stage_directory :=
      stage_directory +:+ "/Manifests/" +:+ current_configuration in
    fs_do (λ fs, fs_makedirs fs (sanitize_path current_stage_directory)) ;;
    _stage_file manifest_source (current_stage_directory +:+ "/AppxManifest.xml")
      true (Some "XboxOne") (Some current_configuration) ;;
    xdk ← getenv "DurangoXDK";
    let appdata_command :=
      [ sanitize_path (xdk +:+ "/bin/MakePkg.exe"); "appdata";
        "/f"; sanitize_path (current_stage_directory +:+ "/AppxManifest.xml");
        "/pd"; sanitize_path current_stage_directory ] in
    appdata_success ← call appdata_command None;
    when (negb (bool_decide (appdata_success = 0%Z))) (raise (RuntimeError "Stage failed"))).

(** The two placeholder files written after the manifest fix-ups. *)
Definition _stage_xbox_chunks (stage_directory : string) : M unit :=
  fs_do (λ fs, fs_write fs (sanitize_path (stage_directory +:+ "/LaunchChunk.bin"))
                 (String "000" "")) ;;
  fs_do (λ fs, fs_write fs (sanitize_path (stage_directory +:+ "/AlignmentChunk.bin"))
                 (String "000" "")).

Definition _stage (engine_directory project_directory stage_directory project platform
    configuration : string) (layout_file_path : option string) (compress : bool)
    (patch : option string) : M unit :=
  let stage_command :=
    [ sanitize_path (engine_directory +:+ "/Binaries/DotNET/AutomationTool.exe");
      "BuildCookRun"; "-UE4exe=UE4Editor-Cmd.exe"; "-UTF8Output";
      "-Project=" +:+ project; "-TargetPlatform=" +:+ platform;
      "-ClientConfig=" +:+ configuration;
      "-SkipCook"; "-Stage"; "-Pak"; "-Prereqs"; "-CrashReporter"; "-NoDebugInfo" ] in
  let stage_command := if compress then stage_command ++ [ "-Compressed" ] else stage_command in
  let stage_command :=
    if truthy patch
    then stage_command ++ [ "-GeneratePatch"; "-BasedOnReleaseVersion=" +:+ default "" patch ]
    else stage_command in
  stage_success ← call stage_command None;
  when (negb (bool_decide (stage_success = 0%Z))) (raise (RuntimeError "Stage failed")) ;;
  when (bool_decide (platform = "XboxOne"))
    (_stage_xbox_manifest project_directory stage_directory configuration ;;
     _stage_xbox_chunks stage_directory) ;;
  when (truthy layout_file_path)
    (for_each (py_split "+" configuration) (λ current_configuration,
       let layout_file_name :=
         project +:+ "-" +:+ current_configuration +:+ "."
           +:+ (if bool_decide (platform = "PS4") then "gp4" else "xml") in
       let layout_destination := sanitize_path (stage_directory +:+ "/" +:+ layout_file_name) in
       _stage_file (default "" layout_file_path) layout_destination true
         (Some platform) (Some current_configuration))) ;;
  (if bool_decide (platform = "PS4") then
     let binary_path :=
       sanitize_path (stage_directory +:+ "/"
                        +:+ py_lower (project +:+ "/Binaries/PS4/" +:+ project)) in
     exists_ ← fs_get (λ fs, Ok (fs_exists fs (binary_path +:+ ".self")));
     when exists_
       (fs_do (λ fs, fs_move fs (binary_path +:+ ".self")
                       (binary_path +:+ "-ps4-development.self")))
   else if bool_decide (platform = "XboxOne") then
     let binary_path :=
       sanitize_path (stage_directory +:+ "/" +:+ project +:+ "/Binaries/XboxOne/"
                        +:+ project) in
     exists_ ← fs_get (λ fs, Ok (fs_exists fs (binary_path +:+ ".exe")));
     when exists_
       (fs_do (λ fs, fs_move fs (binary_path +:+ ".exe")
                       (binary_path +:+ "-XboxOne-Development.exe")))
   else ret tt) ;;
  when (truthy patch)
    (let ue4_cmd_platform :=
       if bool_decide (platform = "Win64") then "WindowsNoEditor" else platform in
     let release_directory :=
       project_directory +:+ "/Releases/" +:+ default "" patch +:+ "/" +:+ ue4_cmd_platform in
     let pak_file_name := project +:+ "-" +:+ ue4_cmd_platform +:+ ".pak" in
     _stage_file (release_directory +:+ "/" +:+ pak_file_name)
       (stage_directory +:+ "/" +:+ project +:+ "/Content/Paks/" +:+ pak_file_name)
       false None None).

(** The destination is removed when present, then made anew. *)
Definition recreate_destination (destination : string) : M unit :=
  exists_ ← fs_get (λ fs, Ok (fs_exists fs destination));
  when exists_ (fs_do (λ fs, Ok (fs_rmtree fs destination)));;
  fs_do (λ fs, fs_makedirs fs destination).

Definition xboxone_package_command (package_tool_path game_os source destination project
    product_id content_id : string) (is_final_submission : bool)
    (current_configuration : string) : list string :=
  let current_destination := sanitize_path (destination +:+ "/" +:+ current_configuration) in
  let layout_file :=
    sanitize_path (source +:+ "/" +:+ project +:+ "-" +:+ current_configuration +:+ ".xml") in
  let package_command :=
    [ package_tool_path; "pack"; "/v"; "/gameos"; game_os;
      "/f"; layout_file; "/d"; source; "/pd"; current_destination;
      "/productid"; product_id; "/contentid"; content_id ] in
  if is_final_submission then package_command ++ [ "/l" ] else package_command.

(** Where a manifest file of a configuration comes from and where it is
    copied to. *)
Definition manifest_origin (source current_configuration manifest_file : string) : string :=
  sanitize_path (source +:+ "/Manifests/" +:+ current_configuration +:+ "/" +:+ manifest_file).

Definition manifest_copy (source manifest_file : string) : string :=
  sanitize_path (source +:+ "/" +:+ manifest_file).

(** The body of the XboxOne loop. *)
Definition package_xboxone (package_tool_path game_os source destination project
    product_id content_id : string) (is_final_submission : bool)
    (current_configuration : string) : M unit :=
  let current_destination := sanitize_path (destination +:+ "/" +:+ current_configuration) in
  let package_command :=
    xboxone_package_command package_tool_path game_os source destination project
      product_id content_id is_final_submission current_configuration in
  fs_do (λ fs, fs_mkdir fs current_destination);;
  manifest_file_collection ←
    fs_get (λ fs, fs_listdir fs
                    (sanitize_path (source +:+ "/Manifests/" +:+ current_configuration)));
  for_each manifest_file_collection (λ manifest_file,
    fs_do (λ fs, fs_copyfile fs (manifest_origin source current_configuration manifest_file)
                    (manifest_copy source manifest_file)));;
  package_success ← call package_command None;
  for_each manifest_file_collection (λ manifest_file,
    fs_do (λ fs, fs_remove fs (manifest_copy source manifest_file)));;
  when (negb (bool_decide (package_success = 0%Z))) (raise (RuntimeError "Package failed")).

Definition ps4_package_command (package_tool_path temporary_directory source destination
    game project title_id current_configuration : string) : list string :=
  let destination_file :=
    sanitize_path (destination +:+ "/" +:+ game +:+ "-" +:+ current_configuration +:+ "-"
                     +:+ title_id +:+ ".pkg") in
  let layout_file :=
    sanitize_path (source +:+ "/" +:+ project +:+ "-" +:+ current_configuration +:+ ".gp4") in
  [ package_tool_path; "img_create"; "--no_progress_bar";
    "--tmp_path"; temporary_directory; layout_file; destination_file ].

(** The body of the PS4 loop. *)
Definition package_ps4 (package_tool_path temporary_directory source destination
    game project title_id current_configuration : string) : M unit :=
  package_success ←
    call (ps4_package_command package_tool_path temporary_directory source destination
            game project title_id current_configuration) None;
  when (negb (bool_decide (package_success = 0%Z))) (raise (RuntimeError "Package failed")).

Definition _package_for_platform (env : Env) (project_directory project platform
    configuration source destination : string) (is_final_submission : bool) : M unit :=
  let source := sanitize_path source in
  let destination := sanitize_path destination in
  recreate_destination destination;;
  if bool_decide (platform ∈ [ "Linux"; "Mac"; "Win32"; "Win64" ]) then
    package_success ←
      robocopy_all env (str_drop (String.length (root_dir env) + 1) source) destination;
    when (negb package_success) (raise (RuntimeError "Package failed"))
  else if bool_decide (platform = "XboxOne") then
    xdk ← getenv "DurangoXDK";
    let package_tool_path := sanitize_path (xdk +:+ "/bin/MakePkg.exe") in
    let game_os := sanitize_path (source +:+ "/era.xvd") in
    let ini_file_path :=
      sanitize_path (project_directory +:+ "/Config/XboxOne/XboxOneEngine.ini") in
    product_id ← get_ini_value ini_file_path "ProductId";
    content_id ← get_ini_value ini_file_path "ContentId";
    for_each (py_split "+" configuration)
      (package_xboxone package_tool_path game_os source destination project
         product_id content_id is_final_submission)
  else if bool_decide (platform = "PS4") then
    sce ← getenv "SCE_ROOT_DIR";
    let package_tool_path :=
      sanitize_path (sce +:+ "/ORBIS/Tools/Publishing Tools/bin/orbis-pub-cmd.exe") in
    let temporary_directory := sanitize_path (project_directory +:+ "/Saved/Temp") in
    let ini_file_path := project_directory +:+ "/Config/PS4/PS4Engine.ini" in
    title_id ← get_ini_value ini_file_path "TitleID";
    for_each (py_split "+" configuration)
      (package_ps4 package_tool_path temporary_directory source destination
         (game env) project title_id)
  else ret tt.

Definition run (env : Env) : M bool :=
  let ue4_cmd_platform :=
    if bool_decide (ue4_platform env = "Win64") then "WindowsNoEditor" else ue4_platform env in
  let engine_directory := env_format env "{root_dir}/Engine" in
  let project_directory := env_format env "{root_dir}/{game}" in
  let stage_directory :=
    env_format env ("{root_dir}/{game}/Saved/StagedBuilds/" +:+ ue4_cmd_platform) in
  let package_directory :=
    env_format env ("{root_dir}/{game}/Saved/Packages/" +:+ ue4_cmd_platform) in
  when (bool_decide ("initialize" ∈ steps env))
    (_initialize env);;
  when (bool_decide ("cook" ∈ steps env))
    (_cook engine_directory (game env) ue4_cmd_platform (iterate env));;
  when (bool_decide ("stage" ∈ steps env))
    (_stage engine_directory project_directory stage_directory (game env)
       (ue4_platform env) (ue4_config env) (layout env) (compress env) (patch env));;
  when (bool_decide ("package" ∈ steps env))
    (_package_for_platform env project_directory (game env) (ue4_platform env)
       (ue4_config env) stage_directory package_directory (final env));;
  mret true.
End Package.

(** ** What the specification says, in its own words *)

(** A key that reads the same as text and as a pattern: no character that
    is special in a pattern, and no newline. *)
Fixpoint str_forallb (f : ascii → bool) (s : string) : bool :=
  match s with
  | "" => true
  | String c s' => f c && str_forallb f s'
  end.

Definition plain_key_char (c : ascii) : bool :=
  negb (re_special c) && negb (bool_decide (c = newline)).

Definition plain_key (key : string) : bool := str_forallb plain_key_char key.

(** The value of the first line that starts with [key=]: the text of that
    line after the [=]. *)
Fixpoint ini_lookup (key : string) (lines : list string) : option string :=
  match lines with
  | [] => None
  | l :: ls =>
      match str_drop_prefix (key +:+ "=") l with
      | Some value => Some value
      | None => ini_lookup key ls
      end
  end.

(** A source text given by its pieces: text without braces, and
    occurrences of the token [{configuration}]. *)
Inductive seg :=
| Text (s : string)
| Token.

Definition brace_free (s : string) : bool :=
  str_forallb (λ c, negb (bool_decide (c = "{"%char)) && negb (bool_decide (c = "}"%char))) s.

Definition seg_ok (sg : seg) : bool :=
  match sg with
  | Text s => brace_free s
  | Token => true
  end.

Definition template (segs : list seg) : string :=
  str_concat ((λ sg, match sg with Text s => s | Token => "{configuration}" end) <$> segs).

Definition instantiate (value : string) (segs : list seg) : string :=
  str_concat ((λ sg, match sg with Text s => s | Token => value end) <$> segs).

(** A well-formed item of a format string whose only argument is
    [configuration]. *)
Definition fmt_item_ok (item : fmt_item) : bool :=
  match item with
  | FLit _ => true
  | FField name _ _ => bool_decide (fmt_arg_name name = "configuration")
  | FError _ => false
  end.

(** [s] begins with [p]. *)
Definition starts_with (p s : string) : Prop := ∃ r, s = p +:+ r.

(** [s] holds a debug-only span: an opening marker with a closing marker
    somewhere after it. *)
Definition has_span (s : string) : Prop :=
  ∃ a b c, s = a +:+ debug_open +:+ b +:+ debug_close +:+ c.

(** [Stripped s out]: [out] is [s] without its debug-only spans.  The spans
    are taken from left to right; a span starts at the first opening marker
    and runs to the first closing marker after it, markers included. *)
Inductive Stripped : string → string → Prop :=
| stripped_rest (s : string) :
    ¬ has_span s → Stripped s s
| stripped_span (pre body post out : string) :
    (∀ a b, pre = a +:+ b → b ≠ "" →
            ¬ starts_with debug_open (b +:+ debug_open +:+ body +:+ debug_close +:+ post)) →
    (∀ a b, body = a +:+ b → b ≠ "" →
            ¬ starts_with debug_close (b +:+ debug_close +:+ post)) →
    Stripped post out →
    Stripped (pre +:+ debug_open +:+ body +:+ debug_close +:+ post) (pre +:+ out).

(** The first occurrence of [pat] in [s]: the text before it and after it. *)
Fixpoint str_find (pat s : string) : option (string * string) :=
  match str_drop_prefix pat s with
  | Some r => Some ("", r)
  | None =>
      match s with
      | String c s' =>
          match str_find pat s' with
          | Some (before, after) => Some (String c before, after)
          | None => None
          end
      | "" => None
      end
  end.

(** The first span of [s] between the markers [op] and [cl]: the text before
    it, inside it and after it. *)
Fixpoint span_find (op cl s : string) : option (string * string * string) :=
  match str_drop_prefix op s ≫= str_find cl with
  | Some (body, post) => Some ("", body, post)
  | None =>
      match s with
      | String c s' =>
          match span_find op cl s' with
          | Some (pre, body, post) => Some (String c pre, body, post)
          | None => None
          end
      | "" => None
      end
  end.

(** The pattern that [_stage_file] removes for the release tier. *)
Definition debug_pattern : string := debug_open +:+ "(.*?)" +:+ debug_close.

(** ** A small project tree to run the command on *)

Definition demo_render (_ : string) (_ : option ascii) (_ : string) (_ : string)
  : result string := Raise LibraryError.

Definition demo_environ (name : string) : option string :=
  if decide (name = "DurangoXDK") then Some "/xdk"
  else if decide (name = "SCE_ROOT_DIR") then Some "/sce"
  else None.

Definition demo_env_format (env : Env) (text : string) : string :=
  match str_format demo_render text [("root_dir", root_dir env); ("game", game env)] with
  | Ok s => s
  | Raise _ => text
  end.

(** The tools leave the files alone and exit with [tool_status]; the bulk
    copy reports [copy_ok]. *)
Definition demo_externals (tool_status : list string → Z) (copy_ok : bool) : Externals := {|
  ext_py_render := demo_render;
  ext_sanitize_path := λ p, p;
  ext_env_format := demo_env_format;
  ext_environ := demo_environ;
  ext_process_call := λ command _ fs, (tool_status command, fs);
  ext_execute_hook := λ _ _ fs, (true, fs);
  ext_map_files_copy := λ _ _ _ fs, (copy_ok, fs);
|}.

Definition demo_env (platform configuration : string) (selected : list string) : Env := {|
  root_dir := "/r";
  game := "Game";
  ue4_platform := platform;
  ue4_config := configuration;
  steps := selected;
  target := Some "Final";
  layout := None;
  patch := None;
  final := false;
  iterate := false;
  compress := false;
|}.

Definition demo_fs : gmap string node :=
  list_to_map [
    ("/r", Dir); ("/r/Game", Dir); ("/r/Game/Config", Dir);
    ("/r/Game/Config/XboxOne", Dir); ("/r/Game/Config/PS4", Dir);
    ("/r/Game/Config/XboxOne/XboxOneEngine.ini",
      File "[Ids]
ProductId=P-1
ContentId=C-1
");
    ("/r/Game/Config/PS4/PS4Engine.ini", File "Title=x
TitleID=CUSA00001");
    ("/r/Game/Config/XboxOne/AppxManifest.xml",
      File "<App Name='{configuration}'><!-- #if Debug --><Dbg/><!-- #endif Debug --></App>");
    ("/r/Game/Saved", Dir); ("/r/Game/Saved/StagedBuilds", Dir);
    ("/r/Game/Saved/StagedBuilds/XboxOne", Dir);
    ("/r/Game/Saved/StagedBuilds/XboxOne/AppxManifest.xml", File "generated");
    ("/r/Game/Saved/StagedBuilds/XboxOne/appdata.bin", File "generated");
    ("/r/Game/Saved/StagedBuilds/PS4", Dir);
    ("/r/Game/Saved/Packages", Dir)
  ].

Definition demo_world : world := World demo_fs [].

(** A staged tree with one manifest file for Debug, and a package directory. *)
Definition demo_packaging : world :=
  World (list_to_map [
    ("/s", Dir); ("/s/Manifests", Dir); ("/s/Manifests/Debug", Dir);
    ("/s/Manifests/Debug/m.xml", File "manifest"); ("/d", Dir) ]) [].

(** A PS4 project with its engine ini and a staged tree. *)
Definition demo_ps4 : world :=
  World (list_to_map [
    ("/p", Dir); ("/p/Config", Dir); ("/p/Config/PS4", Dir);
    ("/p/Config/PS4/PS4Engine.ini", File "TitleID=CUSA00001"); ("/s", Dir) ]) [].

(** An XboxOne project with its engine ini, a staged tree with one manifest
    file for Debug, and a package directory. *)
Definition demo_xboxone : world :=
  World (list_to_map [
    ("/p", Dir); ("/p/Config", Dir); ("/p/Config/XboxOne", Dir);
    ("/p/Config/XboxOne/XboxOneEngine.ini", File "ProductId=P-1
ContentId=C-1");
    ("/s", Dir); ("/s/Manifests", Dir); ("/s/Manifests/Debug", Dir);
    ("/s/Manifests/Debug/m.xml", File "manifest"); ("/d", Dir) ]) [].

(** ** Views of the log *)

(** The commands run, in order. *)
Definition commands (evs : list event) : list (list string) :=
  omap (λ e, match e with ECall command _ _ => Some command | _ => None end) evs.

(** [m] only adds events that satisfy [P] to the log. *)
Definition emits_only {A} (P : event → bool) (m : M A) : Prop :=
  ∀ w, ∃ evs, log (m w).2 = log w ++ evs ∧ forallb P evs = true.

Definition is_raise {A} (r : result A) : Prop :=
  match r with
  | Raise _ => True
  | Ok _ => False
  end.

(** ** Loops that run one tool per item *)

(** What one turn of such a loop leaves, for the [command] of its item: the
    tool was run, exited with zero, and the turn returned; or the tool
    exited with another status and the turn raised [failure]; or, in a loop
    with file operations ([files]), one of them raised an [OSError], before
    the run of the tool or after it. *)
Definition turn_outcome (command : list string) (failure : exn) (files : bool)
    (w : world) (out : result unit * world) : Prop :=
  (out.1 = Ok tt ∧ log out.2 = log w ++ [ECall command None 0%Z])
  ∨ (out.1 = Raise failure
     ∧ ∃ status, status ≠ 0%Z ∧ log out.2 = log w ++ [ECall command None status])
  ∨ (files = true
     ∧ ∃ kind path,
         out.1 = Raise (OSError kind path)
         ∧ (log out.2 = log w
            ∨ ∃ status, log out.2 = log w ++ [ECall command None status])).

(** What the whole loop leaves: the runs of the tool for the items, in
    order; every run but the last exited with zero. *)
Definition loop_outcome {A} (command : A → list string) (failure : exn) (files : bool)
    (xs : list A) (w : world) (out : result unit * world) : Prop :=
  ∃ statuses,
    log out.2 = log w ++ zip_with (λ x status, ECall (command x) None status) xs statuses
    ∧ ((out.1 = Ok tt ∧ statuses = replicate (length xs) 0%Z)
       ∨ (out.1 = Raise failure
          ∧ ∃ k status,
              k < length xs ∧ status ≠ 0%Z ∧ statuses = replicate k 0%Z ++ [status])
       ∨ (files = true
          ∧ ∃ kind path,
              out.1 = Raise (OSError kind path)
              ∧ ∃ k, k < length xs
                     ∧ (statuses = replicate k 0%Z
                        ∨ ∃ status, statuses = replicate k 0%Z ++ [status]))).

(** An operation on files raises nothing but an [OSError]. *)
Definition raises_os_error {A} (r : result A) : Prop :=
  match r with
  | Ok _ => True
  | Raise e => ∃ kind path, e = OSError kind path
  end.

(** ** Steps run in order *)

(** [executes l w out entered]: the steps of [l] are run one after the
    other from the world [w], each on the world that the one before it
    left, and [entered] names the steps that were run, in the order in which
    they were.  The first step that raises ends the run, with its exception
    and the world it left; when no step raises the run returns [True]. *)
Inductive executes
  : list (string * M unit) → world → result bool * world → list string → Prop :=
| executes_end (w : world) :
    executes [] w (Ok true, w) []
| executes_on (name : string) (body : M unit) (l : list (string * M unit))
    (w w1 : world) (out : result bool * world) (entered : list string) :
    body w = (Ok tt, w1) →
    executes l w1 out entered →
    executes ((name, body) :: l) w out (name :: entered)
| executes_raise (name : string) (body : M unit) (l : list (string * M unit))
    (w w1 : world) (e : exn) :
    body w = (Raise e, w1) →
    executes ((name, body) :: l) w (Raise e, w1) [name].

(** ** Views of the matcher used in the proofs *)

Definition ini_atoms (key : string) : list re_atom :=
  RBol :: (RChar <$> list_ascii_of_string key)
       ++ [RChar "="%char; RLazyGroup (Some "value"); REol].

Definition hit_group (h : option re_hit) : option string := (λ m, m.1.1) <$> h.

Definition scan_group (h : option (string * re_hit)) : option string :=
  (λ m, m.2.1.1) <$> h.

Definition hit_parts (h : option re_hit) : option (string * string) :=
  (λ m, (m.1.1, m.2)) <$> h.

Definition scan_parts (h : option (string * re_hit)) : option (string * string * string) :=
  (λ m, (m.1, m.2.1.1, m.2.2)) <$> h.

Definition debug_atoms : list re_atom :=
  (RChar <$> list_ascii_of_string debug_open)
    ++ RLazyGroup None :: (RChar <$> list_ascii_of_string debug_close).



(** ** More of what the code shows *)

Definition no_newline (s : string) : bool :=
  str_forallb (λ c, negb (bool_decide (c = newline))) s.

(** A source text given by its pieces, doubled braces included. *)
Inductive piece :=
| PText (s : string)
| PToken
| PLeft
| PRight.

Definition piece_ok (p : piece) : bool :=
  match p with
  | PText s => brace_free s
  | _ => true
  end.

Definition piece_source (p : piece) : string :=
  match p with
  | PText s => s
  | PToken => "{configuration}"
  | PLeft => "{{"
  | PRight => "}}"
  end.

Definition piece_staged (value : string) (p : piece) : string :=
  match p with
  | PText s => s
  | PToken => value
  | PLeft => "{"
  | PRight => "}"
  end.

(** How often [c] occurs in [s]. *)
Fixpoint str_count (c : ascii) (s : string) : nat :=
  match s with
  | "" => 0
  | String d s' => (if decide (d = c) then 1 else 0) + str_count c s'
  end.

(** [m] leaves the world as it is, whatever it returns. *)
Definition reads_only {A} (m : M A) : Prop := ∀ w, (m w).2 = w.

(** [m] logs nothing, leaves every path other than [p] as it is, and leaves
    the world as a whole as it is when it raises. *)
Definition writes_only {A} (p : string) (m : M A) : Prop :=
  ∀ w, log (m w).2 = log w
       ∧ (∀ q, q ≠ p → fs (m w).2 !! q = fs w !! q)
       ∧ (is_raise (m w).1 → (m w).2 = w).

(** ** deployment.py *)

(** [s.replace('\\', '/')] *)
Fixpoint forward_slashes (s : string) : string :=
  match s with
  | "" => ""
  | String c s' =>
      String (if decide (c = "\"%char) then "/"%char else c) (forward_slashes s')
  end.

(** What lines 68 to 74 give for one directory that [glob.glob] found. *)
Inductive directory_match :=
| NoMatch                             (* [re.match] returns [None] *)
| Group (version_cl : option string)  (* [group(1)]: a text, or [None] for a group
                                         that took no part in the match *)
| MatchError (e : exn).               (* formatting the pattern, compiling it or
                                         asking for group 1 raises *)

Section Deployment.
(** For a directory format, with forward slashes, and a platform: the
    exception that formatting the glob pattern or [glob.glob] raises, or, for
    every directory found, in the order found, what the match gives. The
    other keyword arguments of the call are the same all along and are part
    of this map. *)
Variable found_revisions : string → string → result (list directory_match).

(** The loop over the directories found for [platform]. A first group that
    is [None] would go into the lists as it is; the order of [None] and texts
    is not modelled, so the model stops there. *)
Fixpoint scan_directories (platform : string) (found : list directory_match)
    (platforms_revisions : gmap string (list string)) (all_revisions : list string)
  : result (gmap string (list string) * list string) :=
  match found with
  | [] => Ok (platforms_revisions, all_revisions)
  | NoMatch :: _ => Raise (AttributeError "'NoneType' object has no attribute 'group'")
  | MatchError e :: _ => Raise e
  | Group None :: _ => Raise (Unmodelled "group 1 of the match is None")
  | Group (Some version_cl) :: found' =>
      scan_directories platform found'
        (alter (λ revisions, revisions ++ [version_cl]) platform platforms_revisions)
        (all_revisions ++ [version_cl])
  end.

(** The loop over the platforms. *)
Fixpoint scan_platforms (version_directory_format : string) (platforms : list string)
    (platforms_revisions : gmap string (list string)) (all_revisions : list string)
  : result (gmap string (list string) * list string) :=
  match platforms with
  | [] => Ok (platforms_revisions, all_revisions)
  | platform :: platforms' =>
      let platforms_revisions := <[platform := []]> platforms_revisions in
      let version_directory_format := forward_slashes version_directory_format in
      let* found := found_revisions version_directory_format platform in
      let* scanned := scan_directories platform found platforms_revisions all_revisions in
      scan_platforms version_directory_format platforms' scanned.1 scanned.2
  end.

(** The inner loop of the selection: is [revision] there for every platform? *)
Fixpoint available_for_all (revision : string) (platforms : list string)
    (platforms_revisions : gmap string (list string)) : result bool :=
  match platforms with
  | [] => Ok true
  | platform :: platforms' =>
      match platforms_revisions !! platform with
      | None => Raise (KeyError platform)
      | Some revisions =>
          if bool_decide (revision ∈ revisions)
          then available_for_all revision platforms' platforms_revisions
          else Ok false
      end
  end.

(** [start_revision is None or revision <= start_revision]; texts are
    compared character by character, by the codes of the characters. *)
Definition not_after (revision : string) (start_revision : option string) : bool :=
  match start_revision with
  | None => true
  | Some start => String.leb revision start
  end.

(** The loop of the selection. *)
Fixpoint first_available (revisions platforms : list string)
    (platforms_revisions : gmap string (list string)) (start_revision : option string)
  : result (option string) :=
  match revisions with
  | [] => Ok None
  | revision :: revisions' =>
      let* available := available_for_all revision platforms platforms_revisions in
      if available && not_after revision start_revision then Ok (Some revision)
      else first_available revisions' platforms platforms_revisions start_revision
  end.

(** [l.sort(reverse = True)] on texts: the order of texts is total and
    equal texts are the same text, so the outcome does not depend on how the
    sort goes about it. *)
Definition sort_reverse (l : list string) : list string :=
  merge_sort (flip String.le) l.

Definition get_latest_available_revision (version_directory_format : string)
    (platforms : list string) (start_revision : option string) : result (option string) :=
  let* scanned := scan_platforms version_directory_format platforms ∅ [] in
  let platforms_revisions := scanned.1 in
  let all_revisions := sort_reverse scanned.2 in
  first_available all_revisions platforms platforms_revisions start_revision.
(** One turn of the loop over the platforms. *)
Definition scan_platform (format platform : string)
    (d : gmap string (list string)) (all : list string)
  : result (gmap string (list string) * list string) :=
  let* found := found_revisions format platform in
  scan_directories platform found (<[platform := []]> d) all.
End Deployment.

(** The texts that the matches of a scan gave. *)
Definition group_text (m : directory_match) : option string :=
  match m with
  | Group version_cl => version_cl
  | _ => None
  end.

Definition revisions_found (found : result (list directory_match)) : list string :=
  match found with
  | Ok l => omap group_text l
  | Raise _ => []
  end.

(** What stops a scan, if anything does. *)
Definition match_error (m : directory_match) : option exn :=
  match m with
  | NoMatch => Some (AttributeError "'NoneType' object has no attribute 'group'")
  | MatchError e => Some e
  | Group None => Some (Unmodelled "group 1 of the match is None")
  | Group (Some _) => None
  end.

Definition scan_error (found : result (list directory_match)) : option exn :=
  match found with
  | Ok l => head (omap match_error l)
  | Raise e => Some e
  end.

Section DeploymentViews.
Variable found_revisions : string → string → result (list directory_match).

(** The revisions found for [platform] by the scan of [format]. *)
Definition revisions_of (format platform : string) : list string :=
  revisions_found (found_revisions (forward_slashes format) platform).

(** The revisions found for every one of the platforms. *)
Definition common (format : string) (platforms : list string) (revision : string) : Prop :=
  ∀ p, p ∈ platforms → revision ∈ revisions_of format p.

(** What the function returns, as a relation: a revision that every platform
    has, not after the start, and not below any other such revision; or
    nothing, when there is no such revision. *)
Definition latest (format : string) (platforms : list string) (start : option string)
    (r : option string) : Prop :=
  match r with
  | Some revision =>
      common format platforms revision
      ∧ not_after revision start = true
      ∧ ∀ other, common format platforms other → not_after other start = true →
                 String.le other revision
  | None =>
      platforms ≠ [] →
      ∀ other, common format platforms other → not_after other start = false
  end.
End DeploymentViews.

Definition demo_found (_ : string) (platform : string) : result (list directory_match) :=
  if decide (platform = "Win64")
  then Ok [Group (Some "100"); Group (Some "120"); Group (Some "090")]
  else if decide (platform = "PS4")
  then Ok [Group (Some "120"); Group (Some "100"); Group (Some "130")]
  else if decide (platform = "XboxOne")
  then Ok [Group (Some "120"); NoMatch]
  else Ok [].

(** A machine without the console SDKs: no variable is set. *)
Definition demo_no_sdk : Externals := {|
  ext_py_render := demo_render;
  ext_sanitize_path := λ p, p;
  ext_env_format := demo_env_format;
  ext_environ := λ _, None;
  ext_process_call := λ _ _ fs, (0%Z, fs);
  ext_execute_hook := λ _ _ fs, (true, fs);
  ext_map_files_copy := λ _ _ _ fs, (true, fs);
|}.

(** A run without a target. *)
Definition demo_env_no_target : Env := {|
  root_dir := "/r";
  game := "Game";
  ue4_platform := "Win64";
  ue4_config := "Shipping";
  steps := ["initialize"];
  target := None;
  layout := None;
  patch := None;
  final := false;
  iterate := false;
  compress := false;
|}.
(** * Properties *)

(** ** Text *)

#[local] Arguments String.append !_ _ / : simpl nomatch.

Lemma str_app_nil_r (s : string) : s +:+ "" = s.
Proof. induction s as [|c s IH]; simpl; [done | by rewrite IH]. Qed.

Lemma str_app_assoc (a b c : string) : (a +:+ b) +:+ c = a +:+ b +:+ c.
Proof. induction a as [|x a IH]; simpl; [done | by rewrite IH]. Qed.

Lemma str_app_length (a b : string) :
  String.length (a +:+ b) = String.length a + String.length b.
Proof. induction a as [|x a IH]; simpl; [done | by rewrite IH]. Qed.

Lemma str_drop_prefix_app (p r : string) : str_drop_prefix p (p +:+ r) = Some r.
Proof.
  induction p as [|c p IH]; simpl; [done|].
  by rewrite decide_True.
Qed.

Lemma str_drop_prefix_Some (p s r : string) :
  str_drop_prefix p s = Some r → s = p +:+ r.
Proof.
  revert s; induction p as [|c p IH]; intros s; simpl.
  - by intros [= ->].
  - destruct s as [|d s]; [done|].
    case_decide; [|done]. subst d. intros H. by rewrite (IH _ H).
Qed.

Lemma str_drop_prefix_app_l (a b s : string) :
  str_drop_prefix (a +:+ b) s = str_drop_prefix a s ≫= str_drop_prefix b.
Proof.
  revert s; induction a as [|c a IH]; intros s; simpl; [done|].
  destruct s as [|d s]; [done|]. case_decide; [apply IH | done].
Qed.

Lemma py_split_nonempty (sep : ascii) (s : string) : py_split sep s ≠ [].
Proof.
  destruct s as [|c s]; simpl; [done|].
  case_decide; [done|]. by destruct (py_split sep s).
Qed.

Lemma py_lines_cons (c : ascii) (s : string) :
  py_lines (String c s) =
    if decide (c = newline) then "" :: py_lines s
    else String c (hd "" (py_lines s)) :: tl (py_lines s).
Proof.
  unfold py_lines; simpl. case_decide; [done|].
  pose proof (py_split_nonempty newline s). by destruct (py_split newline s).
Qed.

Lemma py_lines_hd (s : string) : hd "" (py_lines s) = first_line s.
Proof.
  induction s as [|c s IH]; [done|].
  rewrite py_lines_cons. simpl. case_decide; simpl; [done | by rewrite IH].
Qed.

(** A prefix without newline is looked for in the first line only. *)
Lemma str_drop_prefix_first_line (p s : string) :
  str_forallb (λ c, negb (bool_decide (c = newline))) p = true →
  str_drop_prefix p (first_line s) = first_line <$> str_drop_prefix p s.
Proof.
  revert s; induction p as [|c p IH]; intros s Hp; simpl; [done|].
  simpl in Hp. apply andb_true_iff in Hp as [Hc Hp].
  apply negb_true_iff, bool_decide_eq_false in Hc.
  destruct s as [|d s]; simpl; [done|].
  destruct (decide (d = newline)) as [->|Hd].
  - by rewrite decide_False.
  - simpl. case_decide; [by apply IH | done].
Qed.

(** ** The pattern of [get_ini_value] *)

Lemma plain_key_char_spec (c : ascii) :
  plain_key_char c = true →
  re_special c = false ∧ c ≠ newline ∧
  c ≠ "^"%char ∧ c ≠ "$"%char ∧ c ≠ "."%char ∧ c ≠ "("%char.
Proof.
  unfold plain_key_char. intros [H1 H2]%andb_true_iff.
  apply negb_true_iff in H1. apply negb_true_iff, bool_decide_eq_false in H2.
  split; [done|]. split; [done|].
  unfold re_special in H1. apply bool_decide_eq_false in H1.
  repeat split; intros ->; apply H1; set_solver.
Qed.

Lemma re_parse_plain (grouped : bool) (key rest : string) :
  plain_key key = true →
  re_parse_go PTop grouped (key +:+ rest) =
    app (RChar <$> list_ascii_of_string key) <$> re_parse_go PTop grouped rest.
Proof.
  induction key as [|c key IH]; simpl.
  - intros _. by destruct (re_parse_go PTop grouped rest).
  - intros [Hc Hkey]%andb_true_iff.
    destruct (plain_key_char_spec c Hc) as (Hs & _ & H1 & H2 & H3 & H4).
    rewrite !decide_False by done. rewrite Hs, (IH Hkey).
    by destruct (re_parse_go PTop grouped rest).
Qed.

Lemma re_compile_ini (key : string) :
  plain_key key = true →
  re_compile ("^" +:+ key +:+ "=(?P<value>.*?)$") = Some (ini_atoms key).
Proof.
  intros Hkey. unfold re_compile, ini_atoms. simpl.
  by rewrite (re_parse_plain false key _ Hkey).
Qed.

(** After [key=], the lazy group followed by [$] takes the rest of the line. *)
Lemma re_lazy_eol (prev : option ascii) (s : string) :
  hit_group (re_lazy fl_multiline (re_match fl_multiline [REol]) prev s)
  = Some (first_line s).
Proof.
  set (k := re_match fl_multiline [REol]).
  assert (Hk : ∀ prev s, k prev s =
            if re_at_eol fl_multiline s then Some ("", prev, s) else None) by done.
  clearbody k.
  revert prev; induction s as [|c s IH]; intros prev.
  - simpl. by rewrite Hk.
  - cbn [re_lazy first_line]. rewrite Hk. cbn [re_at_eol fl_multiline MULTILINE].
    destruct (decide (c = newline)) as [->|Hc]; [done|].
    rewrite bool_decide_eq_false_2 by done. cbn [andb].
    unfold re_dot_ok. cbn [DOTALL orb]. rewrite bool_decide_eq_false_2 by done.
    cbn [negb]. specialize (IH (Some c)).
    destruct (re_lazy fl_multiline k (Some c) s) as [[[g last] rest]|];
      simpl in *; [|done].
    by injection IH as ->.
Qed.

Lemma re_match_ini_body (key : string) (prev : option ascii) (s : string) :
  hit_group (re_match fl_multiline
               ((RChar <$> list_ascii_of_string key)
                  ++ [RChar "="%char; RLazyGroup (Some "value"); REol]) prev s)
  = first_line <$> str_drop_prefix (key +:+ "=") s.
Proof.
  revert prev s; induction key as [|c key IH]; intros prev s; simpl.
  - destruct s as [|d s]; [done|].
    case_decide; [|done]. by rewrite re_lazy_eol.
  - destruct s as [|d s]; [done|].
    case_decide; [apply IH | done].
Qed.

Lemma re_match_ini (key : string) (prev : option ascii) (s : string) :
  hit_group (re_match fl_multiline (ini_atoms key) prev s)
  = if re_at_bol fl_multiline prev
    then first_line <$> str_drop_prefix (key +:+ "=") s else None.
Proof.
  unfold ini_atoms. simpl. destruct (re_at_bol fl_multiline prev); [|done].
  apply re_match_ini_body.
Qed.

Lemma plain_key_no_newline (key : string) :
  plain_key key = true →
  str_forallb (λ c, negb (bool_decide (c = newline))) (key +:+ "=") = true.
Proof.
  induction key as [|c key IH]; simpl; [done|].
  intros [Hc Hkey]%andb_true_iff. rewrite (IH Hkey), andb_true_r.
  destruct (plain_key_char_spec c Hc) as (_ & Hn & _).
  by rewrite bool_decide_eq_false_2.
Qed.

Lemma re_scan_unfold (fl : re_flags) (p : list re_atom) (prev : option ascii) (s : string) :
  re_scan fl p prev s =
    match re_match fl p prev s with
    | Some m => Some ("", m)
    | None =>
        match s with
        | String c s' =>
            match re_scan fl p (Some c) s' with
            | Some (pre, m) => Some (String c pre, m)
            | None => None
            end
        | "" => None
        end
    end.
Proof. by destruct s. Qed.

Lemma py_lines_hd_tl (s : string) : py_lines s = first_line s :: tl (py_lines s).
Proof.
  rewrite <- py_lines_hd. pose proof (py_split_nonempty newline s).
  unfold py_lines. by destruct (py_split newline s).
Qed.

Lemma ini_lookup_lines (key s : string) :
  plain_key key = true →
  ini_lookup key (py_lines s) =
    match first_line <$> str_drop_prefix (key +:+ "=") s with
    | Some value => Some value
    | None => ini_lookup key (tl (py_lines s))
    end.
Proof.
  intros Hkey. rewrite py_lines_hd_tl at 1. cbn [ini_lookup].
  by rewrite (str_drop_prefix_first_line _ _ (plain_key_no_newline key Hkey)).
Qed.

(** The search visits the lines in order and stops at the first one that
    starts with [key=]. *)
Lemma re_scan_ini (key : string) (prev : option ascii) (s : string) :
  plain_key key = true →
  scan_group (re_scan fl_multiline (ini_atoms key) prev s)
  = if re_at_bol fl_multiline prev
    then ini_lookup key (py_lines s) else ini_lookup key (tl (py_lines s)).
Proof.
  intros Hkey.
  assert (Hstep : ∀ prev s,
    scan_group
      match s with
      | String c s' =>
          match re_scan fl_multiline (ini_atoms key) (Some c) s' with
          | Some (pre, m) => Some (String c pre, m)
          | None => None
          end
      | "" => None
      end = ini_lookup key (tl (py_lines s)) →
    scan_group (re_scan fl_multiline (ini_atoms key) prev s)
    = if re_at_bol fl_multiline prev
      then ini_lookup key (py_lines s) else ini_lookup key (tl (py_lines s))).
  { clear s prev. intros prev s Hrest. rewrite re_scan_unfold.
    pose proof (re_match_ini key prev s) as Hm.
    rewrite (ini_lookup_lines key s Hkey).
    destruct (re_match fl_multiline (ini_atoms key) prev s) as [m|].
    - unfold hit_group in Hm. cbn [fmap option_fmap option_map] in Hm.
      destruct (re_at_bol fl_multiline prev); [|done]. by rewrite <- Hm.
    - rewrite Hrest. unfold hit_group in Hm. cbn [fmap option_fmap option_map] in Hm.
      destruct (re_at_bol fl_multiline prev); [|done]. by rewrite <- Hm. }
  revert prev; induction s as [|c s IH]; intros prev; apply Hstep; [done|].
  specialize (IH (Some c)).
  rewrite py_lines_cons.
  destruct (re_scan fl_multiline (ini_atoms key) (Some c) s) as [[pre m]|];
    unfold scan_group in *; cbn [fmap option_fmap option_map snd fst] in *;
    rewrite IH; cbn [re_at_bol fl_multiline MULTILINE andb];
    destruct (decide (c = newline)) as [->|Hc]; try done;
    by rewrite bool_decide_eq_false_2.
Qed.

Lemma re_group_name_ini (key : string) : re_group_name (ini_atoms key) = Some "value".
Proof.
  unfold ini_atoms. cbn [re_group_name].
  by induction (list_ascii_of_string key) as [|c l IH].
Qed.

(** ** The command *)


(** ** [str.format] *)

Lemma fmt_markup_text (s rest : string) :
  brace_free s = true →
  fmt_markup MText (s +:+ rest)
  = (FLit <$> list_ascii_of_string s) ++ fmt_markup MText rest.
Proof.
  induction s as [|c s IH]; simpl; [done|].
  intros [[H1 H2]%andb_true_iff Hs]%andb_true_iff.
  apply negb_true_iff, bool_decide_eq_false in H1, H2.
  rewrite !decide_False by done. by rewrite (IH Hs).
Qed.

Lemma fmt_markup_token (rest : string) :
  fmt_markup MText ("{configuration}" +:+ rest)
  = FField "configuration" None "" :: fmt_markup MText rest.
Proof. reflexivity. Qed.

Section FormatProperties.
Context (render : string → option ascii → string → string → result string).

Lemma fmt_render_lits (kwargs : list (string * string)) (l : list ascii)
    (items : list fmt_item) :
  fmt_render render kwargs ((FLit <$> l) ++ items)
  = let* out := fmt_render render kwargs items in Ok (string_of_list_ascii l +:+ out).
Proof.
  induction l as [|c l IH]; cbn [fmap list_fmap app fmt_render string_of_list_ascii].
  - by destruct (fmt_render render kwargs items).
  - rewrite IH. by destruct (fmt_render render kwargs items).
Qed.

Lemma fmt_field_configuration (value : string) :
  fmt_field render [("configuration", value)] "configuration" None "" = Ok value.
Proof. reflexivity. Qed.

(** A text made of brace-free pieces and tokens formats to the same pieces
    with the value in place of every token. *)
Lemma str_format_template (value : string) (segs : list seg) :
  forallb seg_ok segs = true →
  str_format render (template segs) [("configuration", value)]
  = Ok (instantiate value segs).
Proof.
  unfold str_format, template, instantiate.
  induction segs as [|sg segs IH]; [done|].
  cbn [forallb fmap list_fmap str_concat]. intros [Hsg Hsegs]%andb_true_iff.
  destruct sg as [s|].
  - rewrite (fmt_markup_text _ _ Hsg), fmt_render_lits, (IH Hsegs). simpl.
    by rewrite string_of_list_ascii_of_string.
  - rewrite fmt_markup_token. cbn [fmt_render].
    rewrite fmt_field_configuration, (IH Hsegs). done.
Qed.

Lemma fmt_field_ok (value name : string) (conv : option ascii) (spec text : string) :
  fmt_field render [("configuration", value)] name conv spec = Ok text →
  fmt_arg_name name = "configuration".
Proof.
  unfold fmt_field, fmt_arg_name.
  destruct (fmt_name_split name) as [first rest]. simpl.
  destruct (fmt_get_integer 0 first); [by case_decide|].
  case_decide; [done | by intros].
Qed.

(** Formatting succeeds only on well-formed items that all name the
    argument. *)
Lemma fmt_render_ok (value : string) (items : list fmt_item) (out : string) :
  fmt_render render [("configuration", value)] items = Ok out →
  forallb fmt_item_ok items = true.
Proof.
  revert out; induction items as [|item items IH]; intros out; [done|].
  destruct item as [c|name conv spec|msg]; cbn [fmt_render forallb fmt_item_ok].
  - destruct (fmt_render render _ items) eqn:E; [|done]. intros _. by eapply IH.
  - destruct (fmt_field render _ name conv spec) eqn:Ef; [|done].
    apply fmt_field_ok in Ef. cbn [result_bind].
    destruct (fmt_render render _ items) eqn:E; [|done]. intros _.
    rewrite (IH _ eq_refl), andb_true_r. by apply bool_decide_eq_true.
  - done.
Qed.
End FormatProperties.

(** ** The pattern of the debug-only spans *)

Lemma re_match_chars (fl : re_flags) (lit : string) (prev : option ascii) (s : string) :
  hit_parts (re_match fl (RChar <$> list_ascii_of_string lit) prev s)
  = (λ r, ("", r)) <$> str_drop_prefix lit s.
Proof.
  revert prev s; induction lit as [|c lit IH]; intros prev s; [done|].
  cbn [list_ascii_of_string fmap list_fmap re_match str_drop_prefix].
  destruct s as [|d s]; [done|]. case_decide; [apply IH | done].
Qed.

Lemma re_lazy_find (k : option ascii → string → option re_hit) (pat : string) :
  (∀ prev s, hit_parts (k prev s) = (λ r, ("", r)) <$> str_drop_prefix pat s) →
  ∀ prev s, hit_parts (re_lazy fl_dotall k prev s) = str_find pat s.
Proof.
  intros Hk prev s; revert prev; induction s as [|c s IH]; intros prev.
  - cbn [re_lazy str_find]. specialize (Hk prev "").
    destruct (k prev "") as [[[g last] rest]|]; cbn in Hk |- *;
      destruct (str_drop_prefix pat ""); cbn in Hk |- *; congruence.
  - cbn [re_lazy str_find]. specialize (Hk prev (String c s)).
    destruct (k prev (String c s)) as [[[g last] rest]|]; cbn in Hk |- *;
      destruct (str_drop_prefix pat (String c s)); cbn in Hk |- *; try congruence.
    specialize (IH (Some c)).
    destruct (re_lazy fl_dotall k (Some c) s) as [[[g last] rest]|]; cbn in IH |- *;
      destruct (str_find pat s) as [[before after]|]; congruence.
Qed.

Lemma re_match_span (op cl : string) (name : option string) (prev : option ascii) (s : string) :
  hit_parts (re_match fl_dotall
               ((RChar <$> list_ascii_of_string op)
                  ++ RLazyGroup name :: (RChar <$> list_ascii_of_string cl)) prev s)
  = str_drop_prefix op s ≫= str_find cl.
Proof.
  revert prev s; induction op as [|c op IH]; intros prev s.
  - cbn [list_ascii_of_string fmap list_fmap app re_match str_drop_prefix mbind option_bind].
    apply re_lazy_find. intros. apply re_match_chars.
  - cbn [list_ascii_of_string fmap list_fmap app re_match str_drop_prefix].
    destruct s as [|d s]; [done|]. case_decide; [apply IH | done].
Qed.

Lemma re_scan_span (op cl : string) (name : option string) (prev : option ascii) (s : string) :
  scan_parts (re_scan fl_dotall
                ((RChar <$> list_ascii_of_string op)
                   ++ RLazyGroup name :: (RChar <$> list_ascii_of_string cl)) prev s)
  = span_find op cl s.
Proof.
  set (p := _ ++ _).
  assert (Hm : ∀ prev s, hit_parts (re_match fl_dotall p prev s)
                         = str_drop_prefix op s ≫= str_find cl)
    by (intros; apply re_match_span).
  clearbody p.
  revert prev; induction s as [|c s IH]; intros prev.
  - rewrite re_scan_unfold. cbn [span_find]. rewrite <- (Hm prev).
    by destruct (re_match fl_dotall p prev "") as [[[g last] rest]|].
  - rewrite re_scan_unfold. cbn [span_find]. rewrite <- (Hm prev).
    destruct (re_match fl_dotall p prev (String c s)) as [[[g last] rest]|]; [done|].
    cbn [hit_parts fmap option_fmap option_map]. rewrite <- (IH (Some c)).
    by destruct (re_scan fl_dotall p (Some c) s) as [[pre [[g last] rest]]|].
Qed.

Lemma re_sub_atoms_step (fl : re_flags) (p : list re_atom) (prev : option ascii) (s : string) :
  re_sub_atoms fl p prev s =
    match re_scan fl p prev s with
    | None => Some s
    | Some (pre, (_, last, rest)) =>
        if decide (String.length rest < String.length s)
        then String.app pre <$> re_sub_atoms fl p last rest else None
    end.
Proof.
  funelim (re_sub_atoms fl p prev s); clear Heqcall;
    match goal with H : re_scan _ _ _ _ = _ |- _ => rewrite H end;
    [done | by rewrite decide_True | by rewrite decide_False].
Qed.

(** *** Occurrences *)

Lemma starts_with_drop (p s : string) :
  starts_with p s ↔ is_Some (str_drop_prefix p s).
Proof.
  split.
  - intros [r ->]. rewrite str_drop_prefix_app. by eexists.
  - intros [r Hr]. exists r. by apply str_drop_prefix_Some.
Qed.

Lemma str_app_cons_split (a b : string) (c : ascii) (s : string) :
  a +:+ b = String c s →
  (a = "" ∧ b = String c s) ∨ (∃ a', a = String c a' ∧ a' +:+ b = s).
Proof.
  destruct a as [|x a]; simpl; [by left|].
  intros [= -> <-]. right. by eexists.
Qed.

Lemma str_find_Some (pat s before after : string) :
  str_find pat s = Some (before, after) →
  s = before +:+ pat +:+ after
  ∧ ∀ a b, before = a +:+ b → b ≠ "" → ¬ starts_with pat (b +:+ pat +:+ after).
Proof.
  revert before; induction s as [|c s IH]; intros before; cbn [str_find].
  - destruct (str_drop_prefix pat "") as [r|] eqn:Ed; [|done].
    intros [= <- <-]. split; [simpl; by apply str_drop_prefix_Some|].
    intros a b Hab Hb. by destruct a, b.
  - destruct (str_drop_prefix pat (String c s)) as [r|] eqn:Ed.
    + intros [= <- <-]. split; [simpl; by apply str_drop_prefix_Some|].
      intros a b Hab Hb. by destruct a, b.
    + destruct (str_find pat s) as [[before' after']|] eqn:Ef; [|done].
      intros [= <- <-]. destruct (IH _ eq_refl) as [-> Hfirst].
      split; [done|]. intros a b Hab Hb.
      symmetry in Hab. apply str_app_cons_split in Hab as [[-> ->]|(a' & -> & Hab)].
      * intros Hs%starts_with_drop. simpl in Hs. rewrite Ed in Hs. by destruct Hs.
      * by eapply Hfirst.
Qed.

Lemma str_find_unfold (pat s : string) :
  str_find pat s =
    match str_drop_prefix pat s with
    | Some r => Some ("", r)
    | None =>
        match s with
        | String c s' =>
            match str_find pat s' with
            | Some (before, after) => Some (String c before, after)
            | None => None
            end
        | "" => None
        end
    end.
Proof. by destruct s. Qed.

Lemma str_find_app (pat before after : string) :
  is_Some (str_find pat (before +:+ pat +:+ after)).
Proof.
  induction before as [|c before IH].
  - change ("" +:+ pat +:+ after) with (pat +:+ after).
    rewrite str_find_unfold, str_drop_prefix_app. by eexists.
  - change (String c before +:+ pat +:+ after) with (String c (before +:+ pat +:+ after)).
    rewrite (str_find_unfold pat (String c _)).
    destruct (str_drop_prefix pat (String c _)); [by eexists|].
    destruct IH as [[b a] ->]. by eexists.
Qed.

Lemma str_app_overlap (a r m t : string) :
  a +:+ r = m +:+ t → String.length a ≤ String.length m → ∃ u, r = u +:+ t.
Proof.
  revert m; induction a as [|x a IH]; intros m; simpl.
  - intros -> _. by exists m.
  - destruct m as [|y m]; simpl; [lia|].
    intros [= -> H] Hlen. apply (IH m H). lia.
Qed.

Lemma span_find_Some (op cl s pre body post : string) :
  span_find op cl s = Some (pre, body, post) →
  s = pre +:+ op +:+ body +:+ cl +:+ post
  ∧ (∀ a b, body = a +:+ b → b ≠ "" → ¬ starts_with cl (b +:+ cl +:+ post))
  ∧ (∀ a b, pre = a +:+ b → b ≠ "" →
            ¬ starts_with op (b +:+ op +:+ body +:+ cl +:+ post)).
Proof.
  assert (Hhere : ∀ s body post,
    str_drop_prefix op s ≫= str_find cl = Some (body, post) →
    s = op +:+ body +:+ cl +:+ post
    ∧ (∀ a b, body = a +:+ b → b ≠ "" → ¬ starts_with cl (b +:+ cl +:+ post))).
  { clear. intros s body post H.
    destruct (str_drop_prefix op s) as [r|] eqn:Ed; [|done]. cbn in H.
    apply str_drop_prefix_Some in Ed as ->.
    apply str_find_Some in H as [-> H]. done. }
  revert pre; induction s as [|c s IH]; intros pre; cbn [span_find].
  - destruct (str_drop_prefix op "" ≫= str_find cl) as [[b p]|] eqn:E; [|done].
    intros [= <- <- <-]. destruct (Hhere _ _ _ E) as [Hs H]. split; [done|].
    split; [done|]. intros a b' Hab Hb. by destruct a, b'.
  - destruct (str_drop_prefix op (String c s) ≫= str_find cl) as [[b p]|] eqn:E.
    + intros [= <- <- <-]. destruct (Hhere _ _ _ E) as [Hs H]. split; [done|].
      split; [done|]. intros a b' Hab Hb. by destruct a, b'.
    + destruct (span_find op cl s) as [[[pre' b] p]|] eqn:Ef; [|done].
      intros [= <- <- <-]. destruct (IH _ eq_refl) as (-> & Hlazy & Hleft).
      split; [done|]. split; [done|]. intros a b' Hab Hb.
      symmetry in Hab. apply str_app_cons_split in Hab as [[-> ->]|(a' & -> & Hab)];
        [|by eapply Hleft].
      intros [r Hr]%starts_with_drop. simpl in Hr. rewrite Hr in E. cbn in E.
      apply str_drop_prefix_Some in Hr.
      assert (is_Some (str_find cl r)) as [? Hsome]; [|by rewrite Hsome in E].
      (* the closing marker of the span lies in [r] *)
      destruct (str_app_overlap op r (String c pre' +:+ op +:+ b) (cl +:+ p)) as [u ->].
      { rewrite <- Hr. simpl. by rewrite !str_app_assoc. }
      { simpl. rewrite !str_app_length. lia. }
      apply str_find_app.
Qed.

Lemma span_find_unfold (op cl s : string) :
  span_find op cl s =
    match str_drop_prefix op s ≫= str_find cl with
    | Some (body, post) => Some ("", body, post)
    | None =>
        match s with
        | String c s' =>
            match span_find op cl s' with
            | Some (pre, body, post) => Some (String c pre, body, post)
            | None => None
            end
        | "" => None
        end
    end.
Proof. by destruct s. Qed.

Lemma span_find_None (op cl s : string) :
  span_find op cl s = None → ∀ a b c, s ≠ a +:+ op +:+ b +:+ cl +:+ c.
Proof.
  intros H a; revert s H; induction a as [|x a IH]; intros s H b c ->.
  - change ("" +:+ op +:+ b +:+ cl +:+ c) with (op +:+ b +:+ cl +:+ c) in H.
    rewrite span_find_unfold, str_drop_prefix_app in H. cbn in H.
    destruct (str_find_app cl b c) as [[u v] Hf]. by rewrite Hf in H.
  - change (String x a +:+ op +:+ b +:+ cl +:+ c)
      with (String x (a +:+ op +:+ b +:+ cl +:+ c)) in H.
    rewrite span_find_unfold in H.
    destruct (str_drop_prefix op (String x _) ≫= str_find cl) as [[u v]|]; [done|].
    destruct (span_find op cl (a +:+ op +:+ b +:+ cl +:+ c)) as [[[u v] t]|] eqn:E; [done|].
    by eapply IH.
Qed.

Lemma re_compile_debug : re_compile debug_pattern = Some debug_atoms.
Proof. reflexivity. Qed.

(** Removing the pattern removes the debug-only spans, on every text. *)
Lemma re_sub_atoms_debug (prev : option ascii) (s : string) :
  ∃ out, re_sub_atoms fl_dotall debug_atoms prev s = Some out ∧ Stripped s out.
Proof.
  remember (String.length s) as n eqn:Hn. revert prev s Hn.
  induction n as [n IH] using lt_wf_ind. intros prev s ->.
  rewrite re_sub_atoms_step.
  pose proof (re_scan_span debug_open debug_close None prev s) as Hscan.
  fold debug_atoms in Hscan.
  destruct (re_scan fl_dotall debug_atoms prev s) as [[pre [[g last] rest]]|].
  - symmetry in Hscan. cbn in Hscan.
    apply span_find_Some in Hscan as (-> & Hlazy & Hleft).
    rewrite decide_True by (rewrite !str_app_length; simpl; lia).
    destruct (IH (String.length rest)) with (prev := last) (s := rest)
      as (out & -> & Hout); [rewrite !str_app_length; simpl; lia | done |].
    exists (pre +:+ out). split; [done|]. by apply stripped_span.
  - exists s. split; [done|]. apply stripped_rest. intros (a & b & c & ->).
    symmetry in Hscan. cbn in Hscan. by eapply span_find_None.
Qed.

Lemma re_sub_debug (s : string) :
  ∃ out, re_sub_empty debug_pattern s fl_dotall = Ok out ∧ Stripped s out.
Proof.
  unfold re_sub_empty. rewrite re_compile_debug.
  destruct (re_sub_atoms_debug None s) as (out & -> & Hout). by exists out.
Qed.

(** ** The monad *)

Lemma bind_unfold {A B} (m : M A) (k : A → M B) (w : world) :
  (m ≫= k) w =
    match m w with
    | (Ok a, w') => k a w'
    | (Raise e, w') => (Raise e, w')
    end.
Proof. reflexivity. Qed.

Section Emits.
Context (P : event → bool).

Lemma emits_only_ret {A} (a : A) : emits_only P (mret a).
Proof. intros w. exists []. by rewrite app_nil_r. Qed.

Lemma emits_only_raise {A} (e : exn) : emits_only P (@raise A e).
Proof. intros w. exists []. by rewrite app_nil_r. Qed.

Lemma emits_only_bind {A B} (m : M A) (k : A → M B) :
  emits_only P m → (∀ a, emits_only P (k a)) → emits_only P (m ≫= k).
Proof.
  intros Hm Hk w. rewrite bind_unfold. destruct (Hm w) as (evs1 & H1 & HP1).
  destruct (m w) as [[a|e] w1]; simpl in *.
  - destruct (Hk a w1) as (evs2 & H2 & HP2). exists (evs1 ++ evs2).
    by rewrite H2, H1, app_assoc, forallb_app, HP1, HP2.
  - by exists evs1.
Qed.

Lemma emits_only_when (b : bool) (m : M unit) :
  emits_only P m → emits_only P (when b m).
Proof. destruct b; [done|]. intros _. apply (emits_only_ret tt). Qed.

Lemma emits_only_for_each {A} (xs : list A) (body : A → M unit) :
  (∀ x, emits_only P (body x)) → emits_only P (for_each xs body).
Proof.
  intros Hbody. induction xs as [|x xs IH]; [apply (emits_only_ret tt)|].
  apply emits_only_bind; [apply Hbody | by intros _].
Qed.

Lemma emits_only_fs_do (f : gmap string node → result (gmap string node)) :
  emits_only P (fs_do f).
Proof.
  intros w. exists []. unfold fs_do. rewrite app_nil_r.
  by destruct (f (fs w)).
Qed.

Lemma emits_only_fs_get {A} (f : gmap string node → result A) :
  emits_only P (fs_get f).
Proof. intros w. exists []. by rewrite app_nil_r. Qed.

Lemma emits_only_lift {A} (r : result A) : emits_only P (lift r).
Proof. intros w. exists []. by rewrite app_nil_r. Qed.
End Emits.

Lemma emits_nothing {A} (m : M A) (w : world) :
  emits_only (λ _, false) m → log (m w).2 = log w.
Proof.
  intros Hm. destruct (Hm w) as ([|e evs] & -> & H); [by rewrite app_nil_r | done].
Qed.

Lemma bind_assoc {A B C} (m : M A) (k : A → M B) (h : B → M C) (w : world) :
  ((m ≫= k) ≫= h) w = (m ≫= (λ a, k a ≫= h)) w.
Proof. rewrite !bind_unfold. by destruct (m w) as [[a|e] w']. Qed.

Lemma bind_ext {A B} (m : M A) (k k' : A → M B) (w : world) :
  (∀ a w', k a w' = k' a w') → (m ≫= k) w = (m ≫= k') w.
Proof. intros H. rewrite !bind_unfold. by destruct (m w) as [[a|e] w']. Qed.

(** ** The order of the steps *)

(** A chain of tests, each followed by its step when the test holds, runs
    the steps that pass the test in order. *)
Lemma executes_selected (selected : list string) (l : list (string * M unit)) (w : world) :
  ∃ entered,
    executes (filter (λ step, step.1 ∈ selected) l) w
      (foldr (λ step rest, when (bool_decide (step.1 ∈ selected)) step.2;; rest)
         (mret true) l w)
      entered
    ∧ entered `prefix_of` (filter (λ step, step.1 ∈ selected) l).*1
    ∧ ((foldr (λ step rest, when (bool_decide (step.1 ∈ selected)) step.2;; rest)
          (mret true) l w).1 = Ok true →
       entered = (filter (λ step, step.1 ∈ selected) l).*1).
Proof.
  revert w; induction l as [|[name body] l IH]; intros w.
  - exists []. split; [constructor|]. split; [done|done].
  - cbn [foldr fst snd]. rewrite filter_cons. cbn [fst].
    destruct (decide (name ∈ selected)) as [Hin|Hout].
    + rewrite bool_decide_eq_true_2 by done. cbn [when]. rewrite bind_unfold.
      destruct (body w) as [[[]|e] w1] eqn:Hbody.
      * destruct (IH w1) as (entered & Hrun & Hprefix & Hall).
        exists (name :: entered). split; [by econstructor|].
        split; [by apply prefix_cons|]. intros Hok. cbn. f_equal. by apply Hall.
      * exists [name]. split; [by apply executes_raise|].
        split; [|done]. cbn. apply prefix_cons, prefix_nil.
    + rewrite bool_decide_eq_false_2 by done. cbn [when]. apply IH.
Qed.

Lemma filter_names (selected : list string) (l : list (string * M unit)) :
  (filter (λ step, step.1 ∈ selected) l).*1 = filter (λ name, name ∈ selected) (l.*1).
Proof.
  induction l as [|[name body] l IH]; [done|]. rewrite fmap_cons, !filter_cons. cbn [fst].
  destruct (decide (name ∈ selected)); [|done]. by rewrite fmap_cons, IH.
Qed.

(** ** Paths and the file system *)

Lemma path_dirname_split (p d : string) :
  path_dirname p = Some d → ∃ c r, p = d +:+ String c r.
Proof.
  revert d; induction p as [|c p IH]; intros d; [done|]. cbn [path_dirname].
  destruct (path_dirname p) as [d'|].
  - intros [= <-]. destruct (IH d' eq_refl) as (c' & r & ->). by exists c', r.
  - destruct (is_sep c); [|done]. intros [= <-]. by exists c, p.
Qed.

Lemma path_inside_split (d q : string) :
  path_inside d q = true → ∃ c r, q = d +:+ String c r.
Proof.
  unfold path_inside. destruct (str_drop_prefix d q) as [[|c r]|] eqn:E; [done| |done].
  intros _. apply str_drop_prefix_Some in E. by exists c, r.
Qed.

Lemma path_inside_longer (d q : string) :
  path_inside d q = true → String.length d < String.length q.
Proof.
  intros (c & r & ->)%path_inside_split. rewrite str_app_length. simpl. lia.
Qed.

Lemma path_dirname_shorter (p d : string) :
  path_dirname p = Some d → String.length d < String.length p.
Proof.
  intros (c & r & ->)%path_dirname_split. rewrite str_app_length. simpl. lia.
Qed.

(** The directory part of [d] is neither [d] nor below [d]. *)
Lemma path_dirname_outside (d h : string) :
  path_dirname d = Some h → h ≠ d ∧ path_inside d h = false.
Proof.
  intros Hh%path_dirname_shorter. split; [intros ->; lia|].
  destruct (path_inside d h) eqn:E; [|done].
  apply path_inside_longer in E. lia.
Qed.

Lemma fs_parent_check_ext (fs1 fs2 : gmap string node) (p : string) :
  (∀ h, path_dirname p = Some h → fs1 !! h = fs2 !! h) →
  fs_parent_check fs1 p = fs_parent_check fs2 p.
Proof.
  intros H. unfold fs_parent_check. destruct (path_dirname p) as [[|c h]|]; [done| |done].
  by rewrite (H _ eq_refl).
Qed.

Lemma path_chain_cons (p : string) :
  path_chain p =
    p :: match path_dirname p with
         | None | Some "" => []
         | Some d => path_chain_go (String.length p) d
         end.
Proof. reflexivity. Qed.

(** [os.makedirs] on a missing path whose parent is there makes that one
    directory. *)
Lemma fs_makedirs_parent_ok (fs : gmap string node) (p : string) :
  fs !! p = None → fs_parent_check fs p = Ok tt →
  fs_makedirs fs p = Ok (<[p := Dir]> fs).
Proof.
  intros Hp Hparent. unfold fs_makedirs. rewrite path_chain_cons.
  assert (Hmk : fs_mkdir fs p = Ok (<[p := Dir]> fs)).
  { unfold fs_mkdir. by rewrite Hp, Hparent. }
  destruct (path_dirname p) as [[|c h]|] eqn:Ed; cbn [fs_makedirs_chain]; [done| |done].
  pose proof (path_dirname_shorter _ _ Ed) as Hlen.
  destruct (String.length p) as [|n]; [simpl in Hlen; lia|].
  cbn [path_chain_go].
  assert (fs_exists fs (String c h) = true) as ->; [|done].
  unfold fs_parent_check in Hparent. rewrite Ed in Hparent.
  unfold fs_exists. apply bool_decide_eq_true.
  by destruct (fs !! String c h) as [[]|].
Qed.

(** When [os.makedirs] returns, the path is a directory and its parent too. *)
Lemma fs_makedirs_Ok (fs fs' : gmap string node) (p : string) :
  fs_makedirs fs p = Ok fs' →
  fs' !! p = Some Dir ∧ fs_parent_check fs' p = Ok tt.
Proof.
  unfold fs_makedirs. rewrite path_chain_cons. cbn [fs_makedirs_chain].
  set (first := match _ with [] => Ok fs | _ => _ end).
  destruct first as [fs1|e]; [|done]. cbn [result_bind].
  unfold fs_mkdir. destruct (fs1 !! p) eqn:Hp; [done|].
  destruct (fs_parent_check fs1 p) as [[]|e] eqn:Hparent; [|done].
  intros [= <-]. split; [apply lookup_insert_eq|].
  rewrite <- Hparent. apply fs_parent_check_ext. intros h [Hne _]%path_dirname_outside.
  by rewrite lookup_insert_ne.
Qed.

Lemma fs_rmtree_dir (fs : gmap string node) (d q : string) :
  fs !! d = Some Dir →
  fs_rmtree fs d !! q = if decide (q = d ∨ path_inside d q = true) then None else fs !! q.
Proof.
  intros Hd. unfold fs_rmtree. rewrite Hd, map_lookup_filter.
  destruct (fs !! q) as [n|]; cbn; [|by case_decide].
  destruct (decide (q = d ∨ path_inside d q = true)) as [[->|Hin]|Hout].
  - rewrite option_guard_False; [done | by intros [? _]].
  - rewrite option_guard_False; [done|]. intros [_ H]. by rewrite Hin in H.
  - rewrite option_guard_True; [done|]. split; [by intros ->; apply Hout; left|].
    destruct (path_inside d q); [by exfalso; apply Hout; right | done].
Qed.

(** On a destination that is a directory or is not there, and whose parent
    is there, [recreate_destination] returns; what it leaves is the old tree
    without the destination and all it held, plus the new directory. *)
Lemma recreate_destination_ok (d : string) (w : world) :
  fs w !! d = Some Dir ∨ fs w !! d = None →
  fs_parent_check (fs w) d = Ok tt →
  recreate_destination d w = (Ok tt, World (<[d := Dir]> (fs_rmtree (fs w) d)) (log w)).
Proof.
  intros Hd Hparent. unfold recreate_destination, fs_get, fs_do, fs_exists.
  rewrite !bind_unfold. cbn [fs log].
  destruct Hd as [Hd|Hd].
  - rewrite bool_decide_eq_true_2 by (rewrite Hd; by eexists). cbn [when fs log].
    rewrite fs_makedirs_parent_ok; [done| |].
    + rewrite (fs_rmtree_dir _ _ _ Hd). rewrite decide_True; [done | by left].
    + rewrite <- Hparent. apply fs_parent_check_ext.
      intros h [Hne Hout]%path_dirname_outside.
      rewrite (fs_rmtree_dir _ _ _ Hd). rewrite decide_False; [done|].
      intros [?|Hin]; [done | by rewrite Hin in Hout].
  - rewrite bool_decide_eq_false_2 by (rewrite Hd; by intros [? ?]). cbn [when].
    unfold mret, M_ret, ret. cbn [fs log].
    assert (fs_rmtree (fs w) d = fs w) as -> by (unfold fs_rmtree; by rewrite Hd).
    by rewrite fs_makedirs_parent_ok.
Qed.

Lemma recreate_destination_Ok (d : string) (w w' : world) :
  recreate_destination d w = (Ok tt, w') →
  fs w' !! d = Some Dir ∧ fs_parent_check (fs w') d = Ok tt.
Proof.
  unfold recreate_destination, fs_get, fs_do. rewrite !bind_unfold. cbn [fs log].
  destruct (when (fs_exists (fs w) d) _ w) as [[[]|e] w1]; [|done].
  destruct (fs_makedirs (fs w1) d) as [fs'|e] eqn:E; [|done].
  intros [= <-]. by apply fs_makedirs_Ok in E.
Qed.

Lemma fs_write_Ok (fs fs' : gmap string node) (p content : string) :
  fs_write fs p content = Ok fs' → fs' = <[p := File content]> fs.
Proof.
  unfold fs_write. destruct (fs !! p) as [[]|]; try done;
    destruct (fs_parent_check fs p); cbn; congruence.
Qed.

(** Removing files that are all there, each once, removes them all and
    nothing else. *)
Lemma for_each_remove (path : string → string) (names : list string)
    (fs0 : gmap string node) (lg : list event) :
  NoDup (path <$> names) →
  (∀ n, n ∈ names → ∃ c, fs0 !! path n = Some (File c)) →
  ∃ fs', for_each names (λ n, fs_do (λ fs, fs_remove fs (path n))) (World fs0 lg)
         = (Ok tt, World fs' lg)
         ∧ (∀ n, n ∈ names → fs' !! path n = None)
         ∧ (∀ q, q ∉ path <$> names → fs' !! q = fs0 !! q).
Proof.
  revert fs0; induction names as [|n names IH]; intros fs0 Hnd Hfiles.
  - exists fs0. split; [done|]. split; [|done]. by intros n ?%elem_of_nil.
  - cbn [fmap list_fmap] in Hnd. apply NoDup_cons in Hnd as [Hn Hnd].
    destruct (Hfiles n) as [c Hc]; [by left|].
    destruct (IH (delete (path n) fs0) Hnd) as (fs' & Hrun & Hgone & Hkept).
    { intros m Hm. destruct (Hfiles m) as [c' Hc']; [by right|]. exists c'.
      rewrite lookup_delete_ne; [done|]. intros Heq. apply Hn. rewrite Heq.
      by apply list_elem_of_fmap_2. }
    exists fs'. cbn [for_each]. rewrite bind_unfold. unfold fs_do at 1. cbn [fs log].
    unfold fs_remove at 1. rewrite Hc. split; [done|]. split.
    + intros m [->|Hm]%elem_of_cons; [|by apply Hgone].
      rewrite (Hkept _ Hn). apply lookup_delete_eq.
    + intros q Hq. cbn [fmap list_fmap] in Hq. apply not_elem_of_cons in Hq as [Hne Hq].
      rewrite (Hkept _ Hq). by rewrite lookup_delete_ne.
Qed.

(** ** Loops that run one command per item *)

Lemma silent_run {A} (m : M A) (w w' : world) (o : result A) :
  emits_only (λ _, false) m → m w = (o, w') → log w' = log w.
Proof. intros Hm Hrun. pose proof (emits_nothing m w Hm) as H. by rewrite Hrun in H. Qed.

Lemma for_each_loop_outcome {A} (command : A → list string) (failure : exn) (files : bool)
    (body : A → M unit) (xs : list A) (w : world) :
  (∀ x w1, turn_outcome (command x) failure files w1 (body x w1)) →
  loop_outcome command failure files xs w (for_each xs body w).
Proof.
  intros Hbody; revert w; induction xs as [|x xs IH]; intros w.
  - exists []. cbn. rewrite app_nil_r. split; [done|]. by left.
  - cbn [for_each]. rewrite bind_unfold.
    destruct (Hbody x w) as [[Hok Hlog]|[[Hraise (status & Hstatus & Hlog)]
                            |(Hfiles & kind & path & Hraise & Hlog)]].
    + destruct (body x w) as [[[]|e] w1]; [|done]. cbn [fst snd] in *.
      destruct (IH w1) as (statuses & Hlog' & Hcases).
      exists (0%Z :: statuses). cbn [zip_with]. rewrite Hlog', Hlog, <- app_assoc.
      split; [done|].
      destruct Hcases as [[Hout ->]|[(Hout & k & status & Hk & Hstatus & ->)
                          |(Hf & kind & path & Hout & k & Hk & Hst)]].
      * by left.
      * right; left. split; [done|]. exists (S k), status. cbn. split; [lia|done].
      * right; right. split; [done|]. exists kind, path. split; [done|].
        exists (S k). cbn. split; [lia|].
        destruct Hst as [->|[status ->]]; [by left | right; by exists status].
    + destruct (body x w) as [[[]|e] w1]; [done|]. cbn [fst snd] in *.
      exists [status]. cbn [zip_with]. split.
      { cbn [snd]. rewrite Hlog. by destruct xs. }
      right; left. split; [done|]. exists 0, status. cbn. split; [lia|done].
    + destruct (body x w) as [[[]|e] w1]; [done|]. cbn [fst snd] in *.
      destruct Hlog as [Hlog|[status Hlog]].
      * exists []. cbn. rewrite app_nil_r. split; [done|].
        right; right. split; [done|]. exists kind, path. split; [done|].
        exists 0. cbn. split; [lia | by left].
      * exists [status]. cbn [zip_with]. split.
        { cbn [snd]. rewrite Hlog. by destruct xs. }
        right; right. split; [done|]. exists kind, path. split; [done|].
        exists 0. cbn. split; [lia | right; by exists status].
Qed.

(** The file operations raise nothing but [OSError]. *)
Lemma fs_parent_check_os (fs0 : gmap string node) (p : string) :
  raises_os_error (fs_parent_check fs0 p).
Proof.
  unfold fs_parent_check. destruct (path_dirname p) as [[|c d]|]; [done| |done].
  destruct (fs0 !! String c d) as [[|]|]; cbn; eauto.
Qed.

Lemma fs_mkdir_os (fs0 : gmap string node) (p : string) :
  raises_os_error (fs_mkdir fs0 p).
Proof.
  unfold fs_mkdir. destruct (fs0 !! p); [cbn; eauto|].
  pose proof (fs_parent_check_os fs0 p) as H.
  by destruct (fs_parent_check fs0 p) as [[]|e].
Qed.

Lemma fs_listdir_os (fs0 : gmap string node) (p : string) :
  raises_os_error (fs_listdir fs0 p).
Proof. unfold fs_listdir. destruct (fs0 !! p) as [[|]|]; cbn; eauto. Qed.

Lemma fs_write_os (fs0 : gmap string node) (p content : string) :
  raises_os_error (fs_write fs0 p content).
Proof.
  unfold fs_write. pose proof (fs_parent_check_os fs0 p) as H.
  destruct (fs0 !! p) as [[|]|]; cbn; eauto;
    by destruct (fs_parent_check fs0 p) as [[]|e].
Qed.

Lemma fs_copyfile_os (fs0 : gmap string node) (src dst : string) :
  raises_os_error (fs_copyfile fs0 src dst).
Proof.
  unfold fs_copyfile. destruct (_ && _); [cbn; eauto|].
  unfold fs_read. destruct (fs0 !! src) as [[content|]|]; cbn; eauto.
  apply fs_write_os.
Qed.

Lemma fs_remove_os (fs0 : gmap string node) (p : string) :
  raises_os_error (fs_remove fs0 p).
Proof. unfold fs_remove. destruct (fs0 !! p) as [[|]|]; cbn; eauto. Qed.

(** A loop of file operations records nothing and raises nothing but
    [OSError]. *)
Lemma for_each_fs_do_os {A} (op : A → gmap string node → result (gmap string node))
    (xs : list A) (w : world) :
  (∀ x fs0, raises_os_error (op x fs0)) →
  log (for_each xs (λ x, fs_do (op x)) w).2 = log w
  ∧ raises_os_error (for_each xs (λ x, fs_do (op x)) w).1.
Proof.
  intros Hop; revert w; induction xs as [|x xs IH]; intros w; [done|].
  cbn [for_each]. rewrite bind_unfold. unfold fs_do at 1 3.
  pose proof (Hop x (fs w)) as Hx.
  destruct (op x (fs w)) as [fs'|e]; [|done].
  destruct (IH (World fs' (log w))) as [Hlog Hraise]. by split.
Qed.

(** ** The value of a group without DOTALL *)

Lemma re_lazy_no_newline (fl : re_flags) (k : option ascii → string → option re_hit)
    (prev : option ascii) (s g : string) (last : option ascii) (rest : string) :
  DOTALL fl = false →
  re_lazy fl k prev s = Some (g, last, rest) → no_newline g = true.
Proof.
  intros Hfl. revert prev g last rest;
    induction s as [|c s IH]; intros prev g last rest; cbn [re_lazy].
  - destruct (k prev "") as [[[g' l'] r']|]; [|done]. by intros [= <- _ _].
  - destruct (k prev (String c s)) as [[[g' l'] r']|]; [by intros [= <- _ _]|].
    unfold re_dot_ok. rewrite Hfl. cbn [orb].
    destruct (bool_decide (c = newline)) eqn:Hc; [done|]. cbn [negb].
    destruct (re_lazy fl k (Some c) s) as [[[g' l'] r']|] eqn:E; [|done].
    intros [= <- _ _]. unfold no_newline. cbn [str_forallb]. rewrite Hc. cbn.
    by eapply (IH (Some c)).
Qed.

Lemma re_match_no_newline (fl : re_flags) (p : list re_atom) (prev : option ascii)
    (s g : string) (last : option ascii) (rest : string) :
  DOTALL fl = false →
  re_match fl p prev s = Some (g, last, rest) → no_newline g = true.
Proof.
  intros Hfl. revert prev s; induction p as [|a p IH]; intros prev s; cbn [re_match].
  - by intros [= <- _ _].
  - destruct a as [c| | | |name].
    + destruct s as [|d s]; [done|]. case_decide; [apply IH | done].
    + destruct s as [|d s]; [done|]. destruct (re_dot_ok fl d); [apply IH | done].
    + destruct (re_at_bol fl prev); [apply IH | done].
    + destruct (re_at_eol fl s); [apply IH | done].
    + by apply re_lazy_no_newline.
Qed.

Lemma re_scan_no_newline (fl : re_flags) (p : list re_atom) (prev : option ascii)
    (s pre g : string) (last : option ascii) (rest : string) :
  DOTALL fl = false →
  re_scan fl p prev s = Some (pre, (g, last, rest)) → no_newline g = true.
Proof.
  intros Hfl. revert prev pre g last rest;
    induction s as [|c s IH]; intros prev pre g last rest; rewrite re_scan_unfold.
  - destruct (re_match fl p prev "") as [[[g' l'] r']|] eqn:E; [|done].
    intros [= _ <- _ _]. by eapply re_match_no_newline.
  - destruct (re_match fl p prev (String c s)) as [[[g' l'] r']|] eqn:E.
    + intros [= _ <- _ _]. by eapply re_match_no_newline.
    + destruct (re_scan fl p (Some c) s) as [[pre' [[g' l'] r']]|] eqn:E'; [|done].
      intros [= _ <- _ _]. by eapply IH.
Qed.

(** ** Reading and writing one path *)

Lemma reads_only_ret {A} (a : A) : reads_only (mret a).
Proof. done. Qed.

Lemma reads_only_raise {A} (e : exn) : reads_only (@raise A e).
Proof. done. Qed.

Lemma reads_only_lift {A} (r : result A) : reads_only (lift r).
Proof. done. Qed.

Lemma reads_only_fs_get {A} (f : gmap string node → result A) : reads_only (fs_get f).
Proof. done. Qed.

Lemma reads_only_bind {A B} (m : M A) (k : A → M B) :
  reads_only m → (∀ a, reads_only (k a)) → reads_only (m ≫= k).
Proof.
  intros Hm Hk w. rewrite bind_unfold. specialize (Hm w).
  destruct (m w) as [[a|e] w1]; cbn in Hm; subst w1; [apply Hk | done].
Qed.

Lemma writes_only_raise {A} (p : string) (e : exn) : writes_only p (@raise A e).
Proof. done. Qed.

Lemma writes_only_bind {A B} (p : string) (m : M A) (k : A → M B) :
  reads_only m → (∀ a, writes_only p (k a)) → writes_only p (m ≫= k).
Proof.
  intros Hm Hk w. rewrite bind_unfold. specialize (Hm w).
  destruct (m w) as [[a|e] w1]; cbn in Hm; subst w1; [apply Hk | done].
Qed.

Lemma writes_only_fs_do (p : string) (f : gmap string node → result (gmap string node)) :
  (∀ fs0 fs', f fs0 = Ok fs' → ∀ q, q ≠ p → fs' !! q = fs0 !! q) →
  writes_only p (fs_do f).
Proof.
  intros Hf w. unfold fs_do. destruct (f (fs w)) as [fs'|e] eqn:E; [|done].
  cbn. split; [done|]. split; [by apply Hf | done].
Qed.

Lemma fs_copyfile_Ok (fs0 fs' : gmap string node) (src dst : string) :
  fs_copyfile fs0 src dst = Ok fs' →
  ∃ content, src ≠ dst ∧ fs0 !! src = Some (File content)
             ∧ fs' = <[dst := File content]> fs0.
Proof.
  unfold fs_copyfile, fs_exists, fs_read.
  destruct (fs0 !! src) as [[content|]|] eqn:E.
  - rewrite bool_decide_eq_true_2 by done. cbn [andb].
    case_bool_decide as Hne; [done|]. cbn.
    intros ->%fs_write_Ok. by exists content.
  - by destruct (_ && _).
  - by destruct (_ && _).
Qed.

(** ** The pieces of a text *)

Lemma Stripped_length (s out : string) :
  Stripped s out → String.length out ≤ String.length s.
Proof.
  induction 1 as [s _|pre body post out _ _ _ IH]; [done|].
  rewrite !str_app_length. lia.
Qed.

Lemma Stripped_no_span (s out : string) : ¬ has_span s → Stripped s out → out = s.
Proof.
  intros Hs H. destruct H as [s _|pre body post out _ _ _]; [done|].
  exfalso. apply Hs. by exists pre, body, post.
Qed.

Lemma py_split_join (sep : ascii) (s : string) :
  String.concat (String sep "") (py_split sep s) = s.
Proof.
  induction s as [|c s IH]; [done|]. cbn [py_split].
  pose proof (py_split_nonempty sep s) as Hne.
  destruct (decide (c = sep)) as [->|Hc].
  - destruct (py_split sep s) as [|w ws]; [done|].
    change (String.concat (String sep "") ("" :: w :: ws))
      with (String sep (String.concat (String sep "") (w :: ws))).
    by rewrite IH.
  - destruct (py_split sep s) as [|w ws]; [done|]. rewrite <- IH.
    by destruct ws.
Qed.

Lemma py_split_pieces (sep : ascii) (s : string) :
  Forall (λ w, str_count sep w = 0) (py_split sep s).
Proof.
  induction s as [|c s IH]; [by repeat constructor|]. cbn [py_split].
  pose proof (py_split_nonempty sep s) as Hne.
  destruct (decide (c = sep)) as [->|Hc]; [by constructor|].
  destruct (py_split sep s) as [|w ws]; [done|].
  apply Forall_cons in IH as [Hw Hws]. constructor; [|done].
  cbn [str_count]. by rewrite decide_False.
Qed.

Lemma py_split_length (sep : ascii) (s : string) :
  length (py_split sep s) = S (str_count sep s).
Proof.
  induction s as [|c s IH]; [done|]. cbn [py_split str_count].
  pose proof (py_split_nonempty sep s) as Hne.
  destruct (decide (c = sep)) as [->|Hc]; cbn; [by rewrite IH|].
  rewrite <- IH. by destruct (py_split sep s).
Qed.

Lemma fmt_markup_left (rest : string) :
  fmt_markup MText ("{{" +:+ rest) = FLit "{" :: fmt_markup MText rest.
Proof. reflexivity. Qed.

Lemma fmt_markup_right (rest : string) :
  fmt_markup MText ("}}" +:+ rest) = FLit "}" :: fmt_markup MText rest.
Proof. reflexivity. Qed.

Lemma str_format_pieces (render : string → option ascii → string → string → result string)
    (value : string) (pieces : list piece) :
  forallb piece_ok pieces = true →
  str_format render (str_concat (piece_source <$> pieces)) [("configuration", value)]
  = Ok (str_concat (piece_staged value <$> pieces)).
Proof.
  unfold str_format.
  induction pieces as [|p pieces IH]; [done|].
  cbn [forallb fmap list_fmap str_concat]. intros [Hp Hpieces]%andb_true_iff.
  destruct p as [s| | |]; cbn [piece_source piece_staged].
  - rewrite (fmt_markup_text _ _ Hp), fmt_render_lits, (IH Hpieces). simpl.
    by rewrite string_of_list_ascii_of_string.
  - rewrite fmt_markup_token. cbn [fmt_render].
    by rewrite fmt_field_configuration, (IH Hpieces).
  - rewrite fmt_markup_left. cbn [fmt_render]. by rewrite (IH Hpieces).
  - rewrite fmt_markup_right. cbn [fmt_render]. by rewrite (IH Hpieces).
Qed.

Lemma str_drop_app (a : string) (c : ascii) (rest : string) :
  str_drop (String.length a + 1) (a +:+ String c rest) = rest.
Proof. induction a as [|x a IH]; [done|]. exact IH. Qed.

(** ** deployment.py *)

#[local] Instance flip_le_total : Total (flip String.le).
Proof. intros a b. unfold flip. destruct (total String.le a b); auto. Qed.

#[local] Instance flip_le_trans : Transitive (flip String.le).
Proof. intros a b c Hab Hbc. unfold flip in *. by etrans. Qed.

Lemma forward_slashes_idemp (s : string) :
  forward_slashes (forward_slashes s) = forward_slashes s.
Proof.
  induction s as [|c s IH]; [done|]. cbn [forward_slashes]. rewrite IH. f_equal.
  repeat case_decide; congruence.
Qed.

(** The first element that passes the test: what is before it fails it. *)
Lemma find_first {A} (f : A → bool) (l : list A) (x : A) :
  List.find f l = Some x →
  ∃ l1 l2, l = l1 ++ x :: l2 ∧ f x = true ∧ Forall (λ y, f y = false) l1.
Proof.
  induction l as [|y l IH]; [done|]. cbn [List.find].
  destruct (f y) eqn:Hy.
  - intros [= ->]. by exists [], l.
  - intros (l1 & l2 & -> & Hx & Hl1)%IH. exists (y :: l1), l2.
    split; [done|]. split; [done|]. by constructor.
Qed.

Lemma find_nothing {A} (f : A → bool) (l : list A) :
  List.find f l = None → Forall (λ y, f y = false) l.
Proof.
  induction l as [|y l IH]; [by constructor|]. cbn [List.find].
  destruct (f y) eqn:Hy; [done|]. intros H. constructor; [done | by apply IH].
Qed.

Section DeploymentProperties.
Context (found_revisions : string → string → result (list directory_match)).

(** The loop over the directories, in one equation: it stops at the first
    directory that does not give a text, and otherwise appends the texts. *)
Lemma scan_directories_spec (platform : string) (found : list directory_match)
    (d : gmap string (list string)) (all : list string) :
  match scan_directories platform found d all with
  | Ok (d', all') =>
      scan_error (Ok found) = None
      ∧ d' !! platform = (λ l, l ++ revisions_found (Ok found)) <$> d !! platform
      ∧ (∀ q, q ≠ platform → d' !! q = d !! q)
      ∧ all' = all ++ revisions_found (Ok found)
  | Raise e => scan_error (Ok found) = Some e
  end.
Proof.
  revert d all; induction found as [|[|[v|]|e] found IH]; intros d all;
    cbn [scan_directories]; try done.
  - rewrite !app_nil_r. split; [done|]. split; [|done].
    destruct (d !! platform); cbn; [|done]. by rewrite app_nil_r.
  - specialize (IH (alter (λ revisions, revisions ++ [v]) platform d) (all ++ [v])).
    destruct (scan_directories platform found _ _) as [[d' all']|e]; [|exact IH].
    destruct IH as (Herr & Hp & Hq & ->). split; [exact Herr|]. split; [|split].
    + rewrite Hp, lookup_alter_eq. destruct (d !! platform); cbn; [|done].
      by rewrite <- app_assoc.
    + intros q Hne. by rewrite (Hq q Hne), lookup_alter_ne.
    + cbn. by rewrite <- app_assoc.
Qed.

Lemma scan_platform_spec (format platform : string)
    (d : gmap string (list string)) (all : list string) :
  match scan_platform found_revisions format platform d all with
  | Ok (d', all') =>
      scan_error (found_revisions format platform) = None
      ∧ d' !! platform = Some (revisions_found (found_revisions format platform))
      ∧ (∀ q, q ≠ platform → d' !! q = d !! q)
      ∧ all' = all ++ revisions_found (found_revisions format platform)
  | Raise e => scan_error (found_revisions format platform) = Some e
  end.
Proof.
  unfold scan_platform. destruct (found_revisions format platform) as [found|e];
    cbn [result_bind]; [|done].
  pose proof (scan_directories_spec platform found (<[platform := []]> d) all) as H.
  destruct (scan_directories platform found _ all) as [[d' all']|e]; [|exact H].
  destruct H as (Herr & Hp & Hq & ->). split; [exact Herr|]. split; [|split; [|done]].
  - by rewrite Hp, lookup_insert_eq.
  - intros q Hne. by rewrite (Hq q Hne), lookup_insert_ne.
Qed.

Lemma scan_platforms_cons (format platform : string) (platforms : list string)
    (d : gmap string (list string)) (all : list string) :
  forward_slashes format = format →
  scan_platforms found_revisions format (platform :: platforms) d all
  = let* scanned := scan_platform found_revisions format platform d all in
    scan_platforms found_revisions format platforms scanned.1 scanned.2.
Proof.
  intros Hf. cbn [scan_platforms]. rewrite Hf. unfold scan_platform.
  by destruct (found_revisions format platform).
Qed.

Lemma scan_platforms_slashes (format : string) (platforms : list string)
    (d : gmap string (list string)) (all : list string) :
  scan_platforms found_revisions format platforms d all
  = scan_platforms found_revisions (forward_slashes format) platforms d all.
Proof.
  destruct platforms as [|p platforms]; [done|]. cbn [scan_platforms].
  by rewrite forward_slashes_idemp.
Qed.

Lemma scan_platforms_keeps (format : string) (platforms : list string) (p : string)
    (d d' : gmap string (list string)) (all all' : list string) :
  forward_slashes format = format →
  scan_platforms found_revisions format platforms d all = Ok (d', all') →
  p ∉ platforms → d' !! p = d !! p.
Proof.
  intros Hf. revert d all; induction platforms as [|q platforms IH]; intros d all.
  - by intros [= <- <-].
  - rewrite (scan_platforms_cons _ _ _ _ _ Hf).
    pose proof (scan_platform_spec format q d all) as H.
    destruct (scan_platform found_revisions format q d all) as [[d1 all1]|e]; [|done].
    cbn [result_bind fst snd]. intros Hrest [Hne Hps]%not_elem_of_cons.
    rewrite (IH _ _ Hrest Hps). destruct H as (_ & _ & Hq & _). by apply Hq.
Qed.

(** The loop over the platforms: when it ends, every scan went through and
    the dictionary holds, for every platform, the texts of its scan; when it
    raises, the exception is that of the first platform whose scan stops. *)
Lemma scan_platforms_spec (format : string) (platforms : list string)
    (d : gmap string (list string)) (all : list string) :
  forward_slashes format = format →
  match scan_platforms found_revisions format platforms d all with
  | Ok (d', all') =>
      (∀ p, p ∈ platforms →
            scan_error (found_revisions format p) = None
            ∧ d' !! p = Some (revisions_found (found_revisions format p)))
      ∧ all' = all ++ concat ((λ p, revisions_found (found_revisions format p)) <$> platforms)
  | Raise e =>
      ∃ before p after,
        platforms = before ++ p :: after
        ∧ (∀ q, q ∈ before → scan_error (found_revisions format q) = None)
        ∧ scan_error (found_revisions format p) = Some e
  end.
Proof.
  intros Hf. revert d all; induction platforms as [|p platforms IH]; intros d all.
  - cbn [scan_platforms]. split; [by intros p ?%elem_of_nil | by rewrite app_nil_r].
  - rewrite (scan_platforms_cons _ _ _ _ _ Hf).
    pose proof (scan_platform_spec format p d all) as H.
    destruct (scan_platform found_revisions format p d all) as [[d1 all1]|e]; cbn [result_bind fst snd].
    + destruct H as (Herr & Hp & Hq & ->).
      specialize (IH d1 (all ++ revisions_found (found_revisions format p))).
      destruct (scan_platforms found_revisions format platforms d1 _)
        as [[d' all']|e] eqn:Erest.
      * destruct IH as [Hps ->]. split.
        -- intros q [->|Hin]%elem_of_cons; [|by apply Hps].
           split; [done|]. destruct (decide (p ∈ platforms)) as [Hin|Hout];
             [by apply Hps | by rewrite (scan_platforms_keeps _ _ p _ _ _ _ Hf Erest Hout)].
        -- cbn [fmap list_fmap concat]. by rewrite <- app_assoc.
      * destruct IH as (before & q & after & -> & Hbefore & Hq').
        exists (p :: before), q, after. split; [done|]. split; [|done].
        by intros r [->|Hr]%elem_of_cons; [|apply Hbefore].
    + exists [], p, platforms. split; [done|]. split; [|done].
      by intros q ?%elem_of_nil.
Qed.

Lemma available_for_all_Ok (revision : string) (platforms : list string)
    (d : gmap string (list string)) (R : string → list string) :
  (∀ p, p ∈ platforms → d !! p = Some (R p)) →
  available_for_all revision platforms d
  = Ok (forallb (λ p, bool_decide (revision ∈ R p)) platforms).
Proof.
  induction platforms as [|p platforms IH]; intros Hd; [done|].
  cbn [available_for_all forallb]. rewrite (Hd p) by (by left).
  destruct (bool_decide (revision ∈ R p)); [|done].
  apply IH. intros q Hq. apply Hd. by right.
Qed.

Lemma first_available_find (revisions platforms : list string)
    (d : gmap string (list string)) (R : string → list string) (start : option string) :
  (∀ p, p ∈ platforms → d !! p = Some (R p)) →
  first_available revisions platforms d start
  = Ok (List.find (λ r, forallb (λ p, bool_decide (r ∈ R p)) platforms && not_after r start)
          revisions).
Proof.
  intros Hd. induction revisions as [|r revisions IH]; [done|].
  cbn [first_available List.find]. rewrite (available_for_all_Ok _ _ _ _ Hd).
  cbn [result_bind]. by destruct (_ && _).
Qed.

(** The function in one equation: the scan, then the first of the sorted
    revisions that every platform has and that is not after the start. *)
Lemma get_latest_available_revision_spec (format : string) (platforms : list string)
    (start : option string) :
  match scan_platforms found_revisions format platforms ∅ [] with
  | Ok _ =>
      (∀ p, p ∈ platforms →
            scan_error (found_revisions (forward_slashes format) p) = None)
      ∧ get_latest_available_revision found_revisions format platforms start
        = Ok (List.find
                (λ r, forallb (λ p, bool_decide (r ∈ revisions_of found_revisions format p)) platforms
                      && not_after r start)
                (sort_reverse (concat (revisions_of found_revisions format <$> platforms))))
  | Raise e =>
      get_latest_available_revision found_revisions format platforms start = Raise e
      ∧ ∃ before p after,
          platforms = before ++ p :: after
          ∧ (∀ q, q ∈ before →
                  scan_error (found_revisions (forward_slashes format) q) = None)
          ∧ scan_error (found_revisions (forward_slashes format) p) = Some e
  end.
Proof.
  unfold get_latest_available_revision. rewrite scan_platforms_slashes.
  pose proof (scan_platforms_spec (forward_slashes format) platforms ∅ []
                (forward_slashes_idemp format)) as H.
  destruct (scan_platforms found_revisions (forward_slashes format) platforms ∅ [])
    as [[d all]|e]; cbn [result_bind fst snd]; [|done].
  destruct H as [Hd ->]. split; [intros p Hp; by destruct (Hd p Hp)|].
  apply first_available_find. intros p Hp. by destruct (Hd p Hp).
Qed.

Lemma available_everywhere (format : string) (platforms : list string) (revision : string) :
  forallb (λ p, bool_decide (revision ∈ revisions_of found_revisions format p)) platforms = true
  ↔ common found_revisions format platforms revision.
Proof.
  rewrite forallb_forall. unfold common. split.
  - intros H p Hp%list_elem_of_In. specialize (H p Hp).
    by apply bool_decide_eq_true_1 in H.
  - intros H p Hp%list_elem_of_In. apply bool_decide_eq_true_2. by apply H.
Qed.

Lemma common_in_all (format : string) (platforms : list string) (revision : string) :
  platforms ≠ [] →
  common found_revisions format platforms revision →
  revision ∈ sort_reverse (concat (revisions_of found_revisions format <$> platforms)).
Proof.
  intros Hne H. unfold sort_reverse. rewrite merge_sort_Permutation.
  destruct platforms as [|p platforms]; [done|]. cbn [fmap list_fmap concat].
  apply elem_of_app. left. apply H. by left.
Qed.

Lemma get_latest_available_revision_latest (format : string) (platforms : list string)
    (start : option string) (r : option string) :
  get_latest_available_revision found_revisions format platforms start = Ok r →
  latest found_revisions format platforms start r.
Proof.
  intros Hget.
  pose proof (get_latest_available_revision_spec format platforms start) as H.
  destruct (scan_platforms found_revisions format platforms ∅ []) as [[d all]|e];
    [|destruct H as [H _]; by rewrite H in Hget].
  destruct H as [_ Hfind]. rewrite Hfind in Hget. injection Hget as Hget.
  destruct r as [revision|]; cbn [latest].
  - apply find_first in Hget as (l1 & l2 & Hsorted & [Hav Hstart]%andb_true_iff & Hl1).
    split; [by apply available_everywhere|]. split; [done|].
    intros other Hother Hother_start.
    assert (Hne : platforms ≠ []).
    { intros ->. cbn in Hsorted. by destruct l1. }
    pose proof (common_in_all _ _ _ Hne Hother) as Hin.
    rewrite Hsorted in Hin.
    apply elem_of_app in Hin as [Hin|Hin].
    + rewrite Forall_forall in Hl1. specialize (Hl1 _ Hin). cbn beta in Hl1.
      apply available_everywhere in Hother. by rewrite Hother, Hother_start in Hl1.
    + apply elem_of_cons in Hin as [->|Hin]; [done|].
      pose proof (StronglySorted_merge_sort (flip String.le)
                    (concat (revisions_of found_revisions format <$> platforms))) as Hss.
      fold (sort_reverse (concat (revisions_of found_revisions format <$> platforms))) in Hss.
      rewrite Hsorted in Hss. apply StronglySorted_app_1_r in Hss.
      apply StronglySorted_cons in Hss as [Hss _].
      rewrite Forall_forall in Hss. exact (Hss _ Hin).
  - intros Hne other Hother.
    apply find_nothing in Hget. rewrite Forall_forall in Hget.
    specialize (Hget _ (common_in_all _ _ _ Hne Hother)). cbn beta in Hget.
    apply available_everywhere in Hother. by rewrite Hother in Hget.
Qed.

Lemma get_latest_available_revision_returns (format : string) (platforms : list string)
    (start : option string) :
  (∀ p, p ∈ platforms → scan_error (found_revisions (forward_slashes format) p) = None)
  ↔ ∃ r, get_latest_available_revision found_revisions format platforms start = Ok r.
Proof.
  pose proof (get_latest_available_revision_spec format platforms start) as H.
  destruct (scan_platforms found_revisions format platforms ∅ []) as [[d all]|e].
  - destruct H as [Hclean ->]. split; [by eexists | done].
  - destruct H as (-> & before & p & after & -> & _ & Hp). split; [|by intros [r ?]].
    intros H. rewrite H in Hp; [done|]. apply elem_of_app. right. by left.
Qed.

(** X11: the revision [get_latest_available_revision] returns was found for
    every platform and is not after the start revision, and no revision with
    these two properties is above it in the order of texts. *)
Theorem latest_revision_is_best (format : string) (platforms : list string)
    (start : option string) (revision : string) :
  get_latest_available_revision found_revisions format platforms start
    = Ok (Some revision) →
  (∀ p, p ∈ platforms → revision ∈ revisions_of found_revisions format p)
  ∧ not_after revision start = true
  ∧ ∀ other,
      (∀ p, p ∈ platforms → other ∈ revisions_of found_revisions format p) →
      not_after other start = true →
      String.le other revision.
Proof. intros H. exact (get_latest_available_revision_latest _ _ _ _ H). Qed.

(** X12: without platforms [get_latest_available_revision] returns [None];
    with platforms, it returns [None] only when no revision found for every
    platform is at or before the start revision. *)
Theorem no_revision_means_none_qualifies (format : string) (platforms : list string)
    (start : option string) :
  (platforms = [] →
   get_latest_available_revision found_revisions format platforms start = Ok None)
  ∧ (get_latest_available_revision found_revisions format platforms start = Ok None →
     platforms ≠ [] →
     ∀ other,
       (∀ p, p ∈ platforms → other ∈ revisions_of found_revisions format p) →
       not_after other start = false).
Proof.
  split; [by intros ->|]. intros H. exact (get_latest_available_revision_latest _ _ _ _ H).
Qed.

(** X13: [get_latest_available_revision] returns exactly when the scan of
    every platform goes through; when it raises, the exception is that of
    the first platform whose scan stops: the selection itself raises
    nothing, and no platform is missing from the dictionary. *)
Theorem latest_revision_raises_what_the_scan_raises (format : string)
    (platforms : list string) (start : option string) :
  ((∀ p, p ∈ platforms → scan_error (found_revisions (forward_slashes format) p) = None)
   ↔ ∃ r, get_latest_available_revision found_revisions format platforms start = Ok r)
  ∧ ∀ e,
      get_latest_available_revision found_revisions format platforms start = Raise e →
      ∃ before p after,
        platforms = before ++ p :: after
        ∧ (∀ q, q ∈ before → scan_error (found_revisions (forward_slashes format) q) = None)
        ∧ scan_error (found_revisions (forward_slashes format) p) = Some e.
Proof.
  split; [apply get_latest_available_revision_returns|]. intros e Hget.
  pose proof (get_latest_available_revision_spec format platforms start) as H.
  destruct (scan_platforms found_revisions format platforms ∅ []) as [[d all]|e'].
  - destruct H as [_ H]. by rewrite H in Hget.
  - destruct H as [H Hfirst]. rewrite H in Hget. by injection Hget as ->.
Qed.

(** X14: the order in which the platforms are named, and naming one more
    than once, makes no difference to the revision returned. *)
Theorem latest_revision_ignores_platform_order (format : string)
    (platforms platforms' : list string) (start : option string) (r : option string) :
  (∀ p, p ∈ platforms ↔ p ∈ platforms') →
  get_latest_available_revision found_revisions format platforms start = Ok r →
  get_latest_available_revision found_revisions format platforms' start = Ok r.
Proof.
  intros Hsame Hget.
  assert (Hcommon : ∀ x, common found_revisions format platforms x ↔ common found_revisions format platforms' x).
  { intros x. unfold common. split; intros H p Hp; apply H; by apply Hsame. }
  assert (Hnil : platforms = [] ↔ platforms' = []).
  { split; intros ->.
    - destruct platforms' as [|p ?]; [done|].
      exfalso. apply (not_elem_of_nil p), Hsame. by left.
    - destruct platforms as [|p ?]; [done|].
      exfalso. apply (not_elem_of_nil p), Hsame. by left. }
  destruct (proj1 (get_latest_available_revision_returns format platforms' start))
    as [r' Hget'].
  { intros p Hp. apply (proj2 (get_latest_available_revision_returns format platforms start));
      [by exists r | by apply Hsame]. }
  rewrite Hget'. f_equal.
  pose proof (get_latest_available_revision_latest _ _ _ _ Hget) as H.
  pose proof (get_latest_available_revision_latest _ _ _ _ Hget') as H'.
  destruct (decide (platforms = [])) as [->|Hne].
  { rewrite (proj1 Hnil eq_refl) in Hget'. cbn in Hget, Hget'. congruence. }
  assert (Hne' : platforms' ≠ []) by (by rewrite <- Hnil).
  destruct r as [x|], r' as [x'|]; cbn [latest] in H, H'; [| | |done].
  - destruct H as (Hx & Hs & Hmax), H' as (Hx' & Hs' & Hmax'). f_equal.
    apply (anti_symm String.le).
    + apply Hmax; [by apply Hcommon | done].
    + apply Hmax'; [by apply Hcommon | done].
  - destruct H as (Hx & Hs & _). rewrite (H' Hne' x) in Hs; [done|by apply Hcommon].
  - destruct H' as (Hx' & Hs' & _). rewrite (H Hne x') in Hs'; [done|by apply Hcommon].
Qed.
End DeploymentProperties.
Section PackageProperties.
Context (X : Externals).
Local Abbreviation py_render := (ext_py_render X).
Local Abbreviation sanitize_path := (ext_sanitize_path X).
Local Abbreviation env_format := (ext_env_format X).
Local Abbreviation environ := (ext_environ X).
Local Abbreviation process_call := (ext_process_call X).
Local Abbreviation execute_hook := (ext_execute_hook X).
Local Abbreviation map_files_copy := (ext_map_files_copy X).

(** C2 (amended): for a key without pattern characters, [get_ini_value]
    returns the text after [=] of the first line that starts with [key=],
    up to the end of that line; it raises [KeyError] when no line does, and
    the error of [open] when the file cannot be read. *)
Theorem get_ini_value_first_line (file_path key : string) (w : world) :
  plain_key key = true →
  get_ini_value X file_path key w =
    match fs w !! sanitize_path file_path with
    | Some (File ini_content) =>
        match ini_lookup key (py_lines ini_content) with
        | Some value => (Ok value, w)
        | None =>
            (Raise (KeyError ("Key " +:+ key +:+ " was not found in "
                                +:+ sanitize_path file_path)), w)
        end
    | Some Dir => (Raise (OSError IsADirectoryError (sanitize_path file_path)), w)
    | None => (Raise (OSError FileNotFoundError (sanitize_path file_path)), w)
    end.
Proof.
  intros Hkey. unfold get_ini_value, mbind, M_bind, bind, fs_get, fs_read, lift.
  destruct (fs w !! sanitize_path file_path) as [[ini_content|]|]; [|done..].
  unfold re_search_group. rewrite (re_compile_ini key Hkey).
  pose proof (re_scan_ini key None ini_content Hkey) as Hscan.
  cbn [re_at_bol] in Hscan. rewrite <- Hscan.
  destruct (re_scan fl_multiline (ini_atoms key) None ini_content)
    as [[pre [[g last] rest]]|]; [|done].
  by rewrite decide_True by apply re_group_name_ini.
Qed.

(** [_stage_file] with the transformation, step by step: read, format,
    strip for the release tier, write. *)
Lemma _stage_file_transform (source destination : string) (platform : option string)
    (configuration text : string) (w : world) :
  fs w !! sanitize_path source = Some (File text) →
  _stage_file X source destination true platform (Some configuration) w =
    match str_format py_render text
            [("configuration",
              if bool_decide (platform = Some "PS4") then py_lower configuration
              else configuration)] with
    | Raise e => (Raise e, w)
    | Ok formatted =>
        match (if bool_decide (configuration = "Shipping")
               then re_sub_empty debug_pattern formatted fl_dotall
               else Ok formatted) with
        | Raise e => (Raise e, w)
        | Ok file_content =>
            fs_do (λ fs, fs_write fs (sanitize_path destination) file_content) w
        end
    end.
Proof.
  intros Hsrc.
  unfold _stage_file, mbind, M_bind, bind, fs_get, fs_read, lift, mret, M_ret, ret.
  rewrite Hsrc.
  assert (Hs : bool_decide (Some configuration = Some "Shipping")
               = bool_decide (configuration = "Shipping")).
  { apply bool_decide_ext. split; [by intros [= ->] | by intros ->]. }
  rewrite Hs. unfold debug_pattern.
  destruct (bool_decide (platform = Some "PS4")); cbn [negb];
    (destruct (str_format py_render text _) as [formatted|e]; [|done]);
    (destruct (bool_decide (configuration = "Shipping")); [|done]);
    by destruct (re_sub_empty _ formatted fl_dotall).
Qed.

(** C5 (amended): with the transformation on, every [{configuration}]
    token of the source is replaced by the configuration name, lower-cased
    exactly when the platform is PS4, for every other platform unchanged. *)
Theorem stage_file_configuration_token (source destination platform configuration : string)
    (segs : list seg) (w : world) :
  forallb seg_ok segs = true →
  fs w !! sanitize_path source = Some (File (template segs)) →
  let value := if decide (platform = "PS4") then py_lower configuration else configuration in
  _stage_file X source destination true (Some platform) (Some configuration) w =
    match (if bool_decide (configuration = "Shipping")
           then re_sub_empty debug_pattern (instantiate value segs) fl_dotall
           else Ok (instantiate value segs)) with
    | Raise e => (Raise e, w)
    | Ok file_content =>
        fs_do (λ fs, fs_write fs (sanitize_path destination) file_content) w
    end.
Proof.
  intros Hsegs Hsrc value. rewrite (_stage_file_transform _ _ _ _ _ _ Hsrc).
  rewrite (str_format_template _ _ _ Hsegs).
  assert (Hv : (if bool_decide (Some platform = Some "PS4")
                then py_lower configuration else configuration) = value).
  { unfold value. destruct (decide (platform = "PS4")) as [->|Hne].
    - by rewrite bool_decide_eq_true_2.
    - rewrite bool_decide_eq_false_2; [done | by intros [= ->]]. }
  by rewrite Hv.
Qed.

(** C10 (amended): with the transformation on, staging succeeds only when
    the source text is a well-formed format string in which every field
    names the argument [configuration]; on a text with a field naming
    anything else, or with an unmatched brace, it raises and the world is
    left as it was: no destination file is written. *)
Theorem stage_file_format_precondition (source destination : string)
    (platform : option string) (configuration text : string) (w : world) :
  fs w !! sanitize_path source = Some (File text) →
  (∀ w', _stage_file X source destination true platform (Some configuration) w = (Ok tt, w') →
         forallb fmt_item_ok (fmt_markup MText text) = true)
  ∧ (forallb fmt_item_ok (fmt_markup MText text) = false →
     ∃ e, _stage_file X source destination true platform (Some configuration) w
          = (Raise e, w)).
Proof.
  intros Hsrc. rewrite (_stage_file_transform _ _ _ _ _ _ Hsrc).
  unfold str_format.
  destruct (fmt_render py_render _ (fmt_markup MText text)) as [formatted|e] eqn:Ef.
  - apply fmt_render_ok in Ef. split; [done|]. by rewrite Ef.
  - split; [done|]. intros _. by exists e.
Qed.

(** C4: with the transformation on, the text written for the release tier
    is the formatted source without its debug-only spans, each removed
    from its opening marker to the first closing marker after it, both
    included; for any other tier it is the formatted source, with no span
    removed. *)
Theorem stage_file_strips_debug_spans (source destination : string)
    (platform : option string) (configuration text formatted : string) (w : world) :
  fs w !! sanitize_path source = Some (File text) →
  str_format py_render text
    [("configuration",
      if bool_decide (platform = Some "PS4") then py_lower configuration
      else configuration)] = Ok formatted →
  ∃ file_content,
    _stage_file X source destination true platform (Some configuration) w
    = fs_do (λ fs, fs_write fs (sanitize_path destination) file_content) w
    ∧ (configuration = "Shipping" → Stripped formatted file_content)
    ∧ (configuration ≠ "Shipping" → file_content = formatted).
Proof.
  intros Hsrc Hfmt. rewrite (_stage_file_transform _ _ _ _ _ _ Hsrc), Hfmt.
  destruct (decide (configuration = "Shipping")) as [->|Hne].
  - rewrite bool_decide_eq_true_2 by done.
    destruct (re_sub_debug formatted) as (out & -> & Hout).
    exists out. by split.
  - rewrite bool_decide_eq_false_2 by done. exists formatted. by split.
Qed.

(** *** What the functions add to the log *)

Section EmitsPackage.
Context (P : event → bool).

Lemma emits_only_call (command : list string) (heartbeat : option nat) :
  (∀ status, P (ECall command heartbeat status) = true) →
  emits_only P (call X command heartbeat).
Proof.
  intros HP w. unfold call. destruct (process_call command heartbeat (fs w)) as [status fs'].
  exists [ECall command heartbeat status]. simpl. by rewrite HP.
Qed.

Lemma emits_only_hook (name : string) (env : Env) :
  (∀ ok, P (EHook name ok) = true) → emits_only P (hook X name env).
Proof.
  intros HP w. unfold hook. destruct (execute_hook name env (fs w)) as [ok fs'].
  exists [EHook name ok]. simpl. by rewrite HP.
Qed.

Lemma emits_only_robocopy_all (env : Env) (src dst : string) :
  (∀ ok, P (ERobocopy src dst ok) = true) → emits_only P (robocopy_all X env src dst).
Proof.
  intros HP w. unfold robocopy_all. destruct (map_files_copy env src dst (fs w)) as [ok fs'].
  exists [ERobocopy src dst ok]. simpl. by rewrite HP.
Qed.

Lemma emits_only_getenv (name : string) : emits_only P (getenv X name).
Proof.
  unfold getenv. destruct (environ name); [apply emits_only_ret | apply emits_only_raise].
Qed.
End EmitsPackage.

Ltac emits :=
  repeat first
    [ apply emits_only_bind; [|intros ?]
    | apply emits_only_when
    | apply emits_only_for_each; intros ?
    | apply emits_only_fs_do
    | apply emits_only_fs_get
    | apply emits_only_lift
    | apply emits_only_getenv
    | apply emits_only_ret
    | apply emits_only_raise
    | apply emits_only_call; intros ?; reflexivity
    | apply emits_only_hook; intros ?; reflexivity
    | apply emits_only_robocopy_all; intros ?; reflexivity
    | match goal with
      | |- emits_only _ (if ?b then _ else _) => destruct b
      | |- emits_only _ (match ?x with _ => _ end) => destruct x
      end ].

(** The file operations, [get_ini_value] and [_stage_file] log nothing. *)
Lemma get_ini_value_silent (file_path key : string) :
  emits_only (λ _, false) (get_ini_value X file_path key).
Proof. unfold get_ini_value. emits. Qed.

Lemma _stage_file_silent (source destination : string) (apply_transform : bool)
    (platform configuration : option string) :
  emits_only (λ _, false) (_stage_file X source destination apply_transform
                             platform configuration).
Proof. unfold _stage_file. emits. Qed.

Lemma recreate_destination_silent (destination : string) :
  emits_only (λ _, false) (recreate_destination destination).
Proof. unfold recreate_destination. emits. Qed.

(** C1: [run] runs the selected steps, and no other, in the order
    initialize, cook, stage, package, each on the world left by the one
    before it; the first step that raises ends the run with its exception,
    so that no later step is run.  In particular, when the bulk copy of
    initialize reports a failure the run raises in initialize: the failed
    copy is all that was done, and cook is not run, selected or not. *)
Theorem run_selected_steps_in_order (env : Env) (w : world) :
  let ue4_cmd_platform :=
    if bool_decide (ue4_platform env = "Win64") then "WindowsNoEditor" else ue4_platform env in
  let engine_directory := env_format env "{root_dir}/Engine" in
  let project_directory := env_format env "{root_dir}/{game}" in
  let stage_directory :=
    env_format env ("{root_dir}/{game}/Saved/StagedBuilds/" +:+ ue4_cmd_platform) in
  let package_directory :=
    env_format env ("{root_dir}/{game}/Saved/Packages/" +:+ ue4_cmd_platform) in
  let pipeline :=
    [ ("initialize", _initialize X env);
      ("cook", _cook X engine_directory (game env) ue4_cmd_platform (iterate env));
      ("stage", _stage X engine_directory project_directory stage_directory (game env)
                  (ue4_platform env) (ue4_config env) (layout env) (compress env)
                  (patch env));
      ("package", _package_for_platform X env project_directory (game env)
                    (ue4_platform env) (ue4_config env) stage_directory package_directory
                    (final env)) ] in
  let selected := filter (λ step, step.1 ∈ steps env) pipeline in
  ∃ entered,
    executes selected w (run X env w) entered
    ∧ selected.*1
      = filter (λ name, name ∈ steps env) [ "initialize"; "cook"; "stage"; "package" ]
    ∧ entered `prefix_of` selected.*1
    ∧ ((run X env w).1 = Ok true → entered = selected.*1)
    ∧ ("initialize" ∈ steps env →
       truthy (target env) = true →
       (map_files_copy env "{game}/Config.{target}" "{root_dir}/{game}/Config" (fs w)).1
         = false →
       (run X env w).1 = Raise (RuntimeError "Initialize failed")
       ∧ entered = [ "initialize" ]
       ∧ (run X env w).2
         = World (map_files_copy env "{game}/Config.{target}" "{root_dir}/{game}/Config"
                    (fs w)).2
             (log w ++ [ERobocopy "{game}/Config.{target}" "{root_dir}/{game}/Config"
                          false])).
Proof.
  intros ue4_cmd_platform engine_directory project_directory stage_directory
    package_directory pipeline selected.
  destruct (executes_selected (steps env) pipeline w) as (entered & Hrun & Hprefix & Hall).
  change (foldr _ _ pipeline w) with (run X env w) in Hrun, Hall.
  fold selected in Hrun, Hprefix, Hall.
  exists entered. split; [exact Hrun|]. split; [apply filter_names|].
  split; [exact Hprefix|]. split; [exact Hall|].
  intros Hinit Htarget Hcopy.
  assert (Hbody : _initialize X env w
            = (Raise (RuntimeError "Initialize failed"),
               World (map_files_copy env "{game}/Config.{target}"
                        "{root_dir}/{game}/Config" (fs w)).2
                 (log w ++ [ERobocopy "{game}/Config.{target}"
                              "{root_dir}/{game}/Config" false]))).
  { unfold _initialize, robocopy_all. rewrite Htarget. cbn [when].
    rewrite !bind_unfold.
    destruct (map_files_copy env _ _ (fs w)) as [ok fs']. cbn in Hcopy. by subst ok. }
  assert (Hselected : selected = ("initialize", _initialize X env)
                                 :: filter (λ step, step.1 ∈ steps env) (tail pipeline)).
  { unfold selected, pipeline. rewrite filter_cons. cbn [fst tail].
    by rewrite decide_True. }
  rewrite Hselected in Hrun. inversion Hrun as [|? ? ? ? ? ? ? Hok|? ? ? ? ? ? Hraise]; subst.
  - rewrite Hbody in Hok. discriminate.
  - rewrite Hbody in Hraise. by injection Hraise as <- <-.
Qed.

(** C7: the package step starts by recreating its destination.  On a
    destination left by an earlier run (a directory, whatever it holds)
    this does not fail, and the directory it leaves holds nothing: all
    that was below it is gone, the rest of the tree is as it was.  A run
    that recreated the destination leaves it in that state again. *)
Theorem package_destination_recreated (env : Env) (project_directory project platform
    configuration source destination : string) (is_final_submission : bool) :
  let d := sanitize_path destination in
  (∃ strategy : M unit, ∀ w,
      _package_for_platform X env project_directory project platform configuration
        source destination is_final_submission w
      = (recreate_destination d;; strategy) w)
  ∧ (∀ w, fs w !! d = Some Dir → fs_parent_check (fs w) d = Ok tt →
       ∃ fs', recreate_destination d w = (Ok tt, World fs' (log w))
              ∧ fs' !! d = Some Dir
              ∧ (∀ q, path_inside d q = true → fs' !! q = None)
              ∧ (∀ q, q ≠ d → path_inside d q = false → fs' !! q = fs w !! q))
  ∧ (∀ w w', recreate_destination d w = (Ok tt, w') →
       fs w' !! d = Some Dir ∧ fs_parent_check (fs w') d = Ok tt).
Proof.
  intros d. split; [|split].
  - eexists. intros w. unfold _package_for_platform. reflexivity.
  - intros w Hd Hparent. eexists. split; [apply recreate_destination_ok; [by left | done] |].
    split; [apply lookup_insert_eq|]. split.
    + intros q Hq. pose proof (path_inside_longer _ _ Hq).
      rewrite lookup_insert_ne by (intros ->; lia).
      rewrite (fs_rmtree_dir _ _ _ Hd). rewrite decide_True; [done | by right].
    + intros q Hne Hout. rewrite lookup_insert_ne by done.
      rewrite (fs_rmtree_dir _ _ _ Hd). rewrite decide_False; [done|].
      intros [?|Hin]; [done | by rewrite Hin in Hout].
  - apply recreate_destination_Ok.
Qed.

(** C8: the package step chooses its strategy by the exact platform name;
    on a name that is none of the six it does what recreating the
    destination does and nothing more: nothing is logged, and it returns
    whenever the destination can be recreated. *)
Theorem package_unrecognized_platform (env : Env) (project_directory project platform
    configuration source destination : string) (is_final_submission : bool) (w : world) :
  platform ∉ [ "Linux"; "Mac"; "Win32"; "Win64"; "XboxOne"; "PS4" ] →
  let d := sanitize_path destination in
  let packaged :=
    _package_for_platform X env project_directory project platform configuration
      source destination is_final_submission w in
  packaged = recreate_destination d w
  ∧ log packaged.2 = log w
  ∧ (fs w !! d = Some Dir ∨ fs w !! d = None →
     fs_parent_check (fs w) d = Ok tt →
     packaged = (Ok tt, World (<[d := Dir]> (fs_rmtree (fs w) d)) (log w))).
Proof.
  intros Hplatform d packaged.
  assert (Heq : packaged = recreate_destination d w).
  { unfold packaged, _package_for_platform. fold d.
    rewrite bool_decide_eq_false_2 by (set_unfold; tauto).
    rewrite bool_decide_eq_false_2 by (set_unfold; tauto).
    rewrite bool_decide_eq_false_2 by (set_unfold; tauto).
    rewrite bind_unfold. by destruct (recreate_destination d w) as [[[]|e] w']. }
  rewrite Heq. split; [done|]. split.
  - apply emits_nothing, recreate_destination_silent.
  - apply recreate_destination_ok.
Qed.

(** C9 (amended): in the stage step for XboxOne, when the manifest fix-ups
    and the writing of the placeholders have returned, LaunchChunk.bin and
    AlignmentChunk.bin are files of the stage directory, and each holds
    the single character NUL: one byte, not none. *)
Theorem stage_xbox_chunks_hold_one_nul (project_directory stage_directory configuration
    : string) (w w' : world) :
  (_stage_xbox_manifest X project_directory stage_directory configuration;;
   _stage_xbox_chunks X stage_directory) w = (Ok tt, w') →
  fs w' !! sanitize_path (stage_directory +:+ "/LaunchChunk.bin")
    = Some (File (String "000" ""))
  ∧ fs w' !! sanitize_path (stage_directory +:+ "/AlignmentChunk.bin")
      = Some (File (String "000" ""))
  ∧ String.length (String "000" "") = 1.
Proof.
  rewrite bind_unfold.
  destruct (_stage_xbox_manifest X _ _ _ w) as [[[]|e] w1]; [|done].
  unfold _stage_xbox_chunks, fs_do. rewrite bind_unfold.
  destruct (fs_write (fs w1) _ _) as [fs1|e] eqn:E1; [|done]. cbn [fs log].
  destruct (fs_write fs1 _ _) as [fs2|e] eqn:E2; [|done].
  intros [= <-]. cbn [fs].
  apply fs_write_Ok in E1, E2. subst fs1 fs2.
  split; [|split; [apply lookup_insert_eq | done]].
  destruct (decide (sanitize_path (stage_directory +:+ "/AlignmentChunk.bin")
                    = sanitize_path (stage_directory +:+ "/LaunchChunk.bin"))) as [->|Hne].
  - apply lookup_insert_eq.
  - rewrite lookup_insert_ne by done. apply lookup_insert_eq.
Qed.

(** C3: in the XboxOne strategy, once the manifest files of a
    configuration are copied into the source directory and the packaging
    tool has run and left them there, the copies are removed whatever the
    exit status of the tool; the failure is raised after that, so that
    when it is raised none of the copies is left. *)
Theorem package_xboxone_removes_manifest_copies (package_tool_path game_os source
    destination project product_id content_id : string) (is_final_submission : bool)
    (current_configuration : string) (w w1 : world) (fs0 fs2 : gmap string node)
    (manifest_file_collection : list string) (status : Z) :
  let package_command :=
    xboxone_package_command X package_tool_path game_os source destination project
      product_id content_id is_final_submission current_configuration in
  fs_mkdir (fs w) (sanitize_path (destination +:+ "/" +:+ current_configuration)) = Ok fs0 →
  fs_listdir fs0 (sanitize_path (source +:+ "/Manifests/" +:+ current_configuration))
    = Ok manifest_file_collection →
  for_each manifest_file_collection (λ manifest_file,
    fs_do (λ fs, fs_copyfile fs
                   (manifest_origin X source current_configuration manifest_file)
                   (manifest_copy X source manifest_file))) (World fs0 (log w))
    = (Ok tt, w1) →
  process_call package_command None (fs w1) = (status, fs2) →
  NoDup (manifest_copy X source <$> manifest_file_collection) →
  (∀ manifest_file, manifest_file ∈ manifest_file_collection →
     ∃ content, fs2 !! manifest_copy X source manifest_file = Some (File content)) →
  ∃ fs3,
    package_xboxone X package_tool_path game_os source destination project
      product_id content_id is_final_submission current_configuration w
    = (if decide (status = 0%Z) then Ok tt else Raise (RuntimeError "Package failed"),
       World fs3 (log w ++ [ECall package_command None status]))
    ∧ (∀ manifest_file, manifest_file ∈ manifest_file_collection →
         fs3 !! manifest_copy X source manifest_file = None)
    ∧ (∀ q, q ∉ manifest_copy X source <$> manifest_file_collection →
         fs3 !! q = fs2 !! q).
Proof.
  intros package_command Hmkdir Hlist Hcopies Hcall Hnd Hfiles.
  assert (Hlog : log w1 = log w).
  { pose proof (emits_nothing
      (for_each manifest_file_collection (λ manifest_file,
         fs_do (λ fs, fs_copyfile fs
                        (manifest_origin X source current_configuration manifest_file)
                        (manifest_copy X source manifest_file))))
      (World fs0 (log w))) as H.
    rewrite Hcopies in H. apply H. apply emits_only_for_each. intros ?.
    apply emits_only_fs_do. }
  destruct (for_each_remove (manifest_copy X source) manifest_file_collection fs2
              (log w ++ [ECall package_command None status]) Hnd Hfiles)
    as (fs3 & Hremove & Hgone & Hkept).
  exists fs3. split; [|done].
  unfold package_xboxone. fold package_command.
  rewrite bind_unfold. unfold fs_do at 1. rewrite Hmkdir.
  rewrite bind_unfold. unfold fs_get at 1. cbn [fs log]. rewrite Hlist.
  rewrite bind_unfold, Hcopies.
  rewrite bind_unfold. unfold call at 1. rewrite Hcall, Hlog.
  rewrite bind_unfold, Hremove.
  destruct (decide (status = 0%Z)) as [->|Hne]; [done|].
  by rewrite bool_decide_eq_false_2.
Qed.

(** *** One command per configuration *)

Lemma package_ps4_turn (package_tool_path temporary_directory source destination
    game project title_id current_configuration : string) (w : world) :
  turn_outcome
    (ps4_package_command X package_tool_path temporary_directory source destination
       game project title_id current_configuration)
    (RuntimeError "Package failed") false w
    (package_ps4 X package_tool_path temporary_directory source destination
       game project title_id current_configuration w).
Proof.
  unfold package_ps4, call. rewrite bind_unfold.
  destruct (process_call _ None (fs w)) as [status fs'].
  destruct (decide (status = 0%Z)) as [->|Hne].
  - left. by split.
  - right; left. rewrite bool_decide_eq_false_2 by done. split; [done|]. by exists status.
Qed.

Lemma package_xboxone_turn (package_tool_path game_os source destination project
    product_id content_id : string) (is_final_submission : bool)
    (current_configuration : string) (w : world) :
  turn_outcome
    (xboxone_package_command X package_tool_path game_os source destination project
       product_id content_id is_final_submission current_configuration)
    (RuntimeError "Package failed") true w
    (package_xboxone X package_tool_path game_os source destination project
       product_id content_id is_final_submission current_configuration w).
Proof.
  unfold package_xboxone.
  set (command := xboxone_package_command X _ _ _ _ _ _ _ _ _).
  assert (Hearly : ∀ e w', log w' = log w → raises_os_error (Raise e : result unit) →
            turn_outcome command (RuntimeError "Package failed") true w (Raise e, w')).
  { intros e w' Hlog (kind & path & ->). right; right. split; [done|].
    exists kind, path. split; [done|]. by left. }
  rewrite bind_unfold. unfold fs_do at 1.
  pose proof (fs_mkdir_os (fs w)
                (sanitize_path (destination +:+ "/" +:+ current_configuration))) as Hmkdir.
  destruct (fs_mkdir (fs w) _) as [fs0|e]; [|by apply Hearly].
  rewrite bind_unfold. unfold fs_get at 1. cbn [fs log].
  pose proof (fs_listdir_os fs0
                (sanitize_path (source +:+ "/Manifests/" +:+ current_configuration)))
    as Hlist.
  destruct (fs_listdir fs0 _) as [manifest_file_collection|e]; [|by apply Hearly].
  rewrite bind_unfold.
  destruct (for_each_fs_do_os
              (λ manifest_file fs,
                 fs_copyfile fs (manifest_origin X source current_configuration manifest_file)
                   (manifest_copy X source manifest_file))
              manifest_file_collection (World fs0 (log w)))
    as [Hlog1 Hos1]; [intros; apply fs_copyfile_os|]. cbn beta in Hlog1, Hos1.
  destruct (for_each manifest_file_collection _ (World fs0 (log w))) as [[[]|e] w1];
    cbn [fst snd log] in Hlog1, Hos1; [|by apply Hearly].
  rewrite bind_unfold. unfold call at 1.
  destruct (process_call command None (fs w1)) as [status fs2].
  rewrite bind_unfold.
  destruct (for_each_fs_do_os
              (λ manifest_file fs, fs_remove fs (manifest_copy X source manifest_file))
              manifest_file_collection
              (World fs2 (log w1 ++ [ECall command None status])))
    as [Hlog3 Hos3]; [intros; apply fs_remove_os|]. cbn beta in Hlog3, Hos3.
  destruct (for_each manifest_file_collection _ (World fs2 _)) as [[[]|e] w3];
    cbn [fst snd log] in Hlog3, Hos3; rewrite Hlog1 in Hlog3.
  - destruct (decide (status = 0%Z)) as [->|Hne].
    + left. by split.
    + right; left. rewrite bool_decide_eq_false_2 by done. split; [done|].
      by exists status.
  - destruct Hos3 as (kind & path & ->). right; right. split; [done|].
    exists kind, path. split; [done|]. right. by exists status.
Qed.

(** After its prelude each console strategy is its loop over the names. *)
Lemma package_ps4_loop (env : Env) (project_directory project configuration source
    destination : string) (is_final_submission : bool) (w w0 : world)
    (sce title_id : string) :
  recreate_destination (sanitize_path destination) w = (Ok tt, w0) →
  environ "SCE_ROOT_DIR" = Some sce →
  get_ini_value X (project_directory +:+ "/Config/PS4/PS4Engine.ini") "TitleID" w0
    = (Ok title_id, w0) →
  _package_for_platform X env project_directory project "PS4" configuration
    source destination is_final_submission w
  = for_each (py_split "+" configuration)
      (package_ps4 X
         (sanitize_path (sce +:+ "/ORBIS/Tools/Publishing Tools/bin/orbis-pub-cmd.exe"))
         (sanitize_path (project_directory +:+ "/Saved/Temp"))
         (sanitize_path source) (sanitize_path destination) (game env) project title_id)
      w0.
Proof.
  intros Hrecreate Hsce Hini. unfold _package_for_platform.
  change (bool_decide ("PS4" ∈ ["Linux"; "Mac"; "Win32"; "Win64"])) with false.
  change (bool_decide ("PS4" = "XboxOne")) with false.
  change (bool_decide ("PS4" = "PS4")) with true. cbv iota.
  rewrite bind_unfold, Hrecreate. unfold getenv. rewrite Hsce.
  rewrite bind_unfold. unfold mret, M_ret, ret at 1.
  by rewrite bind_unfold, Hini.
Qed.

Lemma package_xboxone_loop (env : Env) (project_directory project configuration source
    destination : string) (is_final_submission : bool) (w w0 : world)
    (xdk product_id content_id : string) :
  recreate_destination (sanitize_path destination) w = (Ok tt, w0) →
  environ "DurangoXDK" = Some xdk →
  get_ini_value X (sanitize_path (project_directory +:+ "/Config/XboxOne/XboxOneEngine.ini"))
    "ProductId" w0 = (Ok product_id, w0) →
  get_ini_value X (sanitize_path (project_directory +:+ "/Config/XboxOne/XboxOneEngine.ini"))
    "ContentId" w0 = (Ok content_id, w0) →
  _package_for_platform X env project_directory project "XboxOne" configuration
    source destination is_final_submission w
  = for_each (py_split "+" configuration)
      (package_xboxone X (sanitize_path (xdk +:+ "/bin/MakePkg.exe"))
         (sanitize_path (sanitize_path source +:+ "/era.xvd"))
         (sanitize_path source) (sanitize_path destination) project
         product_id content_id is_final_submission)
      w0.
Proof.
  intros Hrecreate Hxdk Hproduct Hcontent. unfold _package_for_platform.
  change (bool_decide ("XboxOne" ∈ ["Linux"; "Mac"; "Win32"; "Win64"])) with false.
  change (bool_decide ("XboxOne" = "XboxOne")) with true. cbv iota.
  rewrite bind_unfold, Hrecreate. unfold getenv. rewrite Hxdk.
  rewrite bind_unfold. unfold mret, M_ret, ret at 1.
  rewrite bind_unfold, Hproduct. by rewrite bind_unfold, Hcontent.
Qed.

(** C6 (amended): once the destination is recreated and the SDK variable
    and the ini values are read, each console strategy is its loop over the
    names of the configuration split at [+], in their order.  On PS4 the
    publishing tool is run for one name after the other, each run with the
    command that carries the artifact of that name,
    [<game>-<name>-<title id>.pkg] in the destination; the step returns
    exactly when every name had its run and every run exited with zero, and
    the first other status raises, with that run the last.  On XboxOne a
    turn of the loop first makes the directory of its name with [os.mkdir],
    so that it raises [FileExistsError] when that directory is there, as it
    is for a name that comes twice; a turn whose file operations go through
    runs MakePkg once, with the command of the name and that directory as
    its package directory, and raises exactly on another status than zero;
    the runs are those of the names in order, every run but the last with
    status zero.  With the configuration Shipping, PS4 is one run, for
    [<game>-Shipping-<title id>.pkg]. *)
Theorem console_packaging_per_configuration (env : Env) (project_directory project
    configuration source destination : string) (is_final_submission : bool)
    (w w0 : world) :
  let names := py_split "+" configuration in
  let src := sanitize_path source in
  let dst := sanitize_path destination in
  let failure := RuntimeError "Package failed" in
  recreate_destination dst w = (Ok tt, w0) →
  (∀ sce title_id,
     environ "SCE_ROOT_DIR" = Some sce →
     get_ini_value X (project_directory +:+ "/Config/PS4/PS4Engine.ini") "TitleID" w0
       = (Ok title_id, w0) →
     let artifact name :=
       sanitize_path (dst +:+ "/" +:+ game env +:+ "-" +:+ name +:+ "-" +:+ title_id
                        +:+ ".pkg") in
     let command name :=
       [ sanitize_path (sce +:+ "/ORBIS/Tools/Publishing Tools/bin/orbis-pub-cmd.exe");
         "img_create"; "--no_progress_bar"; "--tmp_path";
         sanitize_path (project_directory +:+ "/Saved/Temp");
         sanitize_path (src +:+ "/" +:+ project +:+ "-" +:+ name +:+ ".gp4");
         artifact name ] in
     let packaged :=
       _package_for_platform X env project_directory project "PS4" configuration
         source destination is_final_submission w in
     (∃ statuses,
        log packaged.2
        = log w ++ zip_with (λ name status, ECall (command name) None status) names statuses
        ∧ ((packaged.1 = Ok tt ∧ statuses = replicate (length names) 0%Z)
           ∨ (packaged.1 = Raise failure
              ∧ ∃ k status,
                  k < length names ∧ status ≠ 0%Z
                  ∧ statuses = replicate k 0%Z ++ [status])))
     ∧ (configuration = "Shipping" →
        ∀ status fs',
          process_call (command "Shipping") None (fs w0) = (status, fs') →
          packaged
          = (if decide (status = 0%Z) then Ok tt else Raise failure,
             World fs' (log w ++ [ECall (command "Shipping") None status]))))
  ∧ (∀ xdk product_id content_id,
       environ "DurangoXDK" = Some xdk →
       get_ini_value X
         (sanitize_path (project_directory +:+ "/Config/XboxOne/XboxOneEngine.ini"))
         "ProductId" w0 = (Ok product_id, w0) →
       get_ini_value X
         (sanitize_path (project_directory +:+ "/Config/XboxOne/XboxOneEngine.ini"))
         "ContentId" w0 = (Ok content_id, w0) →
       let current_destination name := sanitize_path (dst +:+ "/" +:+ name) in
       let package_command name :=
         [ sanitize_path (xdk +:+ "/bin/MakePkg.exe"); "pack"; "/v";
           "/gameos"; sanitize_path (src +:+ "/era.xvd");
           "/f"; sanitize_path (src +:+ "/" +:+ project +:+ "-" +:+ name +:+ ".xml");
           "/d"; src; "/pd"; current_destination name;
           "/productid"; product_id; "/contentid"; content_id ] in
       let command name :=
         if is_final_submission then package_command name ++ [ "/l" ]
         else package_command name in
       let turn :=
         package_xboxone X (sanitize_path (xdk +:+ "/bin/MakePkg.exe"))
           (sanitize_path (src +:+ "/era.xvd")) src dst project product_id content_id
           is_final_submission in
       let packaged :=
         _package_for_platform X env project_directory project "XboxOne" configuration
           source destination is_final_submission w in
       packaged = for_each names turn w0
       ∧ (∃ statuses,
            log packaged.2
            = log w ++ zip_with (λ name status, ECall (command name) None status)
                         names statuses
            ∧ ((packaged.1 = Ok tt ∧ statuses = replicate (length names) 0%Z)
               ∨ (packaged.1 = Raise failure
                  ∧ ∃ k status,
                      k < length names ∧ status ≠ 0%Z
                      ∧ statuses = replicate k 0%Z ++ [status])
               ∨ (∃ kind path,
                    packaged.1 = Raise (OSError kind path)
                    ∧ ∃ k, k < length names
                           ∧ (statuses = replicate k 0%Z
                              ∨ ∃ status, statuses = replicate k 0%Z ++ [status]))))
       ∧ (∀ name w1,
            is_Some (fs w1 !! current_destination name) →
            turn name w1 = (Raise (OSError FileExistsError (current_destination name)), w1))
       ∧ (∀ name w1 fs0 manifest_file_collection w2 status fs2 w3,
            fs_mkdir (fs w1) (current_destination name) = Ok fs0 →
            fs_listdir fs0 (sanitize_path (src +:+ "/Manifests/" +:+ name))
              = Ok manifest_file_collection →
            for_each manifest_file_collection (λ manifest_file,
              fs_do (λ fs,
                fs_copyfile fs
                  (sanitize_path (src +:+ "/Manifests/" +:+ name +:+ "/" +:+ manifest_file))
                  (sanitize_path (src +:+ "/" +:+ manifest_file))))
              (World fs0 (log w1)) = (Ok tt, w2) →
            process_call (command name) None (fs w2) = (status, fs2) →
            for_each manifest_file_collection (λ manifest_file,
              fs_do (λ fs, fs_remove fs (sanitize_path (src +:+ "/" +:+ manifest_file))))
              (World fs2 (log w2 ++ [ECall (command name) None status])) = (Ok tt, w3) →
            turn name w1 = (if decide (status = 0%Z) then Ok tt else Raise failure, w3)
            ∧ log w3 = log w1 ++ [ECall (command name) None status])).
Proof.
  intros names src dst failure Hrecreate.
  pose proof (silent_run _ _ _ _ (recreate_destination_silent _) Hrecreate) as Hlog0.
  split.
  - intros sce title_id Hsce Hini artifact command packaged.
    assert (Hloop : packaged = for_each names
              (package_ps4 X
                 (sanitize_path (sce +:+ "/ORBIS/Tools/Publishing Tools/bin/orbis-pub-cmd.exe"))
                 (sanitize_path (project_directory +:+ "/Saved/Temp"))
                 src dst (game env) project title_id) w0).
    { by apply package_ps4_loop. }
    split.
    + destruct (for_each_loop_outcome command failure false
                  (package_ps4 X
                     (sanitize_path
                        (sce +:+ "/ORBIS/Tools/Publishing Tools/bin/orbis-pub-cmd.exe"))
                     (sanitize_path (project_directory +:+ "/Saved/Temp"))
                     src dst (game env) project title_id) names w0)
        as (statuses & Hlog & Hcases); [intros name w1; apply package_ps4_turn|].
      rewrite <- Hloop, Hlog0 in Hlog. exists statuses. split; [exact Hlog|].
      rewrite <- Hloop in Hcases.
      destruct Hcases as [H|[H|[H _]]]; [by left | by right | done].
    + intros Hconfiguration status fs' Hcall. rewrite Hloop. unfold names.
      rewrite Hconfiguration. change (py_split "+" "Shipping") with ["Shipping"].
      cbn [for_each]. unfold package_ps4.
      change (ps4_package_command X _ _ _ _ _ _ _ "Shipping") with (command "Shipping").
      rewrite !bind_unfold. unfold call. rewrite Hcall, Hlog0.
      destruct (decide (status = 0%Z)) as [->|Hne]; [done|].
      by rewrite bool_decide_eq_false_2.
  - intros xdk product_id content_id Hxdk Hproduct Hcontent current_destination
      package_command command turn packaged.
    assert (Hloop : packaged = for_each names turn w0).
    { by apply package_xboxone_loop. }
    split; [exact Hloop|]. split; [|split].
    + destruct (for_each_loop_outcome command failure true turn names w0)
        as (statuses & Hlog & Hcases); [intros name w1; apply package_xboxone_turn|].
      rewrite <- Hloop, Hlog0 in Hlog. exists statuses. split; [exact Hlog|].
      rewrite <- Hloop in Hcases.
      destruct Hcases as [H|[H|[_ H]]]; [by left | right; by left | right; by right].
    + intros name w1 [node Hnode]. unfold turn, package_xboxone.
      fold (current_destination name).
      rewrite bind_unfold. unfold fs_do at 1, fs_mkdir. by rewrite Hnode.
    + intros name w1 fs0 manifest_file_collection w2 status fs2 w3
        Hmkdir Hlist Hcopies Hcall Hremoves.
      assert (Hlog2 : log w2 = log w1).
      { destruct (for_each_fs_do_os
                    (λ manifest_file fs,
                       fs_copyfile fs
                         (sanitize_path (src +:+ "/Manifests/" +:+ name +:+ "/"
                                           +:+ manifest_file))
                         (sanitize_path (src +:+ "/" +:+ manifest_file)))
                    manifest_file_collection (World fs0 (log w1))) as [H _];
          [intros; apply fs_copyfile_os|].
        cbn beta in H. by rewrite Hcopies in H. }
      assert (Hlog3 : log w3 = log w2 ++ [ECall (command name) None status]).
      { destruct (for_each_fs_do_os
                    (λ manifest_file fs,
                       fs_remove fs (sanitize_path (src +:+ "/" +:+ manifest_file)))
                    manifest_file_collection
                    (World fs2 (log w2 ++ [ECall (command name) None status]))) as [H _];
          [intros; apply fs_remove_os|].
        cbn beta in H. by rewrite Hremoves in H. }
      split; [|by rewrite Hlog3, Hlog2].
      unfold turn, package_xboxone.
      fold (current_destination name).
      change (xboxone_package_command X _ _ _ _ _ _ _ _ name) with (command name).
      unfold manifest_origin, manifest_copy.
      rewrite bind_unfold. unfold fs_do at 1. rewrite Hmkdir.
      rewrite bind_unfold. unfold fs_get at 1. cbn [fs log]. rewrite Hlist.
      rewrite bind_unfold, Hcopies.
      rewrite bind_unfold. unfold call at 1. rewrite Hcall.
      rewrite bind_unfold, Hremoves.
      destruct (decide (status = 0%Z)) as [->|Hne]; [done|].
      unfold failure. by rewrite bool_decide_eq_false_2.
Qed.

(** ** More of what the code shows *)

(** X1: [get_ini_value] only reads: whatever the path and the key, and
    whether it returns or raises, files and log are as before; and a value it
    returns never holds a newline, since the group stops at the end of the
    line. *)
Theorem get_ini_value_reads_one_line (file_path key : string) (w : world) :
  (get_ini_value X file_path key w).2 = w
  ∧ ∀ value, (get_ini_value X file_path key w).1 = Ok value → no_newline value = true.
Proof.
  unfold get_ini_value. rewrite !bind_unfold. unfold fs_get, lift.
  destruct (fs_read (fs w) _) as [ini_content|e]; [|done].
  unfold re_search_group.
  destruct (re_compile _) as [p|]; [|done].
  destruct (re_scan fl_multiline p None ini_content) as [[pre [[g last] rest]]|] eqn:E;
    [|done].
  case_decide; [|done]. split; [done|]. intros value [= <-].
  exact (re_scan_no_newline fl_multiline p None ini_content pre g last rest eq_refl E).
Qed.

(** X2: without the transformation [_stage_file] is a copy: when it returns,
    the destination holds the content of the source, the source is still
    there, no other path has changed and no tool run is recorded.  When
    the source is not there it raises [FileNotFoundError]; when it is there
    and the destination is the same path it raises [SameFileError]; in both
    cases nothing is changed. *)
Theorem stage_file_copies_file (source destination : string)
    (platform configuration : option string) (w : world) :
  (∀ w', _stage_file X source destination false platform configuration w = (Ok tt, w') →
     ∃ content,
       sanitize_path source ≠ sanitize_path destination
       ∧ fs w !! sanitize_path source = Some (File content)
       ∧ fs w' !! sanitize_path destination = Some (File content)
       ∧ fs w' !! sanitize_path source = Some (File content)
       ∧ (∀ q, q ≠ sanitize_path destination → fs w' !! q = fs w !! q)
       ∧ log w' = log w)
  ∧ (fs w !! sanitize_path source = None →
     _stage_file X source destination false platform configuration w
     = (Raise (OSError FileNotFoundError (sanitize_path source)), w))
  ∧ (is_Some (fs w !! sanitize_path source) →
     sanitize_path source = sanitize_path destination →
     _stage_file X source destination false platform configuration w
     = (Raise (OSError SameFileError (sanitize_path source)), w)).
Proof.
  unfold _stage_file, fs_do. split; [|split].
  - intros w'. destruct (fs_copyfile (fs w) _ _) as [fs'|e] eqn:E; [|done].
    intros [= <-]. apply fs_copyfile_Ok in E as (content & Hne & Hsrc & ->).
    exists content. cbn [fs log]. split; [done|]. split; [done|].
    split; [apply lookup_insert_eq|].
    split; [by rewrite lookup_insert_ne|].
    split; [|done]. intros q Hq. by rewrite lookup_insert_ne.
  - intros Hnone. unfold fs_copyfile, fs_exists, fs_read. rewrite Hnone.
    rewrite bool_decide_eq_false_2 by (by intros [? ?]). done.
  - intros Hsome Heq. unfold fs_copyfile, fs_exists.
    rewrite bool_decide_eq_true_2 by done. by rewrite bool_decide_eq_true_2.
Qed.

(** X3: in either mode, and whether it returns or raises, [_stage_file]
    records no tool run and changes no path but its destination; when it
    raises, the destination is unchanged too. *)
Theorem stage_file_writes_destination_only (source destination : string)
    (apply_transform : bool) (platform configuration : option string) :
  writes_only (sanitize_path destination)
    (_stage_file X source destination apply_transform platform configuration).
Proof.
  assert (Hwrite : ∀ content,
    writes_only (sanitize_path destination)
      (fs_do (λ fs0, fs_write fs0 (sanitize_path destination) content))).
  { intros content. apply writes_only_fs_do.
    intros fs0 fs' ->%fs_write_Ok q Hq. by rewrite lookup_insert_ne. }
  unfold _stage_file. destruct apply_transform.
  - apply writes_only_bind; [apply reads_only_fs_get | intros file_content].
    apply writes_only_bind.
    { destruct configuration; destruct (negb _);
        first [apply reads_only_ret | apply reads_only_raise]. }
    intros value. apply writes_only_bind; [apply reads_only_lift | intros formatted].
    apply writes_only_bind; [|intros out; apply Hwrite].
    destruct (bool_decide _); [apply reads_only_lift | apply reads_only_ret].
  - apply writes_only_fs_do.
    intros fs0 fs' (content & Hne & Hsrc & ->)%fs_copyfile_Ok q Hq.
    by rewrite lookup_insert_ne.
Qed.

(** X4: for the release tier the staged text is never longer than the
    formatted source, and it is the formatted source itself when that holds
    no opening marker followed by a closing marker. *)
Theorem stage_file_release_tier_bounded (source destination : string)
    (platform : option string) (text formatted : string) (w : world) :
  fs w !! sanitize_path source = Some (File text) →
  str_format py_render text
    [("configuration", if bool_decide (platform = Some "PS4") then py_lower "Shipping"
                       else "Shipping")] = Ok formatted →
  ∃ file_content,
    _stage_file X source destination true platform (Some "Shipping") w
    = fs_do (λ fs, fs_write fs (sanitize_path destination) file_content) w
    ∧ String.length file_content ≤ String.length formatted
    ∧ (¬ has_span formatted → file_content = formatted).
Proof.
  intros Hsrc Hfmt. rewrite (_stage_file_transform _ _ _ _ _ _ Hsrc), Hfmt.
  rewrite bool_decide_eq_true_2 by done.
  destruct (re_sub_debug formatted) as (out & -> & Hout).
  exists out. split; [done|]. split; [by apply Stripped_length|].
  intros Hspan. by apply Stripped_no_span.
Qed.

(** X5: with the transformation on, doubled braces of the source are
    written as single braces: for a source made of brace-free text, tokens,
    [{{] and [}}], the text handed on to the release-tier stripping and to
    the destination has every token replaced by the configuration value and
    every doubled brace by one brace. *)
Theorem stage_file_doubled_braces (source destination platform configuration : string)
    (pieces : list piece) (w : world) :
  forallb piece_ok pieces = true →
  fs w !! sanitize_path source = Some (File (str_concat (piece_source <$> pieces))) →
  let value := if decide (platform = "PS4") then py_lower configuration else configuration in
  let staged := str_concat (piece_staged value <$> pieces) in
  _stage_file X source destination true (Some platform) (Some configuration) w =
    match (if bool_decide (configuration = "Shipping")
           then re_sub_empty debug_pattern staged fl_dotall else Ok staged) with
    | Raise e => (Raise e, w)
    | Ok file_content =>
        fs_do (λ fs, fs_write fs (sanitize_path destination) file_content) w
    end.
Proof.
  intros Hpieces Hsrc value staged. rewrite (_stage_file_transform _ _ _ _ _ _ Hsrc).
  assert (Hv : (if bool_decide (Some platform = Some "PS4")
                then py_lower configuration else configuration) = value).
  { unfold value. destruct (decide (platform = "PS4")) as [->|Hne].
    - by rewrite bool_decide_eq_true_2.
    - rewrite bool_decide_eq_false_2; [done | by intros [= ->]]. }
  by rewrite Hv, (str_format_pieces _ _ _ Hpieces).
Qed.

(** X6: splitting a configuration at [+] loses nothing: the names joined
    with [+] give the configuration back, no name holds a [+], and there is
    one name more than there are [+] in the configuration, so never none. *)
Theorem configuration_split_round_trip (configuration : string) :
  String.concat "+" (py_split "+" configuration) = configuration
  ∧ Forall (λ name, str_count "+" name = 0) (py_split "+" configuration)
  ∧ length (py_split "+" configuration) = S (str_count "+" configuration).
Proof.
  split; [apply py_split_join|]. split; [apply py_split_pieces | apply py_split_length].
Qed.

(** X7: the console strategies look up their SDK only after the
    destination is recreated: when the environment variable is not set, the
    step raises [KeyError] with the destination already emptied, and no tool
    is run. *)
Theorem package_console_missing_sdk (env : Env) (project_directory project platform
    configuration source destination : string) (is_final_submission : bool) (w : world) :
  let d := sanitize_path destination in
  fs w !! d = Some Dir →
  fs_parent_check (fs w) d = Ok tt →
  (platform = "XboxOne" ∧ environ "DurangoXDK" = None)
  ∨ (platform = "PS4" ∧ environ "SCE_ROOT_DIR" = None) →
  _package_for_platform X env project_directory project platform configuration
    source destination is_final_submission w
  = (Raise (KeyError (if decide (platform = "PS4") then "SCE_ROOT_DIR" else "DurangoXDK")),
     World (<[d := Dir]> (fs_rmtree (fs w) d)) (log w)).
Proof.
  intros d Hd Hparent Hsdk. unfold _package_for_platform. fold d.
  rewrite bind_unfold, (recreate_destination_ok d w (or_introl Hd) Hparent).
  destruct Hsdk as [[-> Henv]|[-> Henv]].
  - change (bool_decide ("XboxOne" ∈ ["Linux"; "Mac"; "Win32"; "Win64"])) with false.
    change (bool_decide ("XboxOne" = "XboxOne")) with true. cbv iota.
    unfold getenv. by rewrite Henv.
  - change (bool_decide ("PS4" ∈ ["Linux"; "Mac"; "Win32"; "Win64"])) with false.
    change (bool_decide ("PS4" = "XboxOne")) with false.
    change (bool_decide ("PS4" = "PS4")) with true. cbv iota.
    unfold getenv. by rewrite Henv.
Qed.

(** X8: for the four desktop platforms the package step is one bulk copy
    and no tool run: the rule copies from the staged directory, named
    relative to the root directory, into the recreated destination, and the
    step raises exactly when the copy reports a failure. *)
Theorem package_desktop_bulk_copy (env : Env) (project_directory project platform
    configuration source destination : string) (is_final_submission : bool)
    (w w0 : world) (separator : ascii) (relative : string) (ok : bool)
    (fs' : gmap string node) :
  platform ∈ [ "Linux"; "Mac"; "Win32"; "Win64" ] →
  sanitize_path source = root_dir env +:+ String separator relative →
  recreate_destination (sanitize_path destination) w = (Ok tt, w0) →
  map_files_copy env relative (sanitize_path destination) (fs w0) = (ok, fs') →
  _package_for_platform X env project_directory project platform configuration
    source destination is_final_submission w
  = (if ok then Ok tt else Raise (RuntimeError "Package failed"),
     World fs' (log w ++ [ERobocopy relative (sanitize_path destination) ok])).
Proof.
  intros Hplatform Hsource Hrecreate Hcopy.
  pose proof (silent_run _ _ _ _ (recreate_destination_silent _) Hrecreate) as Hlog.
  unfold _package_for_platform.
  rewrite bind_unfold, Hrecreate, (bool_decide_eq_true_2 _ Hplatform).
  rewrite Hsource, str_drop_app. rewrite bind_unfold. unfold robocopy_all.
  rewrite Hcopy, Hlog. by destruct ok.
Qed.

(** X9: when the staging tool exits with a non-zero status, the stage step
    raises at once: the tool is the only thing run, and the files are as the
    tool left them, whatever the platform, the layout and the patch. *)
Theorem stage_tool_failure_aborts (engine_directory project_directory stage_directory
    project platform configuration : string) (layout_file_path : option string)
    (compress : bool) (patch : option string) (w : world) :
  ∃ stage_command,
    take 2 stage_command
      = [ sanitize_path (engine_directory +:+ "/Binaries/DotNET/AutomationTool.exe");
          "BuildCookRun" ]
    ∧ ("-Compressed" ∈ drop 1 stage_command ↔ compress = true)
    ∧ ("-GeneratePatch" ∈ drop 1 stage_command ↔ truthy patch = true)
    ∧ ∀ status fs',
        process_call stage_command None (fs w) = (status, fs') →
        status ≠ 0%Z →
        _stage X engine_directory project_directory stage_directory project platform
          configuration layout_file_path compress patch w
        = (Raise (RuntimeError "Stage failed"),
           World fs' (log w ++ [ECall stage_command None status])).
Proof.
  unfold _stage. eexists. split; [|split; [|split]].
  4:{ intros status fs' Hcall Hstatus. rewrite bind_unfold. unfold call at 1.
      rewrite Hcall. rewrite bind_unfold.
      by rewrite bool_decide_eq_false_2. }
  - by destruct compress, (truthy patch).
  - destruct compress, (truthy patch); cbn [drop app]; split; try done;
      try (intros _; set_unfold; tauto);
      intros H; exfalso; set_unfold; simpl in H; intuition discriminate.
  - destruct compress, (truthy patch); cbn [drop app]; split; try done;
      try (intros _; set_unfold; tauto);
      intros H; exfalso; set_unfold; simpl in H; intuition discriminate.
Qed.

(** X10: when no target is set, or the target is the empty text, the
    initialize step copies nothing: it runs the pre-ship hook and raises
    exactly when the hook reports a failure. *)
Theorem initialize_without_target (env : Env) (w : world) (ok : bool)
    (fs' : gmap string node) :
  target env = None ∨ target env = Some "" →
  execute_hook "preship" env (fs w) = (ok, fs') →
  _initialize X env w
  = (if ok then Ok tt else Raise (RuntimeError "Initialize failed"),
     World fs' (log w ++ [EHook "preship" ok])).
Proof.
  intros Htarget Hhook. unfold _initialize.
  assert (Ht : truthy (target env) = false) by (by destruct Htarget as [-> | ->]).
  rewrite Ht. cbn [when]. rewrite bind_unfold. unfold mret, M_ret, ret at 1.
  rewrite bind_unfold. unfold hook. rewrite Hhook. by destruct ok.
Qed.

(** X15: the manifest fix-ups start by removing the two generated files of
    the stage directory: when the generated manifest is missing they raise
    and change nothing; when only the application data is missing they
    raise with the generated manifest already removed.  No directory is
    made and no tool is run in either case. *)
Theorem stage_xbox_manifest_missing_generated_file (project_directory stage_directory
    configuration : string) (w : world) :
  let manifest := sanitize_path (stage_directory +:+ "/AppxManifest.xml") in
  let appdata := sanitize_path (stage_directory +:+ "/appdata.bin") in
  (fs w !! manifest = None →
   _stage_xbox_manifest X project_directory stage_directory configuration w
   = (Raise (OSError FileNotFoundError manifest), w))
  ∧ (∀ content,
       fs w !! manifest = Some (File content) →
       delete manifest (fs w) !! appdata = None →
       _stage_xbox_manifest X project_directory stage_directory configuration w
       = (Raise (OSError FileNotFoundError appdata),
          World (delete manifest (fs w)) (log w))).
Proof.
  intros manifest appdata. unfold _stage_xbox_manifest. fold manifest appdata. split.
  - intros Hnone. rewrite bind_unfold. unfold fs_do at 1, fs_remove. by rewrite Hnone.
  - intros content Hfile Hnone. rewrite bind_unfold. unfold fs_do at 1, fs_remove at 1.
    rewrite Hfile. rewrite bind_unfold. unfold fs_do at 1, fs_remove. cbn [fs log].
    by rewrite Hnone.
Qed.

(** X16: on PS4, with no layout and no patch, a stage whose tool succeeds
    renames the binary of the project: the path below the stage directory
    is lower-cased, a staged [.self] file is found again under the name
    ending in [-ps4-development.self], and nothing else changes; when there
    is no such file the stage step changes nothing after the tool. *)
Theorem stage_ps4_renames_binary (engine_directory project_directory stage_directory
    project configuration : string) (layout_file_path : option string) (compress : bool)
    (patch : option string) (w : world) (fs' : gmap string node) :
  let binary_path :=
    sanitize_path (stage_directory +:+ "/"
                     +:+ py_lower (project +:+ "/Binaries/PS4/" +:+ project)) in
  let staged :=
    _stage X engine_directory project_directory stage_directory project "PS4"
      configuration layout_file_path compress patch w in
  (∀ command, process_call command None (fs w) = (0%Z, fs')) →
  truthy layout_file_path = false →
  truthy patch = false →
  (fs' !! (binary_path +:+ ".self") = None → staged.1 = Ok tt ∧ fs staged.2 = fs')
  ∧ (∀ content,
       fs' !! (binary_path +:+ ".self") = Some (File content) →
       fs' !! (binary_path +:+ "-ps4-development.self") ≠ Some Dir →
       fs_parent_check fs' (binary_path +:+ "-ps4-development.self") = Ok tt →
       staged.1 = Ok tt
       ∧ fs staged.2 !! (binary_path +:+ ".self") = None
       ∧ fs staged.2 !! (binary_path +:+ "-ps4-development.self") = Some (File content)
       ∧ ∀ q, q ≠ binary_path +:+ ".self" →
              q ≠ binary_path +:+ "-ps4-development.self" →
              fs staged.2 !! q = fs' !! q).
Proof.
  intros binary_path staged Htool Hlayout Hpatch.
  assert (Hne : binary_path +:+ ".self" ≠ binary_path +:+ "-ps4-development.self").
  { intros Heq. by apply (inj (String.app binary_path)) in Heq. }
  assert (Hstaged : staged =
    (exists_ ← fs_get (λ fs, Ok (fs_exists fs (binary_path +:+ ".self")));
     when exists_
       (fs_do (λ fs, fs_move fs (binary_path +:+ ".self")
                       (binary_path +:+ "-ps4-development.self"))))
      (World fs' (log w ++ [ECall
         (let stage_command :=
            [ sanitize_path (engine_directory +:+ "/Binaries/DotNET/AutomationTool.exe");
              "BuildCookRun"; "-UE4exe=UE4Editor-Cmd.exe"; "-UTF8Output";
              "-Project=" +:+ project; "-TargetPlatform=" +:+ "PS4";
              "-ClientConfig=" +:+ configuration;
              "-SkipCook"; "-Stage"; "-Pak"; "-Prereqs"; "-CrashReporter"; "-NoDebugInfo" ] in
          if compress then stage_command ++ [ "-Compressed" ] else stage_command)
         None 0%Z]))).
  { unfold staged, _stage. rewrite Hpatch, Hlayout. rewrite bind_unfold. unfold call at 1.
    rewrite Htool. cbn [when negb]. rewrite !bind_unfold.
    change (bool_decide (0%Z = 0%Z)) with true.
    change (bool_decide ("PS4" = "XboxOne")) with false.
    change (bool_decide ("PS4" = "PS4")) with true.
    cbn [when negb]. fold binary_path.
    set (rename := fs_get _ ≫= _). set (w0 := World fs' _).
    transitivity (match rename w0 with
                  | (Ok _, w1) => (Ok tt, w1)
                  | (Raise e, w1) => (Raise e, w1)
                  end); [reflexivity|].
    transitivity (rename w0); [|reflexivity].
    by destruct (rename w0) as [[[]|e] w1]. }
  rewrite Hstaged. rewrite !bind_unfold. unfold fs_get, fs_exists. cbn [fs log]. split.
  - intros Hnone. rewrite Hnone. rewrite bool_decide_eq_false_2 by (by intros [? ?]).
    done.
  - intros content Hfile Hdst Hparent. rewrite Hfile.
    rewrite bool_decide_eq_true_2 by done. cbn [when]. unfold fs_do, fs_move. cbn [fs log].
    rewrite Hfile, Hparent. cbn [result_bind].
    assert (Hmoved : match fs' !! (binary_path +:+ "-ps4-development.self") with
                     | Some (File _) | None =>
                         Ok (<[binary_path +:+ "-ps4-development.self" := File content]>
                               (delete (binary_path +:+ ".self") fs'))
                     | Some Dir => Raise (Unmodelled "shutil.move")
                     end
                     = Ok (<[binary_path +:+ "-ps4-development.self" := File content]>
                             (delete (binary_path +:+ ".self") fs'))).
    { by destruct (fs' !! (binary_path +:+ "-ps4-development.self")) as [[|]|]. }
    rewrite Hmoved. cbn [fst snd fs]. split; [done|]. split; [|split].
    + rewrite lookup_insert_ne by done. apply lookup_delete_eq.
    + apply lookup_insert_eq.
    + intros q Hq1 Hq2. rewrite lookup_insert_ne by done. by rewrite lookup_delete_ne.
Qed.

(** X17: the cook step runs one tool, with a heartbeat of sixty seconds,
    and nothing else: the command asks for the iterative cook exactly when
    [iterate] is set, the files are as the tool leaves them, and the step
    raises exactly when the exit status is not zero. *)
Theorem cook_runs_one_tool (engine_directory project platform : string) (iterate : bool)
    (w : world) :
  ∃ cook_command,
    take 4 cook_command
      = [ sanitize_path (engine_directory +:+ "/Binaries/Win64/UE4Editor-Cmd.exe");
          project; "-Run=Cook"; "-TargetPlatform=" +:+ platform ]
    ∧ drop 8 cook_command = (if iterate then [ "-Iterate"; "-IterateHash" ] else [])
    ∧ ∀ status fs',
        process_call cook_command (Some 60) (fs w) = (status, fs') →
        _cook X engine_directory project platform iterate w
        = (if bool_decide (status = 0%Z) then Ok tt else Raise (RuntimeError "Cook failed"),
           World fs' (log w ++ [ECall cook_command (Some 60) status])).
Proof.
  unfold _cook. eexists. split; [|split].
  3:{ intros status fs' Hcall. rewrite bind_unfold. unfold call. rewrite Hcall.
      by destruct (bool_decide (status = 0%Z)). }
  - by destruct iterate.
  - by destruct iterate.
Qed.

(** X18: the XboxOne strategy makes the directory of a configuration with
    [os.mkdir]: when something is already at that path it raises
    [FileExistsError] before anything is copied and before the tool is run,
    as happens for a configuration named twice. *)
Theorem package_xboxone_existing_destination (package_tool_path game_os source destination
    project product_id content_id : string) (is_final_submission : bool)
    (current_configuration : string) (w : world) :
  let current_destination := sanitize_path (destination +:+ "/" +:+ current_configuration) in
  is_Some (fs w !! current_destination) →
  package_xboxone X package_tool_path game_os source destination project product_id
    content_id is_final_submission current_configuration w
  = (Raise (OSError FileExistsError current_destination), w).
Proof.
  intros current_destination [node Hnode]. unfold package_xboxone. fold current_destination.
  rewrite bind_unfold. unfold fs_do at 1, fs_mkdir. by rewrite Hnode.
Qed.
End PackageProperties.

Lemma get_ini_value_first_line_witness :
  get_ini_value (demo_externals (λ _, 0%Z) true)
    "/r/Game/Config/XboxOne/XboxOneEngine.ini" "ContentId" demo_world
  = (Ok "C-1", demo_world).
Proof.
  rewrite (get_ini_value_first_line (demo_externals (λ _, 0%Z) true)
             "/r/Game/Config/XboxOne/XboxOneEngine.ini" "ContentId" demo_world);
    [|vm_compute; reflexivity].
  vm_compute. reflexivity.
Defined.

(** C2 as stated fails for a key with a pattern character: the key is
    spliced into the pattern unescaped, so [A.B] finds the line [AxB=1],
    which does not start with [A.B=]. *)
Lemma get_ini_value_pattern_key :
  let w := World {[ "/e.ini" := File "AxB=1" ]} [] in
  get_ini_value (demo_externals (λ _, 0%Z) true) "/e.ini" "A.B" w = (Ok "1", w)
  ∧ ini_lookup "A.B" (py_lines "AxB=1") = None.
Proof. vm_compute. split; reflexivity. Qed.

Lemma stage_file_configuration_token_witness :
  _stage_file (demo_externals (λ _, 0%Z) true)
    "/r/Game/Config/XboxOne/AppxManifest.xml" "/r/Game/Saved/AppxManifest.xml"
    true (Some "PS4") (Some "Debug") demo_world
  = fs_do (λ fs, fs_write fs "/r/Game/Saved/AppxManifest.xml"
       "<App Name='debug'><!-- #if Debug --><Dbg/><!-- #endif Debug --></App>") demo_world.
Proof.
  apply (stage_file_configuration_token (demo_externals (λ _, 0%Z) true)
           "/r/Game/Config/XboxOne/AppxManifest.xml" "/r/Game/Saved/AppxManifest.xml"
           "PS4" "Debug"
           [Text "<App Name='"; Token;
            Text "'><!-- #if Debug --><Dbg/><!-- #endif Debug --></App>"]
           demo_world);
    vm_compute; reflexivity.
Defined.

(** C5 as stated fails: on XboxOne the configuration name is substituted as
    it is, and it is on PS4 that it is lower-cased. *)
Lemma stage_file_lowercase_platform :
  let X := demo_externals (λ _, 0%Z) true in
  let w := World {[ "/in.xml" := File "<{configuration}>" ]} [] in
  fs (_stage_file X "/in.xml" "/out.xml" true (Some "XboxOne") (Some "Debug") w).2
    !! "/out.xml" = Some (File "<Debug>")
  ∧ fs (_stage_file X "/in.xml" "/out.xml" true (Some "PS4") (Some "Debug") w).2
      !! "/out.xml" = Some (File "<debug>").
Proof. vm_compute. split; reflexivity. Qed.

Lemma stage_file_format_precondition_witness :
  let X := demo_externals (λ _, 0%Z) true in
  let w := World {[ "/in.xml" := File "<{game}>" ]} [] in
  (∀ w', _stage_file X "/in.xml" "/out.xml" true (Some "XboxOne") (Some "Debug") w
         = (Ok tt, w') →
         forallb fmt_item_ok (fmt_markup MText "<{game}>") = true)
  ∧ (forallb fmt_item_ok (fmt_markup MText "<{game}>") = false →
     ∃ e, _stage_file X "/in.xml" "/out.xml" true (Some "XboxOne") (Some "Debug") w
          = (Raise e, w)).
Proof.
  intros X w.
  apply (stage_file_format_precondition X "/in.xml" "/out.xml" (Some "XboxOne")
           "Debug" "<{game}>" w).
  vm_compute. reflexivity.
Defined.

(** C10 as stated fails: a field that is not exactly [{configuration}] can
    still be accepted, here one with the conversion [!s]. *)
Lemma stage_file_accepts_conversion :
  let X := demo_externals (λ _, 0%Z) true in
  let w := World {[ "/in.xml" := File "<{configuration!s}>" ]} [] in
  (_stage_file X "/in.xml" "/out.xml" true (Some "XboxOne") (Some "Debug") w).1 = Ok tt
  ∧ fs (_stage_file X "/in.xml" "/out.xml" true (Some "XboxOne") (Some "Debug") w).2
      !! "/out.xml" = Some (File "<Debug>").
Proof. vm_compute. split; reflexivity. Qed.

Lemma stage_file_strips_debug_spans_witness :
  ∃ file_content,
    _stage_file (demo_externals (λ _, 0%Z) true)
      "/r/Game/Config/XboxOne/AppxManifest.xml" "/r/Game/Saved/AppxManifest.xml"
      true (Some "XboxOne") (Some "Shipping") demo_world
    = fs_do (λ fs, fs_write fs "/r/Game/Saved/AppxManifest.xml" file_content) demo_world
    ∧ ("Shipping" = "Shipping" →
       Stripped "<App Name='Shipping'><!-- #if Debug --><Dbg/><!-- #endif Debug --></App>"
         file_content)
    ∧ ("Shipping" ≠ "Shipping" →
       file_content
       = "<App Name='Shipping'><!-- #if Debug --><Dbg/><!-- #endif Debug --></App>").
Proof.
  apply (stage_file_strips_debug_spans (demo_externals (λ _, 0%Z) true)
           "/r/Game/Config/XboxOne/AppxManifest.xml" "/r/Game/Saved/AppxManifest.xml"
           (Some "XboxOne") "Shipping"
           "<App Name='{configuration}'><!-- #if Debug --><Dbg/><!-- #endif Debug --></App>"
           "<App Name='Shipping'><!-- #if Debug --><Dbg/><!-- #endif Debug --></App>"
           demo_world);
    vm_compute; reflexivity.
Defined.

(** The release tier on the project tree: the span and its markers are gone. *)
Example stage_file_shipping_manifest :
  fs (_stage_file (demo_externals (λ _, 0%Z) true)
        "/r/Game/Config/XboxOne/AppxManifest.xml" "/r/Game/Saved/AppxManifest.xml"
        true (Some "XboxOne") (Some "Shipping") demo_world).2
    !! "/r/Game/Saved/AppxManifest.xml"
  = Some (File "<App Name='Shipping'></App>").
Proof. vm_compute. reflexivity. Qed.

Lemma run_selected_steps_in_order_witness :
  let X := demo_externals (λ _, 0%Z) false in
  let ran := run X (demo_env "Win64" "Shipping" ["initialize"; "cook"]) demo_world in
  ran.1 = Raise (RuntimeError "Initialize failed")
  ∧ ran.2 = World demo_fs [ERobocopy "{game}/Config.{target}" "{root_dir}/{game}/Config"
                             false].
Proof.
  intros X ran.
  destruct (run_selected_steps_in_order X
              (demo_env "Win64" "Shipping" ["initialize"; "cook"]) demo_world)
    as (entered & _ & _ & _ & _ & H).
  destruct H as (Hraise & _ & Hworld); [repeat constructor | reflexivity | reflexivity |].
  split; [exact Hraise | exact Hworld].
Defined.

(** A whole run over stage and package, on PS4, with the steps named in the
    other order: the staging tool is run first, then the publishing tool. *)
Example run_stage_package_ps4 :
  head <$> commands (log (run (demo_externals (λ _, 0%Z) true)
                            (demo_env "PS4" "Shipping" ["package"; "stage"]) demo_world).2)
  = [ Some "/r/Engine/Binaries/DotNET/AutomationTool.exe";
      Some "/sce/ORBIS/Tools/Publishing Tools/bin/orbis-pub-cmd.exe" ].
Proof. vm_compute. reflexivity. Qed.

Lemma stage_xbox_chunks_hold_one_nul_witness :
  let X := demo_externals (λ _, 0%Z) true in
  let sd := "/r/Game/Saved/StagedBuilds/XboxOne" in
  let w' := ((_stage_xbox_manifest X "/r/Game" sd "Debug+Shipping";;
              _stage_xbox_chunks X sd) demo_world).2 in
  fs w' !! (sd +:+ "/LaunchChunk.bin") = Some (File (String "000" ""))
  ∧ fs w' !! (sd +:+ "/AlignmentChunk.bin") = Some (File (String "000" ""))
  ∧ String.length (String "000" "") = 1.
Proof.
  intros X sd w'.
  apply (stage_xbox_chunks_hold_one_nul X "/r/Game" sd "Debug+Shipping" demo_world w').
  vm_compute. reflexivity.
Defined.

(** C9 as stated fails: after the stage step for XboxOne the placeholder
    files are one byte long. *)
Lemma stage_xbox_chunks_not_empty :
  let X := demo_externals (λ _, 0%Z) true in
  let staged :=
    _stage X "/r/Engine" "/r/Game" "/r/Game/Saved/StagedBuilds/XboxOne" "Game" "XboxOne"
      "Debug+Shipping" None false None demo_world in
  staged.1 = Ok tt
  ∧ ∃ content,
      fs staged.2 !! "/r/Game/Saved/StagedBuilds/XboxOne/LaunchChunk.bin"
        = Some (File content)
      ∧ String.length content = 1.
Proof. vm_compute. split; [reflexivity|]. eexists. split; reflexivity. Qed.

Lemma package_xboxone_removes_manifest_copies_witness :
  let X := demo_externals (λ _, 1%Z) true in
  ∃ fs3 lg,
    package_xboxone X "MakePkg" "/s/era.xvd" "/s" "/d" "Game" "P-1" "C-1" false "Debug"
      demo_packaging
    = (Raise (RuntimeError "Package failed"), World fs3 lg)
    ∧ fs3 !! "/s/m.xml" = None.
Proof.
  intros X.
  destruct (package_xboxone_removes_manifest_copies X "MakePkg" "/s/era.xvd" "/s" "/d"
              "Game" "P-1" "C-1" false "Debug" demo_packaging
              (World (<["/s/m.xml" := File "manifest"]>
                        (<["/d/Debug" := Dir]> (fs demo_packaging))) [])
              (<["/d/Debug" := Dir]> (fs demo_packaging))
              (<["/s/m.xml" := File "manifest"]>
                 (<["/d/Debug" := Dir]> (fs demo_packaging)))
              ["m.xml"] 1%Z)
    as (fs3 & Hrun & Hgone & _).
  - vm_compute. reflexivity.
  - vm_compute. reflexivity.
  - vm_compute. reflexivity.
  - vm_compute. reflexivity.
  - apply NoDup_singleton.
  - intros manifest_file ->%list_elem_of_singleton. exists "manifest".
    vm_compute. reflexivity.
  - exists fs3. eexists. split; [exact Hrun|]. apply Hgone. by left.
Defined.

Lemma console_packaging_per_configuration_witness :
  let X := demo_externals (λ _, 0%Z) true in
  let command :=
    ["/xdk/bin/MakePkg.exe"; "pack"; "/v"; "/gameos"; "/s/era.xvd";
     "/f"; "/s/Game-Debug.xml"; "/d"; "/s"; "/pd"; "/d/Debug";
     "/productid"; "P-1"; "/contentid"; "C-1"] in
  _package_for_platform X (demo_env "PS4" "Shipping" ["package"]) "/p" "Game" "PS4"
    "Shipping" "/s" "/d" false demo_ps4
  = (Ok tt,
     World (<["/d" := Dir]> (fs demo_ps4))
       [ECall ["/sce/ORBIS/Tools/Publishing Tools/bin/orbis-pub-cmd.exe"; "img_create";
               "--no_progress_bar"; "--tmp_path"; "/p/Saved/Temp";
               "/s/Game-Shipping.gp4"; "/d/Game-Shipping-CUSA00001.pkg"] None 0%Z])
  ∧ package_xboxone X "/xdk/bin/MakePkg.exe" "/s/era.xvd" "/s" "/d" "Game" "P-1" "C-1"
      false "Debug" demo_xboxone
    = (Ok tt,
       World (delete "/s/m.xml"
                (<["/s/m.xml" := File "manifest"]>
                   (<["/d/Debug" := Dir]> (fs demo_xboxone))))
         [ECall command None 0%Z]).
Proof.
  intros X command. split.
  - destruct (console_packaging_per_configuration X (demo_env "PS4" "Shipping" ["package"])
                "/p" "Game" "Shipping" "/s" "/d" false demo_ps4
                (World (<["/d" := Dir]> (fs demo_ps4)) []))
      as [Hps4 _].
    + vm_compute. reflexivity.
    + destruct (Hps4 "/sce" "CUSA00001") as [_ Hshipping].
      * reflexivity.
      * vm_compute. reflexivity.
      * exact (Hshipping eq_refl 0%Z (<["/d" := Dir]> (fs demo_ps4)) eq_refl).
  - destruct (console_packaging_per_configuration X
                (demo_env "XboxOne" "Debug" ["package"])
                "/p" "Game" "Debug" "/s" "/d" false demo_xboxone
                (World (<["/d" := Dir]> (fs_rmtree (fs demo_xboxone) "/d")) []))
      as [_ Hxboxone].
    + vm_compute. reflexivity.
    + destruct (Hxboxone "/xdk" "P-1" "C-1") as (_ & _ & _ & Hturn).
      * reflexivity.
      * vm_compute. reflexivity.
      * vm_compute. reflexivity.
      * destruct (Hturn "Debug" demo_xboxone
                    (<["/d/Debug" := Dir]> (fs demo_xboxone)) ["m.xml"]
                    (World (<["/s/m.xml" := File "manifest"]>
                              (<["/d/Debug" := Dir]> (fs demo_xboxone))) [])
                    0%Z
                    (<["/s/m.xml" := File "manifest"]>
                       (<["/d/Debug" := Dir]> (fs demo_xboxone)))
                    (World (delete "/s/m.xml"
                              (<["/s/m.xml" := File "manifest"]>
                                 (<["/d/Debug" := Dir]> (fs demo_xboxone))))
                       [ECall command None 0%Z])) as [Hrun _].
        -- vm_compute. reflexivity.
        -- vm_compute. reflexivity.
        -- vm_compute. reflexivity.
        -- reflexivity.
        -- vm_compute. reflexivity.
        -- exact Hrun.
Defined.

(** C6 as stated fails for a name that comes twice: on XboxOne, with every
    tool succeeding, the second turn for Debug finds the directory that the
    first turn made, and raises; there was one run of the tool, not two. *)
Lemma package_xboxone_repeated_configuration :
  let X := demo_externals (λ _, 0%Z) true in
  let packaged :=
    _package_for_platform X (demo_env "XboxOne" "Debug+Debug" ["package"]) "/p" "Game"
      "XboxOne" "Debug+Debug" "/s" "/d" false demo_xboxone in
  py_split "+" "Debug+Debug" = ["Debug"; "Debug"]
  ∧ packaged.1 = Raise (OSError FileExistsError "/d/Debug")
  ∧ commands (log packaged.2)
    = [["/xdk/bin/MakePkg.exe"; "pack"; "/v"; "/gameos"; "/s/era.xvd";
        "/f"; "/s/Game-Debug.xml"; "/d"; "/s"; "/pd"; "/d/Debug";
        "/productid"; "P-1"; "/contentid"; "C-1"]].
Proof. vm_compute. repeat split; reflexivity. Qed.

(** Two names, the second failing: both tools are run, in order, and the
    step raises. *)
Example package_ps4_two_configurations :
  let X := demo_externals
             (λ command, if decide (last command = Some "/d/Game-Shipping-CUSA00001.pkg")
                         then 1%Z else 0%Z) true in
  let packaged :=
    _package_for_platform X (demo_env "PS4" "Debug+Shipping" ["package"]) "/p" "Game" "PS4"
      "Debug+Shipping" "/s" "/d" false demo_ps4 in
  packaged.1 = Raise (RuntimeError "Package failed")
  ∧ last <$> commands (log packaged.2)
    = [Some "/d/Game-Debug-CUSA00001.pkg"; Some "/d/Game-Shipping-CUSA00001.pkg"].
Proof. vm_compute. split; reflexivity. Qed.

Lemma package_destination_recreated_witness :
  let X := demo_externals (λ _, 0%Z) true in
  let w := World (<["/d/old.pkg" := File "stale"]> (fs demo_packaging)) [] in
  ∃ fs', recreate_destination "/d" w = (Ok tt, World fs' [])
         ∧ fs' !! "/d" = Some Dir
         ∧ fs' !! "/d/old.pkg" = None.
Proof.
  intros X w.
  destruct (package_destination_recreated X (demo_env "Win64" "Shipping" ["package"])
              "/p" "Game" "Win64" "Shipping" "/s" "/d" false) as (_ & H & _).
  destruct (H w) as (fs' & Hrun & Hdir & Hempty & _).
  - vm_compute. reflexivity.
  - vm_compute. reflexivity.
  - exists fs'. split; [exact Hrun|]. split; [exact Hdir|].
    apply Hempty. vm_compute. reflexivity.
Defined.

Lemma package_unrecognized_platform_witness :
  let X := demo_externals (λ _, 1%Z) false in
  _package_for_platform X (demo_env "Switch" "Shipping" ["package"]) "/p" "Game" "Switch"
    "Shipping" "/s" "/d" false demo_packaging
  = (Ok tt, World (<["/d" := Dir]> (fs_rmtree (fs demo_packaging) "/d")) []).
Proof.
  intros X.
  destruct (package_unrecognized_platform X (demo_env "Switch" "Shipping" ["package"])
              "/p" "Game" "Switch" "Shipping" "/s" "/d" false demo_packaging)
    as (_ & _ & H).
  - vm_compute. intros H. repeat (apply elem_of_cons in H as [H|H]; [done|]).
    by apply elem_of_nil in H.
  - apply H; [left|]; vm_compute; reflexivity.
Defined.

(** ** More of what the code shows, on the small trees *)

Lemma get_ini_value_reads_one_line_witness :
  (get_ini_value (demo_externals (λ _, 0%Z) true)
     "/p/Config/PS4/PS4Engine.ini" "TitleID" demo_ps4).2 = demo_ps4
  ∧ no_newline "CUSA00001" = true.
Proof.
  destruct (get_ini_value_reads_one_line (demo_externals (λ _, 0%Z) true)
              "/p/Config/PS4/PS4Engine.ini" "TitleID" demo_ps4) as [Hw Hvalue].
  split; [exact Hw|]. apply Hvalue. vm_compute. reflexivity.
Defined.

Lemma stage_file_copies_file_witness :
  let X := demo_externals (λ _, 0%Z) true in
  let w := World {[ "/a" := File "x" ]} [] in
  let w' := World (<["/b" := File "x"]> (fs w)) [] in
  (∃ content,
     "/a" ≠ "/b"
     ∧ fs w !! "/a" = Some (File content)
     ∧ fs w' !! "/b" = Some (File content)
     ∧ fs w' !! "/a" = Some (File content)
     ∧ (∀ q, q ≠ "/b" → fs w' !! q = fs w !! q)
     ∧ log w' = log w)
  ∧ _stage_file X "/c" "/c" false None None w = (Raise (OSError FileNotFoundError "/c"), w)
  ∧ _stage_file X "/a" "/a" false None None w = (Raise (OSError SameFileError "/a"), w).
Proof.
  intros X w w'.
  destruct (stage_file_copies_file X "/a" "/b" None None w) as (Hcopy & _ & _).
  destruct (stage_file_copies_file X "/c" "/c" None None w) as (_ & Hmissing & _).
  destruct (stage_file_copies_file X "/a" "/a" None None w) as (_ & _ & Hsame).
  split; [|split].
  - apply (Hcopy w'). vm_compute. reflexivity.
  - apply Hmissing. vm_compute. reflexivity.
  - apply Hsame; [|reflexivity]. exists (File "x"). vm_compute. reflexivity.
Defined.

Lemma stage_file_release_tier_bounded_witness :
  let X := demo_externals (λ _, 0%Z) true in
  let w := World {[ "/in.xml" := File "<{configuration}>" ]} [] in
  ∃ file_content,
    _stage_file X "/in.xml" "/out.xml" true (Some "XboxOne") (Some "Shipping") w
    = fs_do (λ fs, fs_write fs "/out.xml" file_content) w
    ∧ String.length file_content ≤ String.length "<Shipping>"
    ∧ (¬ has_span "<Shipping>" → file_content = "<Shipping>").
Proof.
  intros X w.
  apply (stage_file_release_tier_bounded X "/in.xml" "/out.xml" (Some "XboxOne")
           "<{configuration}>" "<Shipping>" w); vm_compute; reflexivity.
Defined.

Lemma stage_file_doubled_braces_witness :
  let X := demo_externals (λ _, 0%Z) true in
  let w := World {[ "/in.json" := File "{{'c': '{configuration}'}}" ]} [] in
  _stage_file X "/in.json" "/out.json" true (Some "PS4") (Some "Debug") w
  = fs_do (λ fs, fs_write fs "/out.json" "{'c': 'debug'}") w.
Proof.
  intros X w.
  apply (stage_file_doubled_braces X "/in.json" "/out.json" "PS4" "Debug"
           [PLeft; PText "'c': '"; PToken; PText "'"; PRight] w);
    vm_compute; reflexivity.
Defined.

Lemma package_console_missing_sdk_witness :
  _package_for_platform demo_no_sdk (demo_env "XboxOne" "Debug" ["package"]) "/p" "Game"
    "XboxOne" "Debug" "/s" "/d" false demo_packaging
  = (Raise (KeyError "DurangoXDK"),
     World (<["/d" := Dir]> (fs_rmtree (fs demo_packaging) "/d")) []).
Proof.
  apply (package_console_missing_sdk demo_no_sdk (demo_env "XboxOne" "Debug" ["package"])
           "/p" "Game" "XboxOne" "Debug" "/s" "/d" false demo_packaging).
  - vm_compute. reflexivity.
  - vm_compute. reflexivity.
  - left. split; reflexivity.
Defined.

Lemma package_desktop_bulk_copy_witness :
  let X := demo_externals (λ _, 0%Z) false in
  _package_for_platform X (demo_env "Win64" "Shipping" ["package"]) "/p" "Game" "Win64"
    "Shipping" "/r/s" "/d" false demo_packaging
  = (Raise (RuntimeError "Package failed"),
     World (<["/d" := Dir]> (fs_rmtree (fs demo_packaging) "/d"))
       [ERobocopy "s" "/d" false]).
Proof.
  intros X.
  apply (package_desktop_bulk_copy X (demo_env "Win64" "Shipping" ["package"]) "/p" "Game"
           "Win64" "Shipping" "/r/s" "/d" false demo_packaging
           (World (<["/d" := Dir]> (fs_rmtree (fs demo_packaging) "/d")) [])
           "/"%char "s" false (<["/d" := Dir]> (fs_rmtree (fs demo_packaging) "/d"))).
  - apply (bool_decide_unpack _). vm_compute. exact I.
  - reflexivity.
  - vm_compute. reflexivity.
  - reflexivity.
Defined.

Lemma stage_tool_failure_aborts_witness :
  let X := demo_externals (λ _, 1%Z) true in
  (_stage X "/e" "/p" "/s" "Game" "Win64" "Shipping" None true None demo_ps4).1
  = Raise (RuntimeError "Stage failed").
Proof.
  intros X.
  destruct (stage_tool_failure_aborts X "/e" "/p" "/s" "Game" "Win64" "Shipping" None true
              None demo_ps4) as (stage_command & _ & _ & _ & H).
  by rewrite (H 1%Z (fs demo_ps4) eq_refl ltac:(discriminate)).
Defined.

Lemma initialize_without_target_witness :
  _initialize (demo_externals (λ _, 0%Z) true) demo_env_no_target demo_ps4
  = (Ok tt, World (fs demo_ps4) [EHook "preship" true]).
Proof.
  apply (initialize_without_target (demo_externals (λ _, 0%Z) true) demo_env_no_target
           demo_ps4 true (fs demo_ps4)).
  - by left.
  - reflexivity.
Defined.

Lemma latest_revision_is_best_witness :
  (∀ p, p ∈ ["Win64"; "PS4"] → "120" ∈ revisions_of demo_found "/b/{platform}/{revision}" p)
  ∧ not_after "120" (Some "125") = true
  ∧ ∀ other,
      (∀ p, p ∈ ["Win64"; "PS4"] →
            other ∈ revisions_of demo_found "/b/{platform}/{revision}" p) →
      not_after other (Some "125") = true →
      String.le other "120".
Proof.
  apply (latest_revision_is_best demo_found "/b/{platform}/{revision}" ["Win64"; "PS4"]
           (Some "125") "120").
  vm_compute. reflexivity.
Defined.

Lemma no_revision_means_none_qualifies_witness :
  get_latest_available_revision demo_found "/b/{platform}/{revision}" [] (Some "050")
  = Ok None
  ∧ not_after "100" (Some "050") = false.
Proof.
  split.
  - by apply (no_revision_means_none_qualifies demo_found "/b/{platform}/{revision}" []
                (Some "050")).
  - apply (proj2 (no_revision_means_none_qualifies demo_found "/b/{platform}/{revision}"
                    ["Win64"; "PS4"] (Some "050"))).
    + vm_compute. reflexivity.
    + discriminate.
    + apply Forall_forall. repeat constructor; apply (bool_decide_unpack _);
        vm_compute; exact I.
Defined.

Lemma latest_revision_raises_what_the_scan_raises_witness :
  (∃ r, get_latest_available_revision demo_found "/b/{platform}/{revision}"
          ["Win64"; "PS4"] None = Ok r)
  ∧ ∃ before p after,
      ["Win64"; "XboxOne"; "PS4"] = before ++ p :: after
      ∧ (∀ q, q ∈ before →
              scan_error (demo_found (forward_slashes "/b/{platform}/{revision}") q) = None)
      ∧ scan_error (demo_found (forward_slashes "/b/{platform}/{revision}") p)
        = Some (AttributeError "'NoneType' object has no attribute 'group'").
Proof.
  split.
  - apply (proj1 (latest_revision_raises_what_the_scan_raises demo_found
                    "/b/{platform}/{revision}" ["Win64"; "PS4"] None)).
    apply Forall_forall. repeat constructor.
  - apply (proj2 (latest_revision_raises_what_the_scan_raises demo_found
                    "/b/{platform}/{revision}" ["Win64"; "XboxOne"; "PS4"] None)).
    vm_compute. reflexivity.
Defined.

Lemma latest_revision_ignores_platform_order_witness :
  get_latest_available_revision demo_found "/b/{platform}/{revision}"
    ["PS4"; "Win64"; "PS4"] None
  = Ok (Some "120").
Proof.
  apply (latest_revision_ignores_platform_order demo_found "/b/{platform}/{revision}"
           ["Win64"; "PS4"] ["PS4"; "Win64"; "PS4"] None (Some "120")).
  - intros p. rewrite !elem_of_cons, elem_of_nil. tauto.
  - vm_compute. reflexivity.
Defined.

Lemma stage_xbox_manifest_missing_generated_file_witness :
  let X := demo_externals (λ _, 0%Z) true in
  let w := World {[ "/s/AppxManifest.xml" := File "generated" ]} [] in
  _stage_xbox_manifest X "/p" "/s" "Debug" demo_packaging
  = (Raise (OSError FileNotFoundError "/s/AppxManifest.xml"), demo_packaging)
  ∧ _stage_xbox_manifest X "/p" "/s" "Debug" w
    = (Raise (OSError FileNotFoundError "/s/appdata.bin"),
       World (delete "/s/AppxManifest.xml" (fs w)) []).
Proof.
  intros X w. split.
  - apply (stage_xbox_manifest_missing_generated_file X "/p" "/s" "Debug" demo_packaging).
    vm_compute. reflexivity.
  - apply (proj2 (stage_xbox_manifest_missing_generated_file X "/p" "/s" "Debug" w)
             "generated"); vm_compute; reflexivity.
Defined.

Lemma stage_ps4_renames_binary_witness :
  let X := demo_externals (λ _, 0%Z) true in
  let w := World (list_to_map [ ("/s/game/binaries/ps4", Dir);
                                ("/s/game/binaries/ps4/game.self", File "elf") ]) [] in
  let staged := _stage X "/e" "/p" "/s" "Game" "PS4" "Debug" None false None w in
  staged.1 = Ok tt
  ∧ fs staged.2 !! "/s/game/binaries/ps4/game.self" = None
  ∧ fs staged.2 !! "/s/game/binaries/ps4/game-ps4-development.self" = Some (File "elf").
Proof.
  intros X w staged.
  destruct (stage_ps4_renames_binary X "/e" "/p" "/s" "Game" "Debug" None false None w (fs w))
    as [_ H].
  - intros command. reflexivity.
  - reflexivity.
  - reflexivity.
  - destruct (H "elf") as (Hok & Hsrc & Hdst & _).
    + vm_compute. reflexivity.
    + vm_compute. discriminate.
    + vm_compute. reflexivity.
    + split; [exact Hok|]. split; [exact Hsrc | exact Hdst].
Defined.

Lemma cook_runs_one_tool_witness :
  let X := demo_externals (λ _, 2%Z) true in
  (_cook X "/e" "Game" "PS4" true demo_ps4).1 = Raise (RuntimeError "Cook failed")
  ∧ fs (_cook X "/e" "Game" "PS4" true demo_ps4).2 = fs demo_ps4.
Proof.
  intros X.
  destruct (cook_runs_one_tool X "/e" "Game" "PS4" true demo_ps4)
    as (cook_command & _ & _ & H).
  rewrite (H 2%Z (fs demo_ps4) eq_refl). split; reflexivity.
Defined.

Lemma package_xboxone_existing_destination_witness :
  let X := demo_externals (λ _, 0%Z) true in
  let w := World (<["/d/Debug" := Dir]> (fs demo_packaging)) [] in
  package_xboxone X "MakePkg" "/s/era.xvd" "/s" "/d" "Game" "P-1" "C-1" false "Debug" w
  = (Raise (OSError FileExistsError "/d/Debug"), w).
Proof.
  intros X w.
  apply (package_xboxone_existing_destination X "MakePkg" "/s/era.xvd" "/s" "/d" "Game"
           "P-1" "C-1" false "Debug" w).
  exists Dir. vm_compute. reflexivity.
Defined.
